(** * Campaign provisioning, error classification, trend matching and the
      campaign registry of the google-ads service, embedded in Rocq.

    The development follows the TypeScript sources:
    - [google-ads.service.ts]  : the provisioning saga, its rollback, the
      error classifier ([GoogleAdsService]);
    - [articles.service.ts]    : the catalogue of articles, the relevance
      scorer and the matcher ([ArticlesService]), with the listing and the
      removal of [ArticlesController];
    - [campaigns.service.ts]   : the in-memory registry, the campaigns made
      on request and from the trends, the sweep ([CampaignsService]), with
      the answers of [CampaignsController];
    - [google-trends.service.ts] : the reading of the answers of the trends
      API ([GoogleTrendsService]).

    Conventions of the embedding.
    - JavaScript data of type [any] is the tree type [value]; numbers are
      integers ([Z]); an object is the list of its own properties and has no
      method of its own, so that its conversion to a text is the built-in
      one.
    - A string is the sequence of its UTF-16 code units, one [ascii] for
      each: the texts covered are those whose code units are below 256
      (Basic Latin and Latin-1 Supplement).  On them lengths, cuts, case
      folding and white space are those of JavaScript.  [Str.text] reads a
      literal that this file holds in UTF-8.
    - A computation that may throw returns a [result]; asynchronous code runs
      in the monad [M], whose state ([world]) survives a throw, as the fields
      of a JavaScript object do.
    - The platform is a function of the history of events and of the call;
      it resolves a call with a resource name or rejects it with any value,
      the failure objects of its SDK ([Platform.Failure]) among them.  A
      [catch] clause receives that value as it is.
    - A date is its time value; the clock is read by index.
    - What the sources take from outside is a parameter: the random text of
      [generateId], the functions of the trends API and [JSON.parse], the
      trends service that [CampaignsService] is given.
    - The object that a request carries for [update] is not checked when the
      program runs; its properties that an [Article] has are modelled, at
      the types that [Article] declares.
    - Log output is not part of the model; an exception raised while a log
      message is built is. *)

From Stdlib Require Import ZArith List String Ascii Bool Lia.
From Stdlib Require Import Sorted Permutation DecimalString.
From Stdlib Require DecimalZ DecimalPos.
Import ListNotations.

Set Warnings "-register-all".
#[local] Open Scope string_scope.
#[local] Open Scope Z_scope.

(** ** JavaScript values *)

Inductive value : Type :=
| JUndefined
| JNull
| JBool (b : bool)
| JNum (n : Z)
| JStr (s : string)
| JArr (items : list value)
| JObj (fields : list (string * value)).

(** What a [throw] carries.  [Thrown] is any plain datum (the reason of a
    rejected call, for one); the others are the classes the sources name or
    the engine raises. *)
Inductive exn : Type :=
| Thrown (payload : value)
| TypeError (msg : string)
| RangeError (msg : string)
| HttpException (response : value) (status : Z)
| NotFoundException (msg : string).

Inductive result (A : Type) : Type :=
| Ok (a : A)
| Throw (e : exn).
Arguments Ok {A} a.
Arguments Throw {A} e.

Definition rbind {A B} (r : result A) (k : A -> result B) : result B :=
  match r with
  | Ok a => k a
  | Throw e => Throw e
  end.

Declare Scope result_scope.
Delimit Scope result_scope with result.
Notation "'let?' x ':=' r 'in' k" := (rbind r (fun x => k))
  (at level 10, x pattern, r at level 100, k at level 200) : result_scope.
#[local] Open Scope result_scope.

Fixpoint mapR {A B} (f : A -> result B) (l : list A) : result (list B) :=
  match l with
  | [] => Ok []
  | x :: xs =>
      let? y := f x in
      let? ys := mapR f xs in
      Ok (y :: ys)
  end.

Module JS.

Definition dquote : ascii := ascii_of_nat 34.
Definition backslash : ascii := ascii_of_nat 92.

Definition decimal (n : Z) : string := NilZero.string_of_int (Z.to_int n).

Definition nullish (v : value) : bool :=
  match v with
  | JUndefined | JNull => true
  | _ => false
  end.

(** ToBoolean. *)
Definition truthy (v : value) : bool :=
  match v with
  | JUndefined | JNull => false
  | JBool b => b
  | JNum n => negb (n =? 0)
  | JStr s => negb (s =? "")%string
  | JArr _ | JObj _ => true
  end.

(** [a || b]. *)
Definition or (a b : value) : value := if truthy a then a else b.

Fixpoint lookup (k : string) (fields : list (string * value)) : value :=
  match fields with
  | [] => JUndefined
  | (k', v) :: rest => if (k =? k')%string then v else lookup k rest
  end.

(** The property [k] of a value that is not null or undefined.  The
    sources read named fields only; of the built-in properties of arrays
    and strings just [length] is one of them. *)
Definition prop (v : value) (k : string) : value :=
  match v with
  | JObj fields => lookup k fields
  | JArr items =>
      if (k =? "length")%string then JNum (Z.of_nat (List.length items))
      else JUndefined
  | JStr s =>
      if (k =? "length")%string then JNum (Z.of_nat (String.length s))
      else JUndefined
  | _ => JUndefined
  end.

(** [v.k]: a TypeError on null and undefined. *)
Definition get (v : value) (k : string) : result value :=
  if nullish v
  then Throw (TypeError ("Cannot read properties of " ++
                           (match v with JNull => "null" | _ => "undefined" end)
                           ++ " (reading '" ++ k ++ "')"))
  else Ok (prop v k).

(** [v?.k]. *)
Definition get_opt (v : value) (k : string) : value :=
  if nullish v then JUndefined else prop v k.

Definition isArray (v : value) : bool :=
  match v with
  | JArr _ => true
  | _ => false
  end.

(** The elements of an array (used once [isArray] has answered). *)
Definition items_of (v : value) : list value :=
  match v with
  | JArr items => items
  | _ => []
  end.

Definition index_keys (n : nat) : list string :=
  map (fun i => decimal (Z.of_nat i)) (seq 0 n).

Fixpoint chars (s : string) : list string :=
  match s with
  | EmptyString => []
  | String c rest => String c EmptyString :: chars rest
  end.

(** [Object.keys] and [Object.values]; the fields of an object are listed
    in its enumeration order. *)
Definition Object_keys (v : value) : result (list string) :=
  match v with
  | JUndefined | JNull =>
      Throw (TypeError "Cannot convert undefined or null to object")
  | JObj fields => Ok (map fst fields)
  | JArr items => Ok (index_keys (List.length items))
  | JStr s => Ok (index_keys (String.length s))
  | _ => Ok []
  end.

Definition Object_values (v : value) : result (list value) :=
  match v with
  | JUndefined | JNull =>
      Throw (TypeError "Cannot convert undefined or null to object")
  | JObj fields => Ok (map snd fields)
  | JArr items => Ok items
  | JStr s => Ok (map JStr (chars s))
  | _ => Ok []
  end.

(** [xs[0]]. *)
Definition first {A} (inj : A -> value) (xs : list A) : value :=
  match xs with
  | [] => JUndefined
  | x :: _ => inj x
  end.

(** ToString. *)
Fixpoint toStr (v : value) : string :=
  match v with
  | JUndefined => "undefined"
  | JNull => "null"
  | JBool true => "true"
  | JBool false => "false"
  | JNum n => decimal n
  | JStr s => s
  | JArr items =>
      String.concat ","
        (map (fun x => match x with
                       | JUndefined | JNull => ""
                       | _ => toStr x
                       end) items)
  | JObj _ => "[object Object]"
  end.

(** [items.join(sep)]. *)
Definition join (sep : string) (items : list value) : string :=
  String.concat sep
    (map (fun x => if nullish x then "" else toStr x) items).

Definition hex_digit (n : nat) : ascii :=
  ascii_of_nat (if Nat.ltb n 10 then 48 + n else 87 + n).

Definition escape_char (c : ascii) : string :=
  let n := nat_of_ascii c in
  if Nat.eqb n 34 then String backslash (String dquote "")
  else if Nat.eqb n 92 then String backslash (String backslash "")
  else if Nat.eqb n 8 then String backslash "b"
  else if Nat.eqb n 9 then String backslash "t"
  else if Nat.eqb n 10 then String backslash "n"
  else if Nat.eqb n 12 then String backslash "f"
  else if Nat.eqb n 13 then String backslash "r"
  else if Nat.ltb n 32
       then String backslash
              ("u00" ++ String (hex_digit (Nat.div n 16))
                          (String (hex_digit (Nat.modulo n 16)) ""))
  else String c "".

Fixpoint escape (s : string) : string :=
  match s with
  | EmptyString => ""
  | String c rest => escape_char c ++ escape rest
  end.

Definition quote (s : string) : string :=
  String dquote (escape s ++ String dquote "").

(** The text of [JSON.stringify(v)], [None] when it is undefined. *)
Fixpoint serialize (v : value) : option string :=
  match v with
  | JUndefined => None
  | JNull => Some "null"
  | JBool true => Some "true"
  | JBool false => Some "false"
  | JNum n => Some (decimal n)
  | JStr s => Some (quote s)
  | JArr items =>
      Some ("[" ++ String.concat ","
                     (map (fun x => match serialize x with
                                    | Some t => t
                                    | None => "null"
                                    end) items) ++ "]")
  | JObj fields =>
      Some ("{" ++ String.concat ","
                     (flat_map (fun kv => match serialize (snd kv) with
                                          | Some t => [quote (fst kv) ++ ":" ++ t]
                                          | None => []
                                          end) fields) ++ "}")
  end.

Definition JSON_stringify (v : value) : value :=
  match serialize v with
  | Some t => JStr t
  | None => JUndefined
  end.

(** [v === s] for a string literal [s]. *)
Definition is_str (v : value) (s : string) : bool :=
  match v with
  | JStr t => (t =? s)%string
  | _ => false
  end.

End JS.

(** ** HTTP status codes (NestJS [HttpStatus]) *)

Module HttpStatus.
Definition BAD_REQUEST : Z := 400.
Definition UNAUTHORIZED : Z := 401.
Definition FORBIDDEN : Z := 403.
Definition NOT_FOUND : Z := 404.
Definition TOO_MANY_REQUESTS : Z := 429.
Definition INTERNAL_SERVER_ERROR : Z := 500.
End HttpStatus.

(** ** The error classifier of [GoogleAdsService] *)

Record FormattedError : Type := mkFormattedError {
  fe_code : value;
  fe_type : value;
  fe_message : value;
  fe_field : value;
  fe_trigger : value
}.

Record ErrorDetails : Type := mkErrorDetails {
  statusCode : Z;
  message : value;
  errors : list FormattedError;
  requestId : value
}.

Module Classifier.
Import HttpStatus.

(** [error.error_code || {}], then its first key and first value. *)
Definition errorCode_of (error : value) : result value :=
  let? ec := JS.get error "error_code" in
  Ok (JS.or ec (JObj [])).

Definition errorType_of (errorCode : value) : result value :=
  let? keys := JS.Object_keys errorCode in
  Ok (JS.first JStr keys).

Definition errorValue_of (errorCode : value) : result value :=
  let? vals := JS.Object_values errorCode in
  Ok (JS.first (fun v => v) vals).

(** The first test of the loop body of [determineStatusCode]. *)
Definition is_validation (errorType errorValue : value) : bool :=
  JS.is_str errorType "range_error" ||
  JS.is_str errorType "currency_error" ||
  JS.is_str errorType "string_length_error" ||
  JS.is_str errorType "field_error" ||
  JS.is_str errorValue "DUPLICATE_CAMPAIGN_NAME" ||
  JS.is_str errorValue "DUPLICATE_NAME" ||
  JS.is_str errorValue "TOO_LOW" ||
  JS.is_str errorValue "TOO_HIGH" ||
  JS.is_str errorValue "VALUE_NOT_MULTIPLE_OF_BILLABLE_UNIT".

Fixpoint determineStatusCode (errors : list value) : result Z :=
  match errors with
  | [] => Ok BAD_REQUEST
  | error :: rest =>
      let? errorCode := errorCode_of error in
      let? errorType := errorType_of errorCode in
      let? errorValue := errorValue_of errorCode in
      if is_validation errorType errorValue then Ok BAD_REQUEST
      else if JS.is_str errorType "authentication_error" then Ok UNAUTHORIZED
      else if JS.is_str errorType "authorization_error" then Ok FORBIDDEN
      else if JS.is_str errorType "resource_not_found_error" then Ok NOT_FOUND
      else if JS.is_str errorType "quota_error" then Ok TOO_MANY_REQUESTS
      else determineStatusCode rest
  end.

(** [e.location?.field_path_elements?.map(f => f.field_name).join('.') || null] *)
Definition field_of (e : value) : result value :=
  let? location := JS.get e "location" in
  let elements := JS.get_opt location "field_path_elements" in
  if JS.nullish elements then Ok JNull
  else if JS.isArray elements then
    let? names := mapR (fun f => JS.get f "field_name") (JS.items_of elements) in
    Ok (JS.or (JStr (JS.join "." names)) JNull)
  else Throw (TypeError "e.location?.field_path_elements?.map is not a function").

(** The callback of [error.errors.map] in [extractGoogleAdsErrorDetails]. *)
Definition formatError (e : value) : result FormattedError :=
  let? ec := JS.get e "error_code" in
  let? code := if JS.truthy ec
               then (let? keys := JS.Object_keys ec in Ok (JS.first JStr keys))
               else Ok (JStr "UNKNOWN") in
  let? type := if JS.truthy ec
               then (let? vals := JS.Object_values ec in
                     Ok (JS.first (fun v => v) vals))
               else Ok (JStr "UNKNOWN") in
  let? m := JS.get e "message" in
  let? field := field_of e in
  let? tr := JS.get e "trigger" in
  let? trigger := if JS.truthy tr
                  then (let? vals := JS.Object_values tr in
                        Ok (JS.first (fun v => v) vals))
                  else Ok JNull in
  Ok (mkFormattedError code type (JS.or m (JStr "Unknown error")) field trigger).

Definition has_errors (error : value) : bool :=
  let errs := JS.get_opt error "errors" in
  JS.truthy errs && JS.isArray errs && (0 <? Z.of_nat (List.length (JS.items_of errs))).

Definition extractGoogleAdsErrorDetails (error : value) : result ErrorDetails :=
  let requestId := JS.or (JS.get_opt error "request_id") JNull in
  if has_errors error then
    let errs := JS.items_of (JS.get_opt error "errors") in
    let? formattedErrors := mapR formatError errs in
    let? statusCode := determineStatusCode errs in
    let primaryMessage :=
      JS.or (match formattedErrors with
             | [] => JUndefined
             | fe :: _ => fe_message fe
             end) (JStr "Google Ads API error") in
    Ok (mkErrorDetails statusCode primaryMessage formattedErrors requestId)
  else
    Ok (mkErrorDetails INTERNAL_SERVER_ERROR
          (JS.or (JS.get_opt error "message") (JStr "An unexpected error occurred"))
          [] requestId).

(** [extractErrorMessage], used by the rollback to word its log lines. *)
Definition extractErrorMessage (error : value) : result value :=
  if negb (JS.truthy error) then Ok (JStr "Unknown error")
  else if has_errors error then
    let? messages :=
      mapR (fun e => let? m := JS.get e "message" in
                     if JS.truthy m then Ok m
                     else (let? ec := JS.get e "error_code" in
                           Ok (JS.JSON_stringify ec)))
           (JS.items_of (JS.prop error "errors")) in
    Ok (JStr (JS.join "; " messages))
  else if JS.truthy (JS.prop error "message") then Ok (JS.prop error "message")
  else Ok (JS.JSON_stringify error).

End Classifier.

(** ** Strings *)

Module Str.

(** The code unit. *)
Definition code (c : ascii) : nat := nat_of_ascii c.

Definition between (lo hi n : nat) : bool := Nat.leb lo n && Nat.leb n hi.

(** The code units that [toLowerCase] changes: A to Z, and the capital
    letters of the Latin-1 Supplement, U+00C0 to U+00DE without the
    multiplication sign U+00D7.  The small letter is 32 further. *)
Definition is_upper (c : ascii) : bool :=
  between 65 90 (code c) || between 192 214 (code c) || between 216 222 (code c).

Definition lower_char (c : ascii) : ascii :=
  if is_upper c then ascii_of_nat (code c + 32) else c.

Fixpoint toLowerCase (s : string) : string :=
  match s with
  | EmptyString => EmptyString
  | String c rest => String (lower_char c) (toLowerCase rest)
  end.

(** The class [\s] below 256: tab, line feed, vertical tab, form feed,
    carriage return, space, and the no-break space U+00A0. *)
Definition is_space (c : ascii) : bool :=
  between 9 13 (code c) || Nat.eqb (code c) 32 || Nat.eqb (code c) 160.

(** The code units of a text that is written in UTF-8: the two bytes of a
    character from U+0080 to U+00FF become its one code unit. *)
Fixpoint text (utf8 : string) : string :=
  match utf8 with
  | EmptyString => EmptyString
  | String c rest =>
      match rest with
      | String d rest' =>
          if Nat.eqb (code c) 194 then String d (text rest')
          else if Nat.eqb (code c) 195
               then String (ascii_of_nat (code d + 64)) (text rest')
               else String c (text rest)
      | EmptyString => String c EmptyString
      end
  end.

Definition snoc (s : string) (c : ascii) : string := s ++ String c EmptyString.

(** [s.split(/\s+/)], with [cur] the piece being read and [gap] telling
    that the last character closed a piece. *)
Fixpoint split_ws_from (s : string) (cur : string) (gap : bool) : list string :=
  match s with
  | EmptyString => [cur]
  | String c rest =>
      if is_space c
      then (if gap then split_ws_from rest cur true
            else cur :: split_ws_from rest EmptyString true)
      else split_ws_from rest (snoc cur c) false
  end.

Definition split_ws (s : string) : list string := split_ws_from s EmptyString false.

(** [s.split(sep)] for a one-character separator. *)
Fixpoint split_from (sep : ascii) (s : string) (cur : string) : list string :=
  match s with
  | EmptyString => [cur]
  | String c rest =>
      if Ascii.eqb c sep then cur :: split_from sep rest EmptyString
      else split_from sep rest (snoc cur c)
  end.

Definition split (sep : ascii) (s : string) : list string :=
  split_from sep s EmptyString.

(** [s.includes(t)]. *)
Fixpoint includes (s t : string) : bool :=
  if String.prefix t s then true
  else match s with
       | EmptyString => false
       | String _ rest => includes rest t
       end.

(** [s.replace(/-/g, '')]. *)
Fixpoint remove_char (x : ascii) (s : string) : string :=
  match s with
  | EmptyString => EmptyString
  | String c rest =>
      if Ascii.eqb c x then remove_char x rest else String c (remove_char x rest)
  end.

(** [s.substring(0, n)]: the first [n] code units. *)
Definition substring0 (n : nat) (s : string) : string := String.substring 0 n s.

End Str.

(** ** Dates *)

Module JSDate.

(** A [Date] is its time value in milliseconds since the epoch; [None] is
    the invalid date. *)
Definition Date : Type := option Z.

Definition msPerDay : Z := 86400000.
Definition maxTime : Z := 8640000000000000.

(** [new Date(t)] *)
Definition TimeClip (t : Z) : Date :=
  if Z.abs t <=? maxTime then Some t else None.

(** [new Date(d.getTime() + delta)] *)
Definition plus (d : Date) (delta : Z) : Date :=
  match d with
  | Some t => TimeClip (t + delta)
  | None => None
  end.

(** Year, month and day (UTC) of a day number counted from the epoch. *)
Definition civil (days : Z) : Z * Z * Z :=
  let z := days + 719468 in
  let era := z / 146097 in
  let doe := z - era * 146097 in
  let yoe := (doe - doe / 1460 + doe / 36524 - doe / 146096) / 365 in
  let doy := doe - (365 * yoe + yoe / 4 - yoe / 100) in
  let mp := (5 * doy + 2) / 153 in
  let d := doy - (153 * mp + 2) / 5 + 1 in
  let m := if mp <? 10 then mp + 3 else mp - 9 in
  (if m <=? 2 then yoe + era * 400 + 1 else yoe + era * 400, m, d).

Definition digit (k : Z) : ascii := ascii_of_nat (48 + Z.to_nat (k mod 10)).

Fixpoint pad (width : nat) (n : Z) : string :=
  match width with
  | O => EmptyString
  | S w => Str.snoc (pad w (n / 10)) (digit n)
  end.

Definition year_text (y : Z) : string :=
  if (0 <=? y) && (y <=? 9999) then pad 4 y
  else if y <? 0 then "-" ++ pad 6 (- y)
  else "+" ++ pad 6 y.

Definition iso_date (t : Z) : string :=
  let '(y, m, d) := civil (t / msPerDay) in
  year_text y ++ "-" ++ pad 2 m ++ "-" ++ pad 2 d.

Definition iso_time (t : Z) : string :=
  let ms := t mod msPerDay in
  pad 2 (ms / 3600000) ++ ":" ++ pad 2 (ms / 60000 mod 60) ++ ":" ++
  pad 2 (ms / 1000 mod 60) ++ "." ++ pad 3 (ms mod 1000) ++ "Z".

(** [d.toISOString()] *)
Definition toISOString (d : Date) : result string :=
  match d with
  | Some t => Ok (iso_date t ++ "T" ++ iso_time t)
  | None => Throw (RangeError "Invalid time value")
  end.

(** [a < b] on dates. *)
Definition lt (a b : Date) : bool :=
  match a, b with
  | Some x, Some y => x <? y
  | _, _ => false
  end.

End JSDate.

(** ** The interfaces of [common/interfaces] *)

Module CampaignStatus.
Inductive t : Type := ENABLED | PAUSED | REMOVED.
End CampaignStatus.

Module StoredStatus.
Inductive t : Type := ACTIVE | PAUSED | EXPIRED.
Definition eqb (a b : t) : bool :=
  match a, b with
  | ACTIVE, ACTIVE | PAUSED, PAUSED | EXPIRED, EXPIRED => true
  | _, _ => false
  end.
End StoredStatus.

Record CampaignConfig : Type := mkCampaignConfig {
  cfg_name : string;
  cfg_budgetMicros : Z;
  cfg_cpcBidMicros : Z;
  cfg_startDate : JSDate.Date;
  cfg_endDate : JSDate.Date;
  cfg_keywords : list string;
  cfg_finalUrl : string;
  cfg_headlines : list string;
  cfg_descriptions : list string
}.

Record CampaignResult : Type := mkCampaignResult {
  campaignId : string;
  adGroupId : string;
  res_status : CampaignStatus.t;
  resourceName : string
}.

Record TrendArticle : Type := mkTrendArticle {
  ta_title : string;
  ta_url : string;
  ta_source : string;
  ta_snippet : string
}.

Record TrendingSearch : Type := mkTrendingSearch {
  keyword : string;
  traffic : string;
  relatedQueries : list string;
  trend_articles : list TrendArticle
}.

Record Article : Type := mkArticle {
  art_id : string;
  title : string;
  url : string;
  keywords : list string;
  category : string;
  publishedAt : JSDate.Date;
  shortDescription : option string
}.

Record TrendMatch : Type := mkTrendMatch {
  trend : TrendingSearch;
  article : Article;
  score : Z
}.

Record StoredCampaign : Type := mkStoredCampaign {
  sc_id : string;
  articleId : string;
  trendKeyword : string;
  sc_result : CampaignResult;
  createdAt : JSDate.Date;
  expiresAt : JSDate.Date;
  sc_status : StoredStatus.t
}.

Record CreateExpressCampaignDto : Type := mkCreateExpressCampaignDto {
  dto_articleId : string;
  dto_trendKeyword : string;
  dto_budgetMicros : option Z;
  dto_durationHours : option Z
}.

Record CreateCampaignDto : Type := mkCreateCampaignDto {
  cc_name : string;
  cc_budgetMicros : Z;
  cc_cpcBidMicros : option Z;
  cc_durationHours : Z;
  cc_keywords : list string;
  cc_finalUrl : string;
  cc_headlines : list string;
  cc_descriptions : list string
}.

Record CreateArticleDto : Type := mkCreateArticleDto {
  ca_title : string;
  ca_url : string;
  ca_keywords : list string;
  ca_category : string;
  ca_shortDescription : option string
}.

(** The object that [update] is given.  Its declared type,
    [Partial<CreateArticleDto>], names the first five properties; it is a
    type of the compiler only, no class that a validation could use, so the
    object can have the two other properties of an [Article] as well. *)
Record UpdateArticleDto : Type := mkUpdateArticleDto {
  ua_title : option string;
  ua_url : option string;
  ua_keywords : option (list string);
  ua_category : option string;
  ua_shortDescription : option string;
  ua_id : option string;
  ua_publishedAt : option JSDate.Date
}.

(** ** The advertising platform *)

Module Platform.

(** A resource name as the platform forms it:
    [customers/{customer}/{collection}/{id}]. *)
Record ResourceName : Type := mkResourceName {
  customer : string;
  collection : string;
  resource_id : string
}.

Definition resource_name (r : ResourceName) : string :=
  "customers/" ++ customer r ++ "/" ++ collection r ++ "/" ++ resource_id r.

Inductive BudgetDeliveryMethod : Type := STANDARD.
Inductive AdvertisingChannelType : Type := SEARCH.
Inductive AdGroupStatus : Type := AdGroup_ENABLED.
Inductive AdGroupType : Type := SEARCH_STANDARD.
Inductive AdGroupCriterionStatus : Type := Criterion_ENABLED.
Inductive KeywordMatchType : Type := BROAD.
Inductive AdGroupAdStatus : Type := Ad_ENABLED.

Record BudgetData : Type := mkBudgetData {
  budget_name : string;
  amount_micros : Z;
  delivery_method : BudgetDeliveryMethod
}.

Record ManualCpc : Type := mkManualCpc { enhanced_cpc_enabled : bool }.

Record NetworkSettings : Type := mkNetworkSettings {
  target_google_search : bool;
  target_search_network : bool;
  target_content_network : bool
}.

Record CampaignData : Type := mkCampaignData {
  campaign_name : string;
  advertising_channel_type : AdvertisingChannelType;
  status : CampaignStatus.t;
  campaign_budget : option string;
  manual_cpc : ManualCpc;
  network_settings : NetworkSettings;
  start_date : string;
  end_date : string;
  contains_eu_political_advertising : string
}.

Record AdGroupData : Type := mkAdGroupData {
  ag_campaign : string;
  ag_name : string;
  ag_status : AdGroupStatus;
  ag_type : AdGroupType;
  cpc_bid_micros : Z
}.

Record KeywordOperation : Type := mkKeywordOperation {
  kw_ad_group : string;
  kw_status : AdGroupCriterionStatus;
  kw_text : string;
  kw_match_type : KeywordMatchType
}.

Record AdData : Type := mkAdData {
  ad_ad_group : string;
  ad_status : AdGroupAdStatus;
  ad_headlines : list string;
  ad_descriptions : list string;
  final_urls : list string
}.

(** The calls of [this.customer]. *)
Inductive call : Type :=
| campaignBudgets_create (data : BudgetData)
| campaigns_create (data : CampaignData)
| adGroups_create (data : AdGroupData)
| adGroupCriteria_create (operations : list KeywordOperation)
| adGroupAds_create (data : AdData)
| campaigns_remove (name : string)
| campaigns_update (name : string) (st : CampaignStatus.t)
| campaignBudgets_remove (name : string).

(** What the SDK rejects a call with when it works as documented: a
    [GoogleAdsFailure] (sub-errors and a request id, any field possibly
    absent) or an [Error] with a message. *)
Record FieldPathElement : Type := mkFieldPathElement {
  field_name : option string;
  index : option Z
}.

Record GoogleAdsError : Type := mkGoogleAdsError {
  error_code : option (list (string * value));
  error_message : option string;
  trigger : option (list (string * value));
  location : option (list FieldPathElement)
}.

Inductive Failure : Type :=
| GoogleAdsFailure (errors : list GoogleAdsError) (request_id : option string)
| PlainError (message : string).

Definition opt_field {A} (k : string) (f : A -> value) (o : option A)
  : list (string * value) :=
  match o with
  | Some x => [(k, f x)]
  | None => []
  end.

Definition element_value (f : FieldPathElement) : value :=
  JObj (opt_field "field_name" JStr (field_name f) ++ opt_field "index" JNum (index f)).

Definition error_value (e : GoogleAdsError) : value :=
  JObj (opt_field "error_code" JObj (error_code e) ++
        opt_field "message" JStr (error_message e) ++
        opt_field "trigger" JObj (trigger e) ++
        opt_field "location"
          (fun els => JObj [("field_path_elements", JArr (map element_value els))])
          (location e)).

(** The failure as the value that a [catch] clause receives. *)
Definition failure_value (f : Failure) : value :=
  match f with
  | GoogleAdsFailure errs rid =>
      JObj (("errors", JArr (map error_value errs)) :: opt_field "request_id" JStr rid)
  | PlainError m => JObj [("message", JStr m)]
  end.

(** The answer to a call: the promise resolves, or it rejects with a
    reason, which can be any value. *)
Inductive response : Type :=
| Resolved (name : ResourceName)
| Rejected (reason : value).

(** The rejection that carries a failure object of the SDK. *)
Definition fails (f : Failure) : response := Rejected (failure_value f).

(** What happened on the platform side, in order. *)
Inductive event : Type :=
| Called (c : call) (r : response)
| Slept (ms : Z).

End Platform.

(** ** Asynchronous code: state, the platform, the clock, exceptions *)

Record Defaults : Type := mkDefaults {
  defaultBudgetMicros : Z;
  defaultCpcBidMicros : Z;
  defaultDurationHours : Z
}.

(** The surroundings of a run: the platform answers a call knowing all that
    happened before; [clock n] is the [n]-th reading of the clock. *)
Record env : Type := mkEnv {
  platform : list Platform.event -> Platform.call -> Platform.response;
  clock : nat -> Z;
  defaults : Defaults
}.

(** The mutable state: the trace of platform events, the number of clock
    readings, the two in-memory maps (in insertion order), and the two local
    variables that [createCampaign] shares between its [try] and [catch]. *)
Record world : Type := mkWorld {
  trace : list Platform.event;
  ticks : nat;
  campaigns : list (string * StoredCampaign);
  articles : list (string * Article);
  budgetResourceName : option string;
  campaignResourceName : option string
}.

Definition M (A : Type) : Type := env -> world -> world * result A.

Definition ret {A} (a : A) : M A := fun _ w => (w, Ok a).

Definition throw {A} (e : exn) : M A := fun _ w => (w, Throw e).

Definition bind {A B} (m : M A) (k : A -> M B) : M B :=
  fun E w =>
    match m E w with
    | (w', Ok a) => k a E w'
    | (w', Throw e) => (w', Throw e)
    end.

Definition try_catch {A} (body : M A) (handler : exn -> M A) : M A :=
  fun E w =>
    match body E w with
    | (w', Ok a) => (w', Ok a)
    | (w', Throw e) => handler e E w'
    end.

Definition lift {A} (r : result A) : M A := fun _ w => (w, r).

Definition gets {A} (f : world -> A) : M A := fun _ w => (w, Ok (f w)).

Definition modify (f : world -> world) : M unit := fun _ w => (f w, Ok tt).

Definition asks {A} (f : env -> A) : M A := fun E w => (w, Ok (f E)).

Declare Scope M_scope.
Delimit Scope M_scope with M.
Notation "x <- m ;; k" := (bind m (fun x => k))
  (at level 61, m at next level, right associativity) : M_scope.
Notation "m ;; k" := (bind m (fun _ => k))
  (at level 61, right associativity) : M_scope.
#[local] Open Scope M_scope.

Definition set_trace (t : list Platform.event) (w : world) : world :=
  mkWorld t (ticks w) (campaigns w) (articles w)
          (budgetResourceName w) (campaignResourceName w).
Definition set_ticks (n : nat) (w : world) : world :=
  mkWorld (trace w) n (campaigns w) (articles w)
          (budgetResourceName w) (campaignResourceName w).
Definition set_campaigns (c : list (string * StoredCampaign)) (w : world) : world :=
  mkWorld (trace w) (ticks w) c (articles w)
          (budgetResourceName w) (campaignResourceName w).
Definition set_articles (a : list (string * Article)) (w : world) : world :=
  mkWorld (trace w) (ticks w) (campaigns w) a
          (budgetResourceName w) (campaignResourceName w).
Definition set_budgetResourceName (b : option string) (w : world) : world :=
  mkWorld (trace w) (ticks w) (campaigns w) (articles w) b (campaignResourceName w).
Definition set_campaignResourceName (c : option string) (w : world) : world :=
  mkWorld (trace w) (ticks w) (campaigns w) (articles w) (budgetResourceName w) c.

(** [await this.customer. ...]: the platform answers, the event is recorded,
    a rejection is thrown. *)
Definition await (c : Platform.call) : M string :=
  fun E w =>
    let r := platform E (trace w) c in
    let w' := set_trace (trace w ++ [Platform.Called c r]) w in
    match r with
    | Platform.Resolved name => (w', Ok (Platform.resource_name name))
    | Platform.Rejected reason => (w', Throw (Thrown reason))
    end.

(** [await new Promise(resolve => setTimeout(resolve, ms))] *)
Definition sleep (ms : Z) : M unit :=
  modify (fun w => set_trace (trace w ++ [Platform.Slept ms]) w).

(** [Date.now()] *)
Definition Date_now : M Z :=
  fun E w => (set_ticks (S (ticks w)) w, Ok (clock E (ticks w))).

(** [new Date()] *)
Definition Date_new : M JSDate.Date :=
  t <- Date_now ;; ret (Some t).

Fixpoint foldM {A S} (body : S -> A -> M S) (xs : list A) (s : S) : M S :=
  match xs with
  | [] => ret s
  | x :: rest => s' <- body s x ;; foldM body rest s'
  end.

(** [xs.map(f)] for an [f] with effects. *)
Fixpoint mapM {A B} (f : A -> M B) (xs : list A) : M (list B) :=
  match xs with
  | [] => ret []
  | x :: rest => y <- f x ;; ys <- mapM f rest ;; ret (y :: ys)
  end.

(** ** [Map] and [Array.prototype.sort] *)

Module JSMap.
Section Ops.
Context {V : Type}.

Fixpoint get (k : string) (m : list (string * V)) : option V :=
  match m with
  | [] => None
  | (k', v) :: rest => if (k =? k')%string then Some v else get k rest
  end.

Definition has (k : string) (m : list (string * V)) : bool :=
  match get k m with
  | Some _ => true
  | None => false
  end.

(** The value under [k] replaced, the entry keeping its place. *)
Fixpoint adjust (k : string) (f : V -> V) (m : list (string * V))
  : list (string * V) :=
  match m with
  | [] => []
  | (k', v) :: rest =>
      if (k =? k')%string then (k', f v) :: rest
      else (k', v) :: adjust k f rest
  end.

Definition set (k : string) (v : V) (m : list (string * V)) : list (string * V) :=
  if has k m then adjust k (fun _ => v) m else m ++ [(k, v)].

Fixpoint delete (k : string) (m : list (string * V)) : list (string * V) :=
  match m with
  | [] => []
  | (k', v) :: rest =>
      if (k =? k')%string then rest else (k', v) :: delete k rest
  end.

Definition keys (m : list (string * V)) : list string := map fst m.
Definition values (m : list (string * V)) : list V := map snd m.

(** The invariant of a [Map]: one entry per key. *)
Definition wf (m : list (string * V)) : Prop := NoDup (keys m).
End Ops.
End JSMap.

Module JSArray.
Section Sort.
Context {A : Type} (compare : A -> A -> Z).

(** [x] goes in front of the first element it does not have to follow. *)
Fixpoint insert (x : A) (sorted : list A) : list A :=
  match sorted with
  | [] => [x]
  | y :: rest =>
      if compare x y <=? 0 then x :: y :: rest else y :: insert x rest
  end.

(** [xs.sort(compare)]: the sort is stable, so that for a comparator
    that orders by a key its result is the one of this insertion sort. *)
Fixpoint sort (xs : list A) : list A :=
  match xs with
  | [] => []
  | x :: rest => insert x (sort rest)
  end.
End Sort.

(** [xs.slice(0, n)] for an integer [n]; a negative [n] counts from the
    end. *)
Definition slice0 {A : Type} (n : Z) (xs : list A) : list A :=
  if 0 <=? n then firstn (Z.to_nat n) xs
  else firstn (List.length xs - Z.to_nat (- n)) xs.
End JSArray.

(** ** [GoogleAdsService] *)

Module GoogleAdsService.
Import Platform.

(** [date.toISOString().split('T')[0].replace(/-/g, '')] *)
Definition formatDate (date : JSDate.Date) : result string :=
  let? iso := JSDate.toISOString date in
  Ok (Str.remove_char "-" (hd EmptyString (Str.split "T" iso))).

(** [parts[parts.length - 1]] of [resourceName.split('/')] *)
Definition extractId (resourceName : string) : string :=
  last (Str.split "/" resourceName) EmptyString.

(** The caught object as the [any] whose properties are read. *)
Definition as_any (e : exn) : value :=
  match e with
  | Thrown v => v
  | TypeError m | RangeError m | NotFoundException m => JObj [("message", JStr m)]
  | HttpException r s => JObj [("response", r); ("status", JNum s)]
  end.

Definition formatted_value (fe : FormattedError) : value :=
  JObj [("code", fe_code fe); ("type", fe_type fe); ("message", fe_message fe);
        ("field", fe_field fe); ("trigger", fe_trigger fe)].

Definition exception_body (d : ErrorDetails) (timestamp : string) : value :=
  JObj [("statusCode", JNum (statusCode d)); ("message", message d);
        ("errors", JArr (map formatted_value (errors d)));
        ("requestId", requestId d); ("timestamp", JStr timestamp)].

Definition createHttpException (error : exn) : M exn :=
  match error with
  | HttpException _ _ | NotFoundException _ => ret error
  | _ =>
      errorDetails <- lift (Classifier.extractGoogleAdsErrorDetails (as_any error)) ;;
      now <- Date_new ;;
      timestamp <- lift (JSDate.toISOString now) ;;
      ret (HttpException (exception_body errorDetails timestamp)
                         (statusCode errorDetails))
  end.

(** [errorMessage.includes(needle)]: strings and arrays have the method. *)
Definition includes (errorMessage : value) (needle : string) : result bool :=
  match errorMessage with
  | JStr s => Ok (Str.includes s needle)
  | JArr items => Ok (existsb (fun x => JS.is_str x needle) items)
  | JUndefined | JNull =>
      Throw (TypeError "Cannot read properties of undefined (reading 'includes')")
  | _ => Throw (TypeError "errorMessage.includes is not a function")
  end.

Definition rollbackCampaignCreation
    (campaignResourceName budgetResourceName : option string) : M unit :=
  campaignRemoved <-
    match campaignResourceName with
    | Some campaign =>
        if JS.truthy (JStr campaign) then
          try_catch
            (await (campaigns_remove campaign) ;; ret true)
            (fun removeError =>
               lift (Classifier.extractErrorMessage (as_any removeError)) ;;
               try_catch
                 (await (campaigns_update campaign CampaignStatus.REMOVED) ;; ret true)
                 (fun updateError =>
                    lift (Classifier.extractErrorMessage (as_any updateError)) ;;
                    ret false))
        else ret false
    | None => ret false
    end ;;
  match budgetResourceName with
  | Some budget =>
      if JS.truthy (JStr budget) then
        (if campaignRemoved : bool then sleep 2000 else ret tt) ;;
        try_catch
          (await (campaignBudgets_remove budget) ;; ret tt)
          (fun rollbackError =>
             errorMessage <- lift (Classifier.extractErrorMessage (as_any rollbackError)) ;;
             associated <- lift (includes errorMessage "associated with") ;;
             (if associated : bool then ret false
              else lift (includes errorMessage "in use")) ;;
             ret tt)
      else ret tt
  | None => ret tt
  end.

Definition createCampaignBudget (name : string) (amountMicros : Z) : M string :=
  timestamp <- Date_now ;;
  let budgetName := "Budget: " ++ name ++ " (" ++ JS.decimal timestamp ++ ")" in
  let budgetData := mkBudgetData budgetName amountMicros STANDARD in
  try_catch (await (campaignBudgets_create budgetData)) (fun error => throw error).

Definition createAdGroup (campaignResourceName name : string) (cpcBidMicros : Z)
  : M string :=
  let adGroupData :=
    mkAdGroupData campaignResourceName ("AG: " ++ name)
                  AdGroup_ENABLED SEARCH_STANDARD cpcBidMicros in
  try_catch (await (adGroups_create adGroupData)) (fun error => throw error).

Definition addKeywords (adGroupResourceName : string) (keywords : list string)
  : M unit :=
  let keywordOperations :=
    map (fun keyword =>
           mkKeywordOperation adGroupResourceName Criterion_ENABLED keyword BROAD)
        keywords in
  try_catch (await (adGroupCriteria_create keywordOperations) ;; ret tt)
            (fun error => throw error).

Definition createResponsiveSearchAd
    (adGroupResourceName : string) (headlines descriptions : list string)
    (finalUrl : string) : M unit :=
  let headlineAssets := map (Str.substring0 30) headlines in
  let descriptionAssets := map (Str.substring0 90) descriptions in
  let adData :=
    mkAdData adGroupResourceName Ad_ENABLED headlineAssets descriptionAssets
             [finalUrl] in
  try_catch (await (adGroupAds_create adData) ;; ret tt) (fun error => throw error).

(** The [try] block of [createCampaign]. *)
Definition provision (config : CampaignConfig) : M CampaignResult :=
  budget <- createCampaignBudget (cfg_name config) (cfg_budgetMicros config) ;;
  modify (set_budgetResourceName (Some budget)) ;;
  budgetResourceName <- gets budgetResourceName ;;
  start_date <- lift (formatDate (cfg_startDate config)) ;;
  end_date <- lift (formatDate (cfg_endDate config)) ;;
  let campaignData :=
    mkCampaignData (cfg_name config) SEARCH CampaignStatus.PAUSED
      budgetResourceName
      (mkManualCpc false)
      (mkNetworkSettings true false false)
      start_date end_date
      "DOES_NOT_CONTAIN_EU_POLITICAL_ADVERTISING" in
  campaign <- await (campaigns_create campaignData) ;;
  modify (set_campaignResourceName (Some campaign)) ;;
  adGroup <- createAdGroup campaign (cfg_name config) (cfg_cpcBidMicros config) ;;
  addKeywords adGroup (cfg_keywords config) ;;
  createResponsiveSearchAd adGroup (cfg_headlines config)
    (cfg_descriptions config) (cfg_finalUrl config) ;;
  ret (mkCampaignResult (extractId campaign) (extractId adGroup)
                        CampaignStatus.PAUSED campaign).

Definition createCampaign (config : CampaignConfig) : M CampaignResult :=
  modify (set_budgetResourceName None) ;;
  modify (set_campaignResourceName None) ;;
  try_catch (provision config)
    (fun error =>
       campaignResourceName <- gets campaignResourceName ;;
       budgetResourceName <- gets budgetResourceName ;;
       rollbackCampaignCreation campaignResourceName budgetResourceName ;;
       e <- createHttpException error ;;
       throw e).

Definition pauseCampaign (campaignResourceName : string) : M unit :=
  await (campaigns_update campaignResourceName CampaignStatus.PAUSED) ;; ret tt.

Definition enableCampaign (campaignResourceName : string) : M unit :=
  await (campaigns_update campaignResourceName CampaignStatus.ENABLED) ;; ret tt.

Definition removeCampaign (campaignResourceName : string) : M unit :=
  await (campaigns_update campaignResourceName CampaignStatus.REMOVED) ;; ret tt.

End GoogleAdsService.

(** ** [GoogleTrendsService] *)

Record TrendsConfig : Type := mkTrendsConfig {
  tc_geo : string;
  tc_language : string
}.

(** The objects that the service makes of the answers of the trends API:
    the fields are whatever the answer holds, or a default. *)
Record TrendArticleData : Type := mkTrendArticleData {
  td_title : value;
  td_url : value;
  td_source : value;
  td_snippet : value
}.

Record TrendData : Type := mkTrendData {
  tr_keyword : value;
  tr_traffic : value;
  tr_relatedQueries : list value;
  tr_articles : list TrendArticleData
}.

Module GoogleTrendsService.

(** [v?.[0]] *)
Definition first_opt (v : value) : value :=
  match v with
  | JArr items => JS.first (fun x => x) items
  | JStr (String c _) => JStr (String c EmptyString)
  | JObj fields => JS.lookup "0" fields
  | _ => JUndefined
  end.

(** [xs.map(f)] for a value that is not null or undefined: arrays have
    the method. *)
Definition map_items {A} (f : value -> result A) (xs : value) : result (list A) :=
  match xs with
  | JArr items => mapR f items
  | _ => Throw (TypeError "map is not a function")
  end.

(** [xs?.map(f) || []] *)
Definition map_opt {A} (f : value -> result A) (xs : value) : result (list A) :=
  if JS.nullish xs then Ok [] else map_items f xs.

(** The callback of [trend.articles?.map] in [getDailyTrends]. *)
Definition trendArticle (article : value) : result TrendArticleData :=
  let? title := JS.get article "title" in
  let? url := JS.get article "url" in
  let? source := JS.get article "source" in
  let? snippet := JS.get article "snippet" in
  Ok (mkTrendArticleData (JS.or title (JStr "")) (JS.or url (JStr ""))
                         (JS.or source (JStr "")) (JS.or snippet (JStr ""))).

(** The callback of [trendingSearches.map] in [getDailyTrends]. *)
Definition dailyTrend (trend : value) : result TrendData :=
  let? title := JS.get trend "title" in
  let keyword := JS.or (JS.get_opt title "query") (JStr "") in
  let? formattedTraffic := JS.get trend "formattedTraffic" in
  let? related := JS.get trend "relatedQueries" in
  let? relatedQueries := map_opt (fun q => JS.get q "query") related in
  let? articles := JS.get trend "articles" in
  let? articles := map_opt trendArticle articles in
  Ok (mkTrendData keyword (JS.or formattedTraffic (JStr "0")) relatedQueries articles).

(** [data.default?.[list]?.[0]?.[field] || []] *)
Definition listed (data : value) (list field : string) : result value :=
  let? default := JS.get data "default" in
  Ok (JS.or (JS.get_opt (first_opt (JS.get_opt default list)) field) (JArr [])).

(** [given || fallback] for an optional text. *)
Definition or_text (given : option string) (fallback : string) : string :=
  match given with
  | Some text => if (text =? "")%string then fallback else text
  | None => fallback
  end.

(** Two values are the same element of a [Set]: equal primitive values;
    the objects and arrays of parsed answers are all different. *)
Definition same_value (a b : value) : bool :=
  match a, b with
  | JUndefined, JUndefined => true
  | JNull, JNull => true
  | JBool x, JBool y => Bool.eqb x y
  | JNum x, JNum y => x =? y
  | JStr x, JStr y => (x =? y)%string
  | _, _ => false
  end.

(** [[...new Set(xs)]], the values in [seen] being in the set already. *)
Fixpoint distinct_from (seen : list value) (xs : list value) : list value :=
  match xs with
  | [] => []
  | x :: rest =>
      if existsb (same_value x) seen then distinct_from seen rest
      else x :: distinct_from (x :: seen) rest
  end.

Definition distinct (xs : list value) : list value := distinct_from [] xs.

Definition set_relatedQueries (queries : list value) (trend : TrendData) : TrendData :=
  mkTrendData (tr_keyword trend) (tr_traffic trend) queries (tr_articles trend).

Section Api.
Variable config : TrendsConfig.

(** The functions of the package [google-trends-api] that are called,
    with the options they are given, and [JSON.parse]. *)
Variable dailyTrends : string -> string -> M string.
Variable relatedQueries : value -> string -> string -> M string.
Variable JSON_parse : string -> result value.

Definition getDailyTrends (geo : option string) : M (list TrendData) :=
  try_catch
    (results <- dailyTrends (or_text geo (tc_geo config)) (tc_language config) ;;
     data <- lift (JSON_parse results) ;;
     trendingSearches <- lift (listed data "trendingSearchesDays" "trendingSearches") ;;
     lift (map_items dailyTrend trendingSearches))
    (fun error => throw error).

Definition getRelatedQueries (keyword : value) : M (list value) :=
  try_catch
    (results <- relatedQueries keyword (tc_geo config) (tc_language config) ;;
     data <- lift (JSON_parse results) ;;
     queries <- lift (listed data "rankedList" "rankedKeyword") ;;
     lift (map_items (fun q => JS.get q "query") queries))
    (fun error => throw error).

Definition delay (ms : Z) : M unit := sleep ms.

(** One turn of the loop of [getTopTrendsWithKeywords]; it returns the
    trend as the turn leaves it. *)
Definition enrich (trend : TrendData) : M TrendData :=
  try_catch
    (related <- getRelatedQueries (tr_keyword trend) ;;
     let trend :=
       set_relatedQueries (distinct (tr_relatedQueries trend ++ related)%list) trend in
     delay 1000 ;;
     ret trend)
    (fun _ => ret trend).

Definition getTopTrendsWithKeywords (geo : option string) (limit : Z)
  : M (list TrendData) :=
  trends <- getDailyTrends geo ;;
  let topTrends := JSArray.slice0 limit trends in
  mapM enrich topTrends.
End Api.

End GoogleTrendsService.

(** ** [ArticlesService]: the scorer and the matcher *)

Module ArticlesService.

Definition findAll (w : world) : list Article := JSMap.values (articles w).

Definition findOne (id : string) (w : world) : option Article :=
  JSMap.get id (articles w).

Definition msPerHour : Z := 1000 * 60 * 60.

(** The three loops of [calculateRelevanceScore], each adding to the
    running [score]. *)
Definition add_title_matches (trendWords : list string) (titleLower : string)
    (score : Z) : Z :=
  fold_left (fun score word =>
               if Str.includes titleLower word then score + 3 else score)
            trendWords score.

Definition add_word_matches (trendWords : list string) (keywordLower : string)
    (score : Z) : Z :=
  fold_left (fun score word =>
               if Str.includes keywordLower word || Str.includes word keywordLower
               then score + 2 else score)
            trendWords score.

Definition add_related_matches (trendRelated : list string) (keywordLower : string)
    (score : Z) : Z :=
  fold_left (fun score related =>
               if Str.includes keywordLower related || Str.includes related keywordLower
               then score + 1 else score)
            trendRelated score.

Definition add_keyword_matches (trendWords trendRelated : list string)
    (keywords : list string) (score : Z) : Z :=
  fold_left (fun score keyword =>
               let keywordLower := Str.toLowerCase keyword in
               let score := add_word_matches trendWords keywordLower score in
               add_related_matches trendRelated keywordLower score)
            keywords score.

(** The bonus for a recent article: [(now - published) / msPerHour < 24],
    a quotient of integers, holds when [now - published < 24 * msPerHour];
    an invalid date compares false. *)
Definition add_recency (now : Z) (publishedAt : JSDate.Date) (score : Z) : Z :=
  match publishedAt with
  | Some published =>
      if now - published <? 24 * msPerHour then score + 2
      else if now - published <? 72 * msPerHour then score + 1
      else score
  | None => score
  end.

Definition calculateRelevanceScore (trend : TrendingSearch) (article : Article)
  : M Z :=
  let score := 0 in
  let trendWords := Str.split_ws (Str.toLowerCase (keyword trend)) in
  let trendRelated := map Str.toLowerCase (relatedQueries trend) in
  let titleLower := Str.toLowerCase (title article) in
  let score := add_title_matches trendWords titleLower score in
  let score := add_keyword_matches trendWords trendRelated (keywords article) score in
  now <- Date_now ;;
  ret (add_recency now (publishedAt article) score).

Definition compare_matches (a b : TrendMatch) : Z := score b - score a.

Definition matchWithTrends (trends : list TrendingSearch) : M (list TrendMatch) :=
  articles <- gets findAll ;;
  matches <-
    foldM (fun matches trend =>
             foldM (fun matches article =>
                      score <- calculateRelevanceScore trend article ;;
                      if 0 <? score
                      then ret (matches ++ [mkTrendMatch trend article score])%list
                      else ret matches)
                   articles matches)
          trends [] ;;
  ret (JSArray.sort compare_matches matches).

(** *** The catalogue *)

Definition findByCategory (cat : string) (w : world) : list Article :=
  filter (fun article =>
            (Str.toLowerCase (category article) =? Str.toLowerCase cat)%string)
         (findAll w).

Definition findByKeyword (kw : string) (w : world) : list Article :=
  let lowerKeyword := Str.toLowerCase kw in
  filter (fun article =>
            existsb (fun k => Str.includes (Str.toLowerCase k) lowerKeyword)
                    (keywords article))
         (findAll w).

(** [{ ...article, ...dto }]: every property that [dto] has replaces the
    one of [article]. *)
Definition spread (article : Article) (dto : UpdateArticleDto) : Article :=
  let over {A} (new : option A) (old : A) : A :=
    match new with
    | Some x => x
    | None => old
    end in
  mkArticle (over (ua_id dto) (art_id article))
    (over (ua_title dto) (title article))
    (over (ua_url dto) (url article))
    (over (ua_keywords dto) (keywords article))
    (over (ua_category dto) (category article))
    (over (ua_publishedAt dto) (publishedAt article))
    (match ua_shortDescription dto with
     | Some text => Some text
     | None => shortDescription article
     end).

Definition update (id : string) (dto : UpdateArticleDto) : M Article :=
  found <- gets (findOne id) ;;
  match found with
  | None => throw (NotFoundException ("Article not found: " ++ id))
  | Some article =>
      let updated := spread article dto in
      modify (fun w => set_articles (JSMap.set id updated (articles w)) w) ;;
      ret updated
  end.

Definition remove (id : string) : M unit :=
  present <- gets (fun w => JSMap.has id (articles w)) ;;
  if present : bool
  then modify (fun w => set_articles (JSMap.delete id (articles w)) w)
  else throw (NotFoundException ("Article not found: " ++ id)).

Section Ids.
(** [random n] is the text of [Math.random().toString(36).substr(2, 9)]
    that is drawn after the [n]-th reading of the clock. *)
Variable random : nat -> string.

Definition generateId : M string :=
  n <- gets ticks ;;
  now <- Date_now ;;
  ret ("article-" ++ JS.decimal now ++ "-" ++ random n).

Definition create (dto : CreateArticleDto) : M Article :=
  id <- generateId ;;
  published <- Date_new ;;
  let article :=
    mkArticle id (ca_title dto) (ca_url dto) (ca_keywords dto)
              (ca_category dto) published (ca_shortDescription dto) in
  modify (fun w => set_articles (JSMap.set id article (articles w)) w) ;;
  ret article.

Definition bulkCreate (dtos : list CreateArticleDto) : M (list Article) :=
  mapM create dtos.
End Ids.

End ArticlesService.

(** ** [ArticlesController] *)

Module ArticlesController.

(** [if (param)] for an optional query parameter. *)
Definition given (param : option string) : option string :=
  match param with
  | Some text => if (text =? "")%string then None else Some text
  | None => None
  end.

Definition findAll (category keyword : option string) (w : world) : list Article :=
  match given category with
  | Some cat => ArticlesService.findByCategory cat w
  | None =>
      match given keyword with
      | Some kw => ArticlesService.findByKeyword kw w
      | None => ArticlesService.findAll w
      end
  end.

Definition remove (id : string) : M string :=
  ArticlesService.remove id ;;
  ret ("Article " ++ id ++ " removed successfully").

End ArticlesController.

(** ** [CampaignsService]: the registry *)

Module CampaignsService.

Definition or_default (requested : option Z) (default : Z) : Z :=
  match requested with
  | Some n => if n =? 0 then default else n
  | None => default
  end.

Definition set_status (s : StoredStatus.t) (c : StoredCampaign) : StoredCampaign :=
  mkStoredCampaign (sc_id c) (articleId c) (trendKeyword c) (sc_result c)
                   (createdAt c) (expiresAt c) s.

Definition createExpressCampaign (dto : CreateExpressCampaignDto)
  : M CampaignResult :=
  found <- gets (ArticlesService.findOne (dto_articleId dto)) ;;
  match found with
  | None => throw (NotFoundException ("Article not found: " ++ dto_articleId dto))
  | Some article =>
      defaultBudget <- asks (fun E => defaultBudgetMicros (defaults E)) ;;
      defaultDuration <- asks (fun E => defaultDurationHours (defaults E)) ;;
      defaultCpcBid <- asks (fun E => defaultCpcBidMicros (defaults E)) ;;
      let budgetMicros := or_default (dto_budgetMicros dto) defaultBudget in
      let durationHours := or_default (dto_durationHours dto) defaultDuration in
      startDate <- Date_new ;;
      let endDate := JSDate.plus startDate (durationHours * 60 * 60 * 1000) in
      iso <- lift (JSDate.toISOString startDate) ;;
      let campaignName :=
        "Express: " ++ dto_trendKeyword dto ++ " - " ++
        hd EmptyString (Str.split "T" iso) in
      let keywords := dto_trendKeyword dto :: keywords article in
      let headlines :=
        [Str.substring0 30 (title article);
         category article ++ Str.text " - Última Hora";
         Str.text "Lee Más Aquí"] in
      let descriptions :=
        [match shortDescription article with
         | Some text => if (text =? "")%string
                        then Str.text "Información actualizada y confiable"
                        else text
         | None => Str.text "Información actualizada y confiable"
         end;
         "Toda la actualidad de " ++ category article] in
      result <- GoogleAdsService.createCampaign
                  (mkCampaignConfig campaignName budgetMicros defaultCpcBid
                     startDate endDate keywords (url article)
                     headlines descriptions) ;;
      let storedCampaign :=
        mkStoredCampaign (campaignId result) (dto_articleId dto)
          (dto_trendKeyword dto) result startDate endDate StoredStatus.ACTIVE in
      modify (fun w => set_campaigns
                         (JSMap.set (campaignId result) storedCampaign (campaigns w)) w) ;;
      ret result
  end.

Definition pauseCampaign (campaignId : string) : M unit :=
  campaign <- gets (fun w => JSMap.get campaignId (campaigns w)) ;;
  match campaign with
  | Some c =>
      GoogleAdsService.pauseCampaign (resourceName (sc_result c)) ;;
      modify (fun w => set_campaigns
                (JSMap.adjust campaignId (set_status StoredStatus.PAUSED) (campaigns w)) w)
  | None => ret tt
  end.

Definition enableCampaign (campaignId : string) : M unit :=
  campaign <- gets (fun w => JSMap.get campaignId (campaigns w)) ;;
  match campaign with
  | Some c =>
      GoogleAdsService.enableCampaign (resourceName (sc_result c)) ;;
      modify (fun w => set_campaigns
                (JSMap.adjust campaignId (set_status StoredStatus.ACTIVE) (campaigns w)) w)
  | None => ret tt
  end.

Definition removeCampaign (campaignId : string) : M unit :=
  campaign <- gets (fun w => JSMap.get campaignId (campaigns w)) ;;
  match campaign with
  | Some c =>
      GoogleAdsService.removeCampaign (resourceName (sc_result c)) ;;
      modify (fun w => set_campaigns (JSMap.delete campaignId (campaigns w)) w)
  | None => ret tt
  end.


(** The test of the sweep. *)
Definition expired_active (now : JSDate.Date) (campaign : StoredCampaign) : bool :=
  JSDate.lt (expiresAt campaign) now &&
  StoredStatus.eqb (sc_status campaign) StoredStatus.ACTIVE.

(** One turn of the loop of [cleanupExpiredCampaigns]: the iterator of a
    [Map] yields the entries that are in the map when their turn comes. *)
Definition sweep_entry (now : JSDate.Date) (cleaned : Z) (id : string) : M Z :=
  entry <- gets (fun w => JSMap.get id (campaigns w)) ;;
  match entry with
  | None => ret cleaned
  | Some campaign =>
      if expired_active now campaign then
        try_catch
          (removeCampaign id ;; ret (cleaned + 1))
          (fun error =>
             lift (JS.get (GoogleAdsService.as_any error) "message") ;;
             ret cleaned)
      else ret cleaned
  end.

Definition cleanupExpiredCampaigns : M Z :=
  now <- Date_new ;;
  ids <- gets (fun w => JSMap.keys (campaigns w)) ;;
  foldM (sweep_entry now) ids 0.

Definition createCampaign (dto : CreateCampaignDto) : M CampaignResult :=
  startDate <- Date_new ;;
  let endDate := JSDate.plus startDate (cc_durationHours dto * 60 * 60 * 1000) in
  defaultCpcBid <- asks (fun E => defaultCpcBidMicros (defaults E)) ;;
  GoogleAdsService.createCampaign
    (mkCampaignConfig (cc_name dto) (cc_budgetMicros dto)
       (or_default (cc_cpcBidMicros dto) defaultCpcBid)
       startDate endDate (cc_keywords dto) (cc_finalUrl dto)
       (cc_headlines dto) (cc_descriptions dto)).

Definition delay (ms : Z) : M unit := sleep ms.

Section Trends.
(** [this.trendsService.getDailyTrends], the trends service that the
    constructor is given, at its declared type. *)
Variable getDailyTrends : option string -> M (list TrendingSearch).

(** One turn of the loop of [autoCreateFromTrends]. *)
Definition create_for_match (results : list CampaignResult) (m : TrendMatch)
  : M (list CampaignResult) :=
  try_catch
    (result <- createExpressCampaign
                 (mkCreateExpressCampaignDto (art_id (article m))
                    (keyword (trend m)) None None) ;;
     let results := (results ++ [result])%list in
     delay 2000 ;;
     ret results)
    (fun error =>
       lift (JS.get (GoogleAdsService.as_any error) "message") ;;
       ret results).

Definition autoCreateFromTrends (geo : option string) (maxCampaigns : Z)
  : M (list CampaignResult) :=
  trends <- getDailyTrends geo ;;
  matches <- ArticlesService.matchWithTrends trends ;;
  let topMatches := JSArray.slice0 maxCampaigns matches in
  foldM create_for_match topMatches [].
End Trends.

End CampaignsService.

(** ** [CampaignsController] *)

Module CampaignsController.

Definition pauseCampaign (id : string) : M string :=
  CampaignsService.pauseCampaign id ;;
  ret ("Campaign " ++ id ++ " paused successfully").

Definition enableCampaign (id : string) : M string :=
  CampaignsService.enableCampaign id ;;
  ret ("Campaign " ++ id ++ " enabled successfully").

Definition removeCampaign (id : string) : M string :=
  CampaignsService.removeCampaign id ;;
  ret ("Campaign " ++ id ++ " removed successfully").

End CampaignsController.

(** ** Notions used to state the properties *)

Module ClassifierSpec.
Import HttpStatus Classifier.

(** What the loop body of [determineStatusCode] decides for one sub-error:
    a status, or [None] when the loop goes on to the next sub-error. *)
Definition subErrorStatus (error : value) : result (option Z) :=
  let? errorCode := errorCode_of error in
  let? errorType := errorType_of errorCode in
  let? errorValue := errorValue_of errorCode in
  if is_validation errorType errorValue then Ok (Some BAD_REQUEST)
  else if JS.is_str errorType "authentication_error" then Ok (Some UNAUTHORIZED)
  else if JS.is_str errorType "authorization_error" then Ok (Some FORBIDDEN)
  else if JS.is_str errorType "resource_not_found_error" then Ok (Some NOT_FOUND)
  else if JS.is_str errorType "quota_error" then Ok (Some TOO_MANY_REQUESTS)
  else Ok None.



(** The shape of a sub-error that [formatError] can read: an object (or any
    value but null and undefined) whose [location.field_path_elements],
    when there is one, is an array without null or undefined entries. *)
Definition elements_ok (elements : value) : bool :=
  JS.nullish elements ||
  (JS.isArray elements &&
   forallb (fun f => negb (JS.nullish f)) (JS.items_of elements)).

Definition sub_error_ok (e : value) : bool :=
  negb (JS.nullish e) &&
  elements_ok (JS.get_opt (JS.prop e "location") "field_path_elements").

Definition well_shaped (error : value) : bool :=
  if has_errors error
  then forallb sub_error_ok (JS.items_of (JS.get_opt error "errors"))
  else true.

(** The classification of a payload without a usable list of sub-errors. *)
Definition generic (error : value) : ErrorDetails :=
  mkErrorDetails INTERNAL_SERVER_ERROR
    (JS.or (JS.get_opt error "message") (JStr "An unexpected error occurred"))
    [] (JS.or (JS.get_opt error "request_id") JNull).

(** A payload whose only sub-error is [null]. *)
Definition null_sub_error : value := JObj [("errors", JArr [JNull])].

End ClassifierSpec.

Module SagaSpec.
Import Platform.


(** The events of a cleanup: removals, the update to REMOVED, the pause. *)
Definition is_cleanup (ev : event) : bool :=
  match ev with
  | Called (campaigns_remove _) _ => true
  | Called (campaigns_update _ CampaignStatus.REMOVED) _ => true
  | Called (campaignBudgets_remove _) _ => true
  | Slept _ => true
  | _ => false
  end.

(** The calls that a cleanup makes. *)
Definition is_cleanup_call (c : call) : bool :=
  match c with
  | campaigns_remove _ => true
  | campaigns_update _ CampaignStatus.REMOVED => true
  | campaignBudgets_remove _ => true
  | _ => false
  end.

(** A reason of which [extractErrorMessage] makes a text: a falsy value;
    a value with a non-empty array [errors] that holds neither null nor
    undefined; or, without such an array, a value whose [message] is a
    text or is falsy. *)
Definition worded (reason : value) : bool :=
  negb (JS.truthy reason) ||
  (if Classifier.has_errors reason
   then forallb (fun e => negb (JS.nullish e))
                (JS.items_of (JS.get_opt reason "errors"))
   else match JS.prop reason "message" with
        | JStr _ => true
        | m => negb (JS.truthy m)
        end).

(** What the handler of the budget removal does with the reason of a
    rejection: it words it and looks for two phrases in the text. *)
Definition budget_handler (reason : value) : result unit :=
  let? errorMessage := Classifier.extractErrorMessage reason in
  let? associated := GoogleAdsService.includes errorMessage "associated with" in
  let? _ := (if associated : bool then Ok false
             else GoogleAdsService.includes errorMessage "in use") in
  Ok tt.

(** [r] throws nothing but a TypeError. *)
Definition only_type_errors {A} (r : result A) : Prop :=
  forall e, r = Throw e -> exists m, e = TypeError m.


(** The rejections of the cleanup calls are worded. *)
Definition words_cleanup (E : env) : Prop :=
  forall history c reason,
    is_cleanup_call c = true ->
    platform E history c = Rejected reason -> worded reason = true.

(** The platform rejects with the failure objects of its SDK only. *)
Definition sdk (E : env) : Prop :=
  forall history c reason,
    platform E history c = Rejected reason -> exists f, reason = failure_value f.

(** The request of the first step, built from the reading of the clock. *)
Definition budgetData (E : env) (w : world) (config : CampaignConfig) : BudgetData :=
  mkBudgetData
    ("Budget: " ++ cfg_name config ++ " (" ++ JS.decimal (clock E (ticks w)) ++ ")")
    (cfg_budgetMicros config) STANDARD.

(** The exception that carries the classification [d]. *)
Definition classified (d : ErrorDetails) (timestamp : string) : exn :=
  HttpException (GoogleAdsService.exception_body d timestamp) (statusCode d).

(** The requests of the later steps. *)
Definition campaignData (config : CampaignConfig) (budget start_date end_date : string)
  : CampaignData :=
  mkCampaignData (cfg_name config) SEARCH CampaignStatus.PAUSED (Some budget)
    (mkManualCpc false) (mkNetworkSettings true false false)
    start_date end_date "DOES_NOT_CONTAIN_EU_POLITICAL_ADVERTISING".

Definition adGroupData (config : CampaignConfig) (campaign : string) : AdGroupData :=
  mkAdGroupData campaign ("AG: " ++ cfg_name config)
                AdGroup_ENABLED SEARCH_STANDARD (cfg_cpcBidMicros config).

Definition keywordOperations (config : CampaignConfig) (adGroup : string)
  : list KeywordOperation :=
  map (fun keyword => mkKeywordOperation adGroup Criterion_ENABLED keyword BROAD)
      (cfg_keywords config).

Definition adData (config : CampaignConfig) (adGroup : string) : AdData :=
  mkAdData adGroup Ad_ENABLED
           (map (Str.substring0 30) (cfg_headlines config))
           (map (Str.substring0 90) (cfg_descriptions config))
           [cfg_finalUrl config].

(** The state machine of a provisioning attempt,
    START - BUDGET_CREATED - CAMPAIGN_CREATED - AD_GROUP_CREATED -
    KEYWORDS_ADDED - AD_CREATED: the events of an attempt, the two handles it
    leaves (starting from [b0] and [c0]) and its result. *)
Section Outcome.
Variables (bd : BudgetData) (config : CampaignConfig) (b0 c0 : option string).

Inductive saga_outcome
  : list event -> option string -> option string -> result CampaignResult -> Prop :=
| FAILED_at_budget : forall v,
    saga_outcome [Called (campaignBudgets_create bd) (Rejected v)]
                 b0 c0 (Throw (Thrown v))
| FAILED_at_dates : forall nb error,
    GoogleAdsService.formatDate (cfg_startDate config) = Throw error \/
    (exists sd, GoogleAdsService.formatDate (cfg_startDate config) = Ok sd /\
                GoogleAdsService.formatDate (cfg_endDate config) = Throw error) ->
    saga_outcome [Called (campaignBudgets_create bd) (Resolved nb)]
                 (Some (resource_name nb)) c0 (Throw error)
| FAILED_at_campaign : forall nb sd ed v,
    GoogleAdsService.formatDate (cfg_startDate config) = Ok sd ->
    GoogleAdsService.formatDate (cfg_endDate config) = Ok ed ->
    saga_outcome
      [Called (campaignBudgets_create bd) (Resolved nb);
       Called (campaigns_create (campaignData config (resource_name nb) sd ed))
              (Rejected v)]
      (Some (resource_name nb)) c0 (Throw (Thrown v))
| FAILED_at_ad_group : forall nb sd ed nc v,
    GoogleAdsService.formatDate (cfg_startDate config) = Ok sd ->
    GoogleAdsService.formatDate (cfg_endDate config) = Ok ed ->
    saga_outcome
      [Called (campaignBudgets_create bd) (Resolved nb);
       Called (campaigns_create (campaignData config (resource_name nb) sd ed))
              (Resolved nc);
       Called (adGroups_create (adGroupData config (resource_name nc))) (Rejected v)]
      (Some (resource_name nb)) (Some (resource_name nc))
      (Throw (Thrown v))
| FAILED_at_keywords : forall nb sd ed nc ng v,
    GoogleAdsService.formatDate (cfg_startDate config) = Ok sd ->
    GoogleAdsService.formatDate (cfg_endDate config) = Ok ed ->
    saga_outcome
      [Called (campaignBudgets_create bd) (Resolved nb);
       Called (campaigns_create (campaignData config (resource_name nb) sd ed))
              (Resolved nc);
       Called (adGroups_create (adGroupData config (resource_name nc))) (Resolved ng);
       Called (adGroupCriteria_create (keywordOperations config (resource_name ng)))
              (Rejected v)]
      (Some (resource_name nb)) (Some (resource_name nc))
      (Throw (Thrown v))
| FAILED_at_ad : forall nb sd ed nc ng nk v,
    GoogleAdsService.formatDate (cfg_startDate config) = Ok sd ->
    GoogleAdsService.formatDate (cfg_endDate config) = Ok ed ->
    saga_outcome
      [Called (campaignBudgets_create bd) (Resolved nb);
       Called (campaigns_create (campaignData config (resource_name nb) sd ed))
              (Resolved nc);
       Called (adGroups_create (adGroupData config (resource_name nc))) (Resolved ng);
       Called (adGroupCriteria_create (keywordOperations config (resource_name ng)))
              (Resolved nk);
       Called (adGroupAds_create (adData config (resource_name ng))) (Rejected v)]
      (Some (resource_name nb)) (Some (resource_name nc))
      (Throw (Thrown v))
| AD_CREATED : forall nb sd ed nc ng nk na,
    GoogleAdsService.formatDate (cfg_startDate config) = Ok sd ->
    GoogleAdsService.formatDate (cfg_endDate config) = Ok ed ->
    saga_outcome
      [Called (campaignBudgets_create bd) (Resolved nb);
       Called (campaigns_create (campaignData config (resource_name nb) sd ed))
              (Resolved nc);
       Called (adGroups_create (adGroupData config (resource_name nc))) (Resolved ng);
       Called (adGroupCriteria_create (keywordOperations config (resource_name ng)))
              (Resolved nk);
       Called (adGroupAds_create (adData config (resource_name ng))) (Resolved na)]
      (Some (resource_name nb)) (Some (resource_name nc))
      (Ok (mkCampaignResult
             (GoogleAdsService.extractId (resource_name nc))
             (GoogleAdsService.extractId (resource_name ng))
             CampaignStatus.PAUSED (resource_name nc))).
End Outcome.

(** [w'] is [w] after the events [evs] and [n] readings of the clock, with
    the registry and the catalogue as they were. *)
Definition advanced (w w' : world) (evs : list event) (n : nat) : Prop :=
  trace w' = (trace w ++ evs)%list /\ ticks w' = (ticks w + n)%nat /\
  campaigns w' = campaigns w /\ articles w' = articles w.

(** The removal of a campaign: directly, else by the update to REMOVED; it
    returns whether the campaign was removed (the first half of
    [rollbackCampaignCreation]). *)
Definition remove_campaign (campaign : string) : M bool :=
  try_catch
    (await (campaigns_remove campaign) ;; ret true)
    (fun removeError =>
       lift (Classifier.extractErrorMessage (GoogleAdsService.as_any removeError)) ;;
       try_catch
         (await (campaigns_update campaign CampaignStatus.REMOVED) ;; ret true)
         (fun updateError =>
            lift (Classifier.extractErrorMessage (GoogleAdsService.as_any updateError)) ;;
            ret false)).

(** The two local variables as [createCampaign] initialises them. *)
Definition reset (w : world) : world :=
  set_campaignResourceName None (set_budgetResourceName None w).

(** The text of [new Date().toISOString()] at the [n]-th reading. *)
Definition timestamp_at (E : env) (n : nat) : string :=
  JSDate.iso_date (clock E n) ++ "T" ++ JSDate.iso_time (clock E n).

(** Errors that [createHttpException] classifies rather than passes on. *)
Definition plain (error : exn) : bool :=
  match error with
  | HttpException _ _ | NotFoundException _ => false
  | _ => true
  end.

End SagaSpec.

Module DateSpec.

Fixpoint all (p : ascii -> bool) (s : string) : bool :=
  match s with
  | EmptyString => true
  | String c rest => p c && all p rest
  end.

Definition is_digit (c : ascii) : bool :=
  Nat.leb 48 (Str.code c) && Nat.leb (Str.code c) 57.

Definition not_dash (c : ascii) : bool := negb (Ascii.eqb c "-").

(** The time values of the years 0000 to 9999, those that [toISOString]
    writes with four digits. *)
Definition four_digit_year (t : Z) : Prop :=
  -62167219200000 <= t <= 253402300799999.

(** Year, month and day in eight digits. *)
Definition YYYYMMDD (t : Z) : string :=
  let '(y, m, d) := JSDate.civil (t / JSDate.msPerDay) in
  JSDate.pad 4 y ++ JSDate.pad 2 m ++ JSDate.pad 2 d.

End DateSpec.

(** ** A concrete platform, for examples *)

Module Scenario.
Import Platform.

Definition rn (c i : string) : ResourceName := mkResourceName "123" c i.

Definition quota_exceeded : Failure :=
  GoogleAdsFailure
    [mkGoogleAdsError (Some [("quota_error", JStr "RESOURCE_EXHAUSTED")])
                      (Some "Too many requests") None
                      (Some [mkFieldPathElement (Some "operations") (Some 0)])]
    (Some "req-1").

(** Budgets, campaigns and ad groups are created; keywords are refused;
    a campaign cannot be removed but can be updated, unless its name is
    that of campaign 13. *)
Definition answers (history : list event) (c : call) : response :=
  match c with
  | campaignBudgets_create _ => Resolved (rn "campaignBudgets" "7")
  | campaigns_create _ => Resolved (rn "campaigns" "42")
  | adGroups_create _ => Resolved (rn "adGroups" "5")
  | adGroupCriteria_create _ => fails quota_exceeded
  | adGroupAds_create _ => Resolved (rn "adGroupAds" "9")
  | campaigns_remove _ => fails (PlainError "remove is not supported")
  | campaigns_update name _ =>
      if (name =? "customers/123/campaigns/13")%string
      then fails (PlainError "campaign is locked")
      else Resolved (rn "campaigns" "42")
  | campaignBudgets_remove _ => Resolved (rn "campaignBudgets" "7")
  end.

(** As [answers], with keywords accepted. *)
Definition accepts (history : list event) (c : call) : response :=
  match c with
  | adGroupCriteria_create _ => Resolved (rn "adGroupCriteria" "8")
  | _ => answers history c
  end.

(** Nothing can be created. *)
Definition refuses (history : list event) (c : call) : response :=
  fails quota_exceeded.

Definition noon : Z := 1736942400000.
Definition hour : Z := 3600000.

Definition settings : Defaults := mkDefaults 20000000 500000 24.
Definition failing : env := mkEnv answers (fun n => noon + Z.of_nat n) settings.
Definition working : env := mkEnv accepts (fun n => noon + Z.of_nat n) settings.
Definition down : env := mkEnv refuses (fun n => noon + Z.of_nat n) settings.

Definition elections : Article :=
  mkArticle "a1" "Elecciones 2025: Resultados preliminares"
            "https://tumedio.com/elecciones-2025"
            ["elecciones"; "resultados"] "politica" (Some (noon - hour)) None.

Definition budget_news : Article :=
  mkArticle "a2" "Budget news" "https://tumedio.com/budget"
            ["economy"] "economia" (Some (noon - 100 * hour)) None.

Definition empty_world : world :=
  mkWorld [] 0 [] [("a1", elections); ("a2", budget_news)] None None.

Definition config : CampaignConfig :=
  mkCampaignConfig "Express: elecciones" 20000000 500000
    (Some noon) (Some (noon + 24 * hour)) ["elecciones"; "resultados"]
    "https://tumedio.com/elecciones-2025" ["Elecciones 2025"; "En vivo"; "Hoy"]
    ["Cobertura completa"; "Resultados"].

Definition stored (id : string) (expires : Z) (st : StoredStatus.t) : StoredCampaign :=
  mkStoredCampaign id "a1" "elecciones"
    (mkCampaignResult id "5" CampaignStatus.PAUSED ("customers/123/campaigns/" ++ id))
    (Some (noon - 48 * hour)) (Some expires) st.

Definition old1 : StoredCampaign := stored "11" (noon - hour) StoredStatus.ACTIVE.
Definition old2 : StoredCampaign := stored "12" (noon - 2 * hour) StoredStatus.ACTIVE.
Definition locked : StoredCampaign := stored "13" (noon - 3 * hour) StoredStatus.ACTIVE.
Definition fresh : StoredCampaign := stored "14" (noon + hour) StoredStatus.ACTIVE.

Definition registry (entries : list StoredCampaign) : world :=
  mkWorld [] 0 (map (fun c => (sc_id c, c)) entries) [] None None.

End Scenario.

Module MatcherSpec.
Import ArticlesService.

(** The score of a pair when the clock reads [now]. *)
Definition relevance (now : Z) (trend : TrendingSearch) (article : Article) : Z :=
  let trendWords := Str.split_ws (Str.toLowerCase (keyword trend)) in
  let trendRelated := map Str.toLowerCase (relatedQueries trend) in
  add_recency now (publishedAt article)
    (add_keyword_matches trendWords trendRelated (keywords article)
       (add_title_matches trendWords (Str.toLowerCase (title article)) 0)).

(** What each part of the score adds. *)
Definition title_points (trend : TrendingSearch) (article : Article) : Z :=
  add_title_matches (Str.split_ws (Str.toLowerCase (keyword trend)))
                    (Str.toLowerCase (title article)) 0.

Definition word_points (trend : TrendingSearch) (article : Article) : Z :=
  fold_left (fun points kw =>
               add_word_matches (Str.split_ws (Str.toLowerCase (keyword trend)))
                                (Str.toLowerCase kw) points)
            (keywords article) 0.

Definition related_points (trend : TrendingSearch) (article : Article) : Z :=
  fold_left (fun points kw =>
               add_related_matches (map Str.toLowerCase (relatedQueries trend))
                                   (Str.toLowerCase kw) points)
            (keywords article) 0.

Definition recency_points (now : Z) (article : Article) : Z :=
  add_recency now (publishedAt article) 0.

(** The matches of the pairs, in order, the [k]-th reading of the clock
    going to the first pair: the array before it is sorted. *)
Fixpoint enumeration (E : env) (k : nat) (pairs : list (TrendingSearch * Article))
  : list TrendMatch :=
  match pairs with
  | [] => []
  | (trend, article) :: rest =>
      let score := relevance (clock E k) trend article in
      if 0 <? score
      then mkTrendMatch trend article score :: enumeration E (S k) rest
      else enumeration E (S k) rest
  end.

Definition has_score (s : Z) (m : TrendMatch) : bool := score m =? s.

(** The loop over the articles, for one trend. *)
Definition scan_articles (trend : TrendingSearch) (articles : list Article)
    (matches : list TrendMatch) : M (list TrendMatch) :=
  foldM (fun matches article =>
           score <- calculateRelevanceScore trend article ;;
           if 0 <? score
           then ret (matches ++ [mkTrendMatch trend article score])%list
           else ret matches)
        articles matches.

(** [a] may stand before [b]. *)
Definition descending (a b : TrendMatch) : Prop := score b <= score a.

(** A trend without a keyword. *)
Definition blank_trend : TrendingSearch := mkTrendingSearch "" "0" [] [].

End MatcherSpec.

Module RegistrySpec.
Import Platform CampaignsService.

(** The three operations that delegate to the platform. *)
Inductive operation : Type := Pause | Enable | Remove.

Definition run (op : operation) (id : string) : M unit :=
  match op with
  | Pause => pauseCampaign id
  | Enable => enableCampaign id
  | Remove => removeCampaign id
  end.

(** The status that the operation asks the platform for. *)
Definition requested (op : operation) : CampaignStatus.t :=
  match op with
  | Pause => CampaignStatus.PAUSED
  | Enable => CampaignStatus.ENABLED
  | Remove => CampaignStatus.REMOVED
  end.

(** What the operation does to the registry once the platform agreed. *)
Definition applied (op : operation) (id : string)
    (m : list (string * StoredCampaign)) : list (string * StoredCampaign) :=
  match op with
  | Pause => JSMap.adjust id (set_status StoredStatus.PAUSED) m
  | Enable => JSMap.adjust id (set_status StoredStatus.ACTIVE) m
  | Remove => JSMap.delete id m
  end.

Definition removal_request (c : StoredCampaign) : call :=
  campaigns_update (resourceName (sc_result c)) CampaignStatus.REMOVED.

(** The expiry instant of the entry has passed at [now], and the entry
    is ACTIVE. *)
Definition due (now : JSDate.Date) (kv : string * StoredCampaign) : bool :=
  match expiresAt (snd kv), now, sc_status (snd kv) with
  | Some expires, Some t, StoredStatus.ACTIVE => expires <? t
  | _, _, _ => false
  end.


(** What ends a sweep: a removal rejected with a reason, null or
    undefined, whose message cannot be read. *)
Definition unread (ev : event) : option exn :=
  match ev with
  | Called _ (Rejected reason) =>
      match JS.get reason "message" with
      | Throw e => Some e
      | Ok _ => None
      end
  | _ => None
  end.

(** The removal attempts of a sweep over [entries]: for each entry that is
    due, as long as the sweep goes on, its id and the request with the
    answer the platform gives at that point of the history. *)
Fixpoint attempts (E : env) (history : list event) (now : JSDate.Date)
    (entries : list (string * StoredCampaign)) : list (string * event) :=
  match entries with
  | [] => []
  | (id, c) :: rest =>
      if due now (id, c) then
        let ev := Called (removal_request c) (platform E history (removal_request c)) in
        (id, ev) :: match unread ev with
                    | Some _ => []
                    | None => attempts E (history ++ [ev]) now rest
                    end
      else attempts E history now rest
  end.

Definition resolved (ev : event) : bool :=
  match ev with
  | Called _ (Resolved _) => true
  | _ => false
  end.

(** The ids whose removal the platform accepted. *)
Definition removed_ids (tries : list (string * event)) : list string :=
  map fst (filter (fun t => resolved (snd t)) tries).

(** What the sweep ends with: the count of the accepted removals, or what
    the reading of a rejection threw. *)
Fixpoint sweep_result (tries : list (string * event)) (cleaned : Z) : result Z :=
  match tries with
  | [] => Ok cleaned
  | (_, ev) :: rest =>
      match unread ev with
      | Some e => Throw e
      | None => sweep_result rest (if resolved ev then cleaned + 1 else cleaned)
      end
  end.

Definition mem (k : string) (ks : list string) : bool := existsb (String.eqb k) ks.


(** The duration that an express campaign runs for. *)
Definition hours (E : env) (dto : CreateExpressCampaignDto) : Z :=
  or_default (dto_durationHours dto) (defaultDurationHours (defaults E)).

End RegistrySpec.

(** ** Texts *)

Module TextSpec.

(** No character of [s] is [x]. *)
Definition free_of (x : ascii) (s : string) : bool :=
  DateSpec.all (fun c => negb (Ascii.eqb c x)) s.

(** [t] is [s] cut after [n] code units. *)
Definition truncated (n : nat) (s t : string) : Prop :=
  String.prefix t s = true /\
  String.length t = Nat.min n (String.length s) /\
  ((String.length s <= n)%nat -> t = s).

(** [s] and [t] differ at most in the case of their letters. *)
Definition same_letters (s t : string) : Prop :=
  Str.toLowerCase s = Str.toLowerCase t.

(** The code units of the capital letters: A to Z, and in the Latin-1
    Supplement U+00C0 to U+00D6 and U+00D8 to U+00DE.  The small letter of
    a capital letter is 32 code units further. *)
Definition capital (n : nat) : bool :=
  (Nat.leb 65 n && Nat.leb n 90) || (Nat.leb 192 n && Nat.leb n 214) ||
  (Nat.leb 216 n && Nat.leb n 222).

(** [c] and [d] are the same code unit, or the capital and the small form
    of one letter. *)
Definition same_letter (c d : ascii) : Prop :=
  c = d \/
  (capital (Str.code c) = true /\ Str.code d = (Str.code c + 32)%nat) \/
  (capital (Str.code d) = true /\ Str.code c = (Str.code d + 32)%nat).

(** [s] and [t] are the same text but for the case of the letters. *)
Inductive alike : string -> string -> Prop :=
| alike_empty : alike EmptyString EmptyString
| alike_letter : forall c d s t,
    same_letter c d -> alike s t -> alike (String c s) (String d t).

(** A part of [s] is alike [t]. *)
Definition contains_alike (s t : string) : Prop :=
  exists before part after, s = before ++ part ++ after /\ alike part t.

End TextSpec.

(** ** More platforms, for examples *)

Module Cases.
Import Platform.

Definition duplicate_name : Failure :=
  GoogleAdsFailure
    [mkGoogleAdsError (Some [("campaign_error", JStr "DUPLICATE_CAMPAIGN_NAME")])
                      (Some "Campaign name already exists") None None]
    None.

(** Budgets are created and removed; no campaign is. *)
Definition no_campaigns (history : list event) (c : call) : response :=
  match c with
  | campaigns_create _ => fails duplicate_name
  | _ => Scenario.answers history c
  end.

Definition crowded : env :=
  mkEnv no_campaigns (fun n => Scenario.noon + Z.of_nat n) Scenario.settings.








(** A clock that stands still at noon. *)
Definition still : env :=
  mkEnv Scenario.accepts (fun _ => Scenario.noon) Scenario.settings.

Definition breaking : Article :=
  mkArticle "a3" "Temporal en la costa" "https://tumedio.com/temporal"
            ["clima"] "sociedad" (Some (Scenario.noon - 2 * Scenario.hour)) None.

(** A catalogue of two articles of the last hours. *)
Definition morning : world :=
  mkWorld [] 0 [] [("a1", Scenario.elections); ("a3", breaking)] None None.

(** Draws of the random source. *)
Definition dice (n : nat) : string :=
  match n with
  | O => "k3j9x0q1z"
  | _ => "7h2m4p8wd"
  end.

Definition storm : CreateArticleDto :=
  mkCreateArticleDto "Temporal en la costa" "https://tumedio.com/temporal"
                     ["clima"; "Temporal"] "Sociedad" None.

Definition football : TrendingSearch :=
  mkTrendingSearch "Final de la Copa" "200K+" ["boca river"] [].

Definition vote : TrendingSearch :=
  mkTrendingSearch "ELECCIONES 2025" "500K+" ["Resultados Elecciones"] [].

Definition vote_lower : TrendingSearch :=
  mkTrendingSearch "elecciones 2025" "1M+" ["resultados elecciones"] [].

End Cases.

(** ** The catalogue of articles *)

Module CatalogueSpec.
Import ArticlesService.

(** The calls that change the catalogue. *)
Inductive operation : Type :=
| Create (dto : CreateArticleDto)
| BulkCreate (dtos : list CreateArticleDto)
| Update (id : string) (dto : UpdateArticleDto)
| Remove (id : string).

(** The call, its answer left aside; an exception ends the call only. *)
Definition perform (random : nat -> string) (op : operation) : M unit :=
  try_catch
    (match op with
     | Create dto => create random dto ;; ret tt
     | BulkCreate dtos => bulkCreate random dtos ;; ret tt
     | Update id dto => update id dto ;; ret tt
     | Remove id => remove id
     end)
    (fun _ => ret tt).

Definition perform_all (random : nat -> string) (ops : list operation) : M unit :=
  foldM (fun _ op => perform random op) ops tt.

(** The article is kept under its own id. *)
Definition own_id (kv : string * Article) : Prop := art_id (snd kv) = fst kv.

(** Every article is kept under its own id, one article for each id. *)
Definition filed_by_id (m : list (string * Article)) : Prop :=
  JSMap.wf m /\ Forall own_id m.

(** The call gives no id to an article that has one. *)
Definition keeps_ids (op : operation) : Prop :=
  match op with
  | Update _ dto => ua_id dto = None
  | _ => True
  end.

(** The property that the object gives, or else the one that was there. *)
Definition or_else {A} (new : option A) (old : A) : A :=
  match new with
  | Some x => x
  | None => old
  end.

(** The object without properties, and the one that has an id only. *)
Definition no_change : UpdateArticleDto :=
  mkUpdateArticleDto None None None None None None None.

Definition new_id (id : string) : UpdateArticleDto :=
  mkUpdateArticleDto None None None None None (Some id) None.

(** The object that has a title only. *)
Definition new_title (text : string) : UpdateArticleDto :=
  mkUpdateArticleDto (Some text) None None None None None None.

(** The article that [create] makes of [dto] at the [n]-th reading. *)
Definition created (random : nat -> string) (E : env) (n : nat)
    (dto : CreateArticleDto) : Article :=
  mkArticle ("article-" ++ JS.decimal (clock E n) ++ "-" ++ random n)
            (ca_title dto) (ca_url dto) (ca_keywords dto) (ca_category dto)
            (Some (clock E (S n))) (ca_shortDescription dto).

(** The articles that [bulkCreate] makes of [dtos] from the [n]-th
    reading on. *)
Fixpoint created_all (random : nat -> string) (E : env) (n : nat)
    (dtos : list CreateArticleDto) : list Article :=
  match dtos with
  | [] => []
  | dto :: rest => created random E n dto :: created_all random E (S (S n)) rest
  end.

Definition has_keywords (a : Article) : bool :=
  match keywords a with
  | [] => false
  | _ => true
  end.

End CatalogueSpec.

(** ** The campaigns service *)

Module ServiceSpec.
Import Platform CampaignsService.

Definition fallback_description : string :=
  Str.text "Información actualizada y confiable".

(** The configuration that [createExpressCampaign] makes of a request and
    of its article when the clock reads [start]. *)
Definition express_config (E : env) (start : Z) (dto : CreateExpressCampaignDto)
    (article : Article) : CampaignConfig :=
  mkCampaignConfig
    ("Express: " ++ dto_trendKeyword dto ++ " - " ++ JSDate.iso_date start)
    (or_default (dto_budgetMicros dto) (defaultBudgetMicros (defaults E)))
    (defaultCpcBidMicros (defaults E))
    (Some start)
    (JSDate.plus (Some start)
       (or_default (dto_durationHours dto) (defaultDurationHours (defaults E))
        * 60 * 60 * 1000))
    (dto_trendKeyword dto :: keywords article)
    (url article)
    [Str.substring0 30 (title article);
     category article ++ Str.text " - Última Hora";
     Str.text "Lee Más Aquí"]
    [match shortDescription article with
     | Some text => if (text =? "")%string then fallback_description else text
     | None => fallback_description
     end;
     "Toda la actualidad de " ++ category article].

(** The entry that a successful [createExpressCampaign] stores. *)
Definition entry (E : env) (start : Z) (dto : CreateExpressCampaignDto)
    (result : CampaignResult) : StoredCampaign :=
  mkStoredCampaign (campaignId result) (dto_articleId dto) (dto_trendKeyword dto)
    result (Some start)
    (JSDate.plus (Some start)
       (or_default (dto_durationHours dto) (defaultDurationHours (defaults E))
        * 60 * 60 * 1000))
    StoredStatus.ACTIVE.

(** The configuration that [createCampaign] makes of a request. *)
Definition custom_config (E : env) (start : Z) (dto : CreateCampaignDto)
  : CampaignConfig :=
  mkCampaignConfig (cc_name dto) (cc_budgetMicros dto)
    (or_default (cc_cpcBidMicros dto) (defaultCpcBidMicros (defaults E)))
    (Some start)
    (JSDate.plus (Some start) (cc_durationHours dto * 60 * 60 * 1000))
    (cc_keywords dto) (cc_finalUrl dto) (cc_headlines dto) (cc_descriptions dto).

(** The request for a budget named after [name] when the clock reads [t]. *)
Definition budget_request (name : string) (t amount : Z) : call :=
  campaignBudgets_create
    (mkBudgetData ("Budget: " ++ name ++ " (" ++ JS.decimal t ++ ")") amount STANDARD).

(** There is an entry under [id], and it is ACTIVE. *)
Definition active_under (id : string) (m : list (string * StoredCampaign)) : Prop :=
  exists stored, JSMap.get id m = Some stored /\
                 sc_status stored = StoredStatus.ACTIVE.

(** What holds of every entry of a registry that the service has built:
    its key is its id and the id of its result, its status is ACTIVE or
    PAUSED, the status of its result is PAUSED, its dates are valid. *)
Definition entry_ok (kv : string * StoredCampaign) : Prop :=
  sc_id (snd kv) = fst kv /\
  campaignId (sc_result (snd kv)) = fst kv /\
  sc_status (snd kv) <> StoredStatus.EXPIRED /\
  res_status (sc_result (snd kv)) = CampaignStatus.PAUSED /\
  createdAt (snd kv) <> None /\
  expiresAt (snd kv) <> None.

Definition registry_ok (m : list (string * StoredCampaign)) : Prop :=
  JSMap.wf m /\ Forall entry_ok m.

(** The calls of the service that may change the registry. *)
Inductive request : Type :=
| CreateCampaign (dto : CreateCampaignDto)
| CreateExpressCampaign (dto : CreateExpressCampaignDto)
| AutoCreateFromTrends (geo : option string) (maxCampaigns : Z)
| PauseCampaign (id : string)
| EnableCampaign (id : string)
| RemoveCampaign (id : string)
| CleanupExpiredCampaigns.

Section Serve.
Variable getDailyTrends : option string -> M (list TrendingSearch).

(** The call, its answer left aside; an exception ends the call only. *)
Definition serve (rq : request) : M unit :=
  try_catch
    (match rq with
     | CreateCampaign dto => createCampaign dto ;; ret tt
     | CreateExpressCampaign dto => createExpressCampaign dto ;; ret tt
     | AutoCreateFromTrends geo n =>
         autoCreateFromTrends getDailyTrends geo n ;; ret tt
     | PauseCampaign id => pauseCampaign id
     | EnableCampaign id => enableCampaign id
     | RemoveCampaign id => removeCampaign id
     | CleanupExpiredCampaigns => cleanupExpiredCampaigns ;; ret tt
     end)
    (fun _ => ret tt).

Definition serve_all (rqs : list request) : M unit :=
  foldM (fun _ rq => serve rq) rqs tt.
End Serve.

End ServiceSpec.

Module Feeds.

(** A trends service that reports two trends. *)
Definition two_trends (geo : option string) : M (list TrendingSearch) :=
  ret [Cases.vote_lower; Cases.football].

(** A trends service that is down. *)
Definition no_trends (geo : option string) : M (list TrendingSearch) :=
  throw (Thrown (JObj [("message", JStr "429 Too Many Requests")])).

End Feeds.

(** ** The trends service *)

Module TrendsSpec.
Import GoogleTrendsService.

(** What [x || ''] leaves: a value that is not falsy, or the empty text. *)
Definition filled (v : value) : bool := JS.truthy v || JS.is_str v "".

Definition article_filled (a : TrendArticleData) : bool :=
  filled (td_title a) && filled (td_url a) && filled (td_source a) &&
  filled (td_snippet a).

Definition trend_filled (t : TrendData) : bool :=
  filled (tr_keyword t) && JS.truthy (tr_traffic t) &&
  forallb article_filled (tr_articles t).

(** A list that [xs?.map(...)] can go through with a callback that reads
    a property of each element: nothing, or an array without null or
    undefined elements. *)
Definition readable_list (xs : value) : bool :=
  JS.nullish xs ||
  (JS.isArray xs && forallb (fun x => negb (JS.nullish x)) (JS.items_of xs)).

(** A trending search that [dailyTrend] can read. *)
Definition trend_readable (trend : value) : bool :=
  negb (JS.nullish trend) &&
  readable_list (JS.prop trend "relatedQueries") &&
  readable_list (JS.prop trend "articles").

(** The keyword and the traffic that a trend has of its search. *)
Definition reads (search : value) (t : TrendData) : Prop :=
  tr_keyword t = JS.or (JS.get_opt (JS.prop search "title") "query") (JStr "") /\
  tr_traffic t = JS.or (JS.prop search "formattedTraffic") (JStr "0").

(** [data.default?.trendingSearchesDays?.[0]?.trendingSearches] *)
Definition searches_of (data : value) : value :=
  JS.get_opt (first_opt (JS.get_opt (JS.prop data "default") "trendingSearchesDays"))
             "trendingSearches".

(** The number of elements of [xs] that are the same value as [x]. *)
Definition occurrences (x : value) (xs : list value) : nat :=
  List.length (filter (same_value x) xs).

Definition primitive (v : value) : bool :=
  match v with
  | JArr _ | JObj _ => false
  | _ => true
  end.

(** [after] is [before] with the queries [related] added to those it had,
    each value once. *)
Definition enriched_with (related : list value) (before after : TrendData) : Prop :=
  tr_keyword after = tr_keyword before /\
  tr_traffic after = tr_traffic before /\
  tr_articles after = tr_articles before /\
  tr_relatedQueries after = distinct (tr_relatedQueries before ++ related)%list /\
  (forall x, primitive x = true ->
             In x (tr_relatedQueries before ++ related)%list ->
             occurrences x (tr_relatedQueries after) = 1%nat).

(** The turns of the loop of [getTopTrendsWithKeywords] over the trends,
    from one world to another: at each turn the related queries of the
    keyword of the trend are fetched, in the world that the turn before
    has left.  When they are fetched the trend is enriched with them and
    a pause of a second is made; when they are not, the trend is left as
    it is and no pause is made. *)
Inductive turns (fetch : value -> M (list value)) (E : env)
  : world -> list TrendData -> world -> list TrendData -> Prop :=
| turns_done : forall w, turns fetch E w [] w []
| turn_fetched : forall w trend trends w1 related after w' top,
    fetch (tr_keyword trend) E w = (w1, Ok related) ->
    enriched_with related trend after ->
    turns fetch E (set_trace (trace w1 ++ [Platform.Slept 1000]) w1) trends w' top ->
    turns fetch E w (trend :: trends) w' (after :: top)
| turn_failed : forall w trend trends w1 e w' top,
    fetch (tr_keyword trend) E w = (w1, Throw e) ->
    turns fetch E w1 trends w' top ->
    turns fetch E w (trend :: trends) w' (trend :: top).

(** *** Answers of the declared type *)

(** A trending search as the API documents it, any field possibly
    absent: the query of its title, its traffic, the queries related to
    it, its articles. *)
Record ApiArticle : Type := mkApiArticle {
  aa_title : option string;
  aa_url : option string;
  aa_source : option string;
  aa_snippet : option string
}.

Record ApiSearch : Type := mkApiSearch {
  as_query : option string;
  as_traffic : option string;
  as_related : option (list string);
  as_articles : option (list ApiArticle)
}.

Definition query_value (q : string) : value := JObj [("query", JStr q)].

Definition article_value (a : ApiArticle) : value :=
  JObj (Platform.opt_field "title" JStr (aa_title a) ++
        Platform.opt_field "url" JStr (aa_url a) ++
        Platform.opt_field "source" JStr (aa_source a) ++
        Platform.opt_field "snippet" JStr (aa_snippet a)).

Definition search_value (s : ApiSearch) : value :=
  JObj (Platform.opt_field "title" query_value (as_query s) ++
        Platform.opt_field "formattedTraffic" JStr (as_traffic s) ++
        Platform.opt_field "relatedQueries" (fun qs => JArr (map query_value qs))
                           (as_related s) ++
        Platform.opt_field "articles" (fun arts => JArr (map article_value arts))
                           (as_articles s)).

(** The parsed answer that lists [searches] for one day. *)
Definition answer_value (day : string) (searches : list ApiSearch) : value :=
  JObj [("default",
         JObj [("trendingSearchesDays",
                JArr [JObj [("date", JStr day);
                            ("trendingSearches", JArr (map search_value searches))]])])].

(** [text || fallback] *)
Definition text_or (text : option string) (fallback : string) : string :=
  or_text text fallback.

Definition list_or {A} (xs : option (list A)) : list A :=
  match xs with
  | Some l => l
  | None => []
  end.

(** The trend of the declared type [TrendingSearch] for a search. *)
Definition typed_article (a : ApiArticle) : TrendArticle :=
  mkTrendArticle (text_or (aa_title a) "") (text_or (aa_url a) "")
                 (text_or (aa_source a) "") (text_or (aa_snippet a) "").

Definition typed_trend (s : ApiSearch) : TrendingSearch :=
  mkTrendingSearch (text_or (as_query s) "") (text_or (as_traffic s) "0")
                   (list_or (as_related s))
                   (map typed_article (list_or (as_articles s))).

(** A [TrendingSearch] as the object that the service returns. *)
Definition article_data (a : TrendArticle) : TrendArticleData :=
  mkTrendArticleData (JStr (ta_title a)) (JStr (ta_url a))
                     (JStr (ta_source a)) (JStr (ta_snippet a)).

Definition trend_data (t : TrendingSearch) : TrendData :=
  mkTrendData (JStr (keyword t)) (JStr (traffic t))
              (map JStr (relatedQueries t))
              (map article_data (trend_articles t)).

End TrendsSpec.

Module TrendsCases.
Import GoogleTrendsService.

Definition ar : TrendsConfig := mkTrendsConfig "AR" "es".

(** A parsed answer of the API for the daily trends. *)
Definition answer : value :=
  JObj [("default",
         JObj [("trendingSearchesDays",
                JArr [JObj [("date", JStr "20250115");
                            ("trendingSearches",
                             JArr [JObj [("title", JObj [("query", JStr "Elecciones 2025")]);
                                         ("formattedTraffic", JStr "500K+");
                                         ("relatedQueries",
                                          JArr [JObj [("query", JStr "resultados")];
                                                JObj [("query", JStr "padron")]]);
                                         ("articles",
                                          JArr [JObj [("title", JStr "Resultados");
                                                      ("url", JStr "https://diario.com/r")]])];
                                   JObj []])]])])].

(** A parsed answer for the related queries. *)
Definition ranked : value :=
  JObj [("default",
         JObj [("rankedList",
                JArr [JObj [("rankedKeyword",
                             JArr [JObj [("query", JStr "padron")];
                                   JObj [("query", JStr "donde voto")];
                                   JObj [("query", JStr "padron")]])]])])].

(** An API that answers [daily] to [dailyTrends] and [related] to
    [relatedQueries]; the parser reads the two texts. *)
Definition dailyTrends (geo hl : string) : M string := ret "daily".

Definition relatedQueries (keyword : value) (geo hl : string) : M string :=
  if JS.is_str keyword "Elecciones 2025" then ret "related"
  else throw (Thrown (JObj [("message", JStr "429")])).

Definition JSON_parse (text : string) : result value :=
  if (text =? "daily")%string then Ok answer
  else if (text =? "related")%string then Ok ranked
  else Throw (Thrown (JObj [("message", JStr "Unexpected token")])).

End TrendsCases.

(** * Properties *)

(** ** Results and the monad *)

Lemma mapR_total : forall {A B} (f : A -> result B) (l : list A),
  Forall (fun x => exists y, f x = Ok y) l -> exists ys, mapR f l = Ok ys.
Proof.
  intros A B f l H. induction H as [|x l [y Hy] _ [ys Hys]].
  - exists []. reflexivity.
  - exists (y :: ys). cbn. rewrite Hy. cbn. rewrite Hys. reflexivity.
Qed.

Lemma mapR_length : forall {A B} (f : A -> result B) (l : list A) ys,
  mapR f l = Ok ys -> List.length ys = List.length l.
Proof.
  intros A B f l. induction l as [|x l IH]; intros ys H; cbn in H.
  - injection H as <-. reflexivity.
  - destruct (f x) as [y|]; cbn in H; [|discriminate].
    destruct (mapR f l) as [ys'|]; cbn in H; [|discriminate].
    injection H as <-. cbn. f_equal. apply IH. reflexivity.
Qed.

(** ** The error classifier *)

Module ClassifierFacts.
Import HttpStatus Classifier ClassifierSpec.

Lemma determineStatusCode_cons : forall error rest,
  determineStatusCode (error :: rest) =
    match subErrorStatus error with
    | Ok (Some s) => Ok s
    | Ok None => determineStatusCode rest
    | Throw x => Throw x
    end.
Proof.
  intros error rest. unfold subErrorStatus. cbn [determineStatusCode].
  destruct (errorCode_of error) as [errorCode|x]; cbn [rbind]; [|reflexivity].
  destruct (errorType_of errorCode) as [errorType|x]; cbn [rbind]; [|reflexivity].
  destruct (errorValue_of errorCode) as [errorValue|x]; cbn [rbind]; [|reflexivity].
  destruct (is_validation errorType errorValue); [reflexivity|].
  repeat match goal with
         | |- context [if ?b then _ else _] => destruct b; [reflexivity|]
         end.
  reflexivity.
Qed.


Lemma subErrorStatus_total : forall e,
  JS.nullish e = false -> exists o, subErrorStatus e = Ok o.
Proof.
  intros e He. unfold subErrorStatus, errorCode_of, JS.get. rewrite He. cbn [rbind].
  assert (Hnn : JS.nullish (JS.or (JS.prop e "error_code") (JObj [])) = false).
  { unfold JS.or. destruct (JS.truthy (JS.prop e "error_code")) eqn:Ht; [|reflexivity].
    destruct (JS.prop e "error_code"); try reflexivity; discriminate. }
  destruct (JS.or (JS.prop e "error_code") (JObj [])) as [| |b|n|s|l|fs];
    try discriminate; cbn [errorType_of errorValue_of JS.Object_keys JS.Object_values rbind];
    repeat match goal with
           | |- context [if ?b then _ else _] => destruct b
           end; eauto.
Qed.

Lemma determineStatusCode_total : forall errs,
  forallb (fun e => negb (JS.nullish e)) errs = true ->
  exists s, determineStatusCode errs = Ok s.
Proof.
  induction errs as [|e errs IH]; intros H.
  - eexists. reflexivity.
  - cbn in H. apply andb_prop in H as [He H].
    apply negb_true_iff in He.
    rewrite determineStatusCode_cons.
    destruct (subErrorStatus_total e He) as [[s|] ->]; eauto.
Qed.

Lemma truthy_not_nullish : forall v, JS.truthy v = true -> JS.nullish v = false.
Proof. destruct v; cbn; congruence. Qed.

Lemma Object_keys_total : forall v,
  JS.nullish v = false -> exists ks, JS.Object_keys v = Ok ks.
Proof. destruct v; cbn; intros; try discriminate; eauto. Qed.

Lemma Object_values_total : forall v,
  JS.nullish v = false -> exists vs, JS.Object_values v = Ok vs.
Proof. destruct v; cbn; intros; try discriminate; eauto. Qed.

Lemma field_of_total : forall e,
  sub_error_ok e = true -> exists v, field_of e = Ok v.
Proof.
  intros e H. unfold sub_error_ok in H. apply andb_prop in H as [He Hel].
  apply negb_true_iff in He.
  unfold field_of, JS.get. rewrite He. cbn [rbind].
  unfold elements_ok in Hel.
  destruct (JS.nullish (JS.get_opt (JS.prop e "location") "field_path_elements"));
    [eauto|].
  cbn in Hel. apply andb_prop in Hel as [Harr Hall]. rewrite Harr.
  destruct (mapR_total (fun f => JS.get f "field_name")
              (JS.items_of (JS.get_opt (JS.prop e "location") "field_path_elements")))
    as [names Hn].
  { apply Forall_forall. intros f Hf.
    rewrite forallb_forall in Hall. specialize (Hall f Hf).
    apply negb_true_iff in Hall. unfold JS.get. rewrite Hall. eauto. }
  unfold JS.get in Hn |- *. rewrite Hn. cbn. eauto.
Qed.

Lemma formatError_total : forall e,
  sub_error_ok e = true -> exists fe, formatError e = Ok fe.
Proof.
  intros e H. destruct (field_of_total e H) as [fld Hfld].
  unfold sub_error_ok in H. apply andb_prop in H as [He _].
  apply negb_true_iff in He.
  unfold formatError, JS.get. rewrite He. cbn [rbind].
  destruct (JS.truthy (JS.prop e "error_code")) eqn:Hec.
  - apply truthy_not_nullish in Hec.
    destruct (Object_keys_total _ Hec) as [ks ->].
    destruct (Object_values_total _ Hec) as [vs ->]. cbn [rbind].
    rewrite Hfld. cbn [rbind].
    destruct (JS.truthy (JS.prop e "trigger")) eqn:Htr; cbn [rbind]; [|eauto].
    apply truthy_not_nullish in Htr.
    destruct (Object_values_total _ Htr) as [ts ->]. cbn [rbind]. eauto.
  - cbn [rbind]. rewrite Hfld. cbn [rbind].
    destruct (JS.truthy (JS.prop e "trigger")) eqn:Htr; cbn [rbind]; [|eauto].
    apply truthy_not_nullish in Htr.
    destruct (Object_values_total _ Htr) as [ts ->]. cbn [rbind]. eauto.
Qed.

Lemma sub_error_ok_not_nullish : forall e,
  sub_error_ok e = true -> negb (JS.nullish e) = true.
Proof. intros e H. apply andb_prop in H as [H _]. exact H. Qed.

(** On a well-shaped payload the classifier returns; without a usable list
    of sub-errors it returns the generic classification. *)
Lemma extractGoogleAdsErrorDetails_total : forall error,
  well_shaped error = true ->
  exists d, extractGoogleAdsErrorDetails error = Ok d /\
            (has_errors error = false -> d = generic error).
Proof.
  intros error H. unfold well_shaped in H. unfold extractGoogleAdsErrorDetails.
  destruct (has_errors error) eqn:Hh.
  - destruct (mapR_total formatError (JS.items_of (JS.get_opt error "errors")))
      as [fes Hfes].
    { apply Forall_forall. intros e He. rewrite forallb_forall in H.
      apply formatError_total, H, He. }
    destruct (determineStatusCode_total (JS.items_of (JS.get_opt error "errors")))
      as [s Hs].
    { apply forallb_forall. intros e He. rewrite forallb_forall in H.
      apply sub_error_ok_not_nullish, H, He. }
    rewrite Hfes, Hs. cbn [rbind]. eexists. split; [reflexivity|discriminate].
  - eexists. split; reflexivity.
Qed.

Lemma get_not_nullish : forall v k, JS.nullish v = false -> JS.get v k = Ok (JS.prop v k).
Proof. intros v k H. unfold JS.get. rewrite H. reflexivity. Qed.





End ClassifierFacts.

(** ** Failures of the platform are well-shaped payloads *)

Module FailureFacts.
Import Platform Classifier ClassifierSpec ClassifierFacts SagaSpec.

Lemma elements_not_nullish : forall els,
  forallb (fun f => negb (JS.nullish f)) (map element_value els) = true.
Proof. induction els as [|f els IH]; [reflexivity|exact IH]. Qed.

Lemma error_value_ok : forall e, sub_error_ok (error_value e) = true.
Proof.
  intros [ec m tr loc]. unfold sub_error_ok, error_value.
  destruct ec, m, tr, loc; cbn; try reflexivity; apply elements_not_nullish.
Qed.

Lemma failure_has_errors : forall errs rid,
  has_errors (failure_value (GoogleAdsFailure errs rid)) =
    match errs with [] => false | _ => true end.
Proof. intros [|e errs] rid; reflexivity. Qed.

Lemma failure_well_shaped : forall f, well_shaped (failure_value f) = true.
Proof.
  intros [errs rid|m]; [|reflexivity].
  unfold well_shaped. rewrite failure_has_errors.
  destruct errs as [|e errs]; [reflexivity|].
  change (JS.items_of (JS.get_opt (failure_value (GoogleAdsFailure (e :: errs) rid)) "errors"))
    with (map error_value (e :: errs)).
  apply forallb_forall. intros x Hx. apply in_map_iff in Hx as [y [<- _]].
  apply error_value_ok.
Qed.

(** The classification of a failure exists. *)
Lemma failure_classified : forall f,
  exists d, extractGoogleAdsErrorDetails (failure_value f) = Ok d.
Proof.
  intros f. destruct (extractGoogleAdsErrorDetails_total _ (failure_well_shaped f))
    as [d [Hd _]]. eauto.
Qed.

Lemma serialize_object : forall fields, exists t, JS.serialize (JObj fields) = Some t.
Proof. intros. eexists. reflexivity. Qed.

(** The message that the rollback words from a failure is a string. *)
Lemma failure_message : forall f,
  exists s, extractErrorMessage (failure_value f) = Ok (JStr s).
Proof.
  intros [errs rid|m]; unfold extractErrorMessage.
  - change (JS.truthy (failure_value (GoogleAdsFailure errs rid))) with true.
    cbn [negb]. rewrite failure_has_errors.
    destruct errs as [|e errs].
    + change (JS.prop (failure_value (GoogleAdsFailure [] rid)) "message")
        with (JS.lookup "message" (opt_field "request_id" JStr rid)).
      destruct rid; eexists; reflexivity.
    + change (JS.items_of (JS.prop (failure_value (GoogleAdsFailure (e :: errs) rid)) "errors"))
        with (map error_value (e :: errs)).
      destruct (mapR_total
                  (fun e0 => let? m := JS.get e0 "message" in
                             if JS.truthy m then Ok m
                             else (let? ec := JS.get e0 "error_code" in
                                   Ok (JS.JSON_stringify ec)))
                  (map error_value (e :: errs))) as [ms Hms].
      { apply Forall_forall. intros x Hx. apply in_map_iff in Hx as [y [<- _]].
        assert (Hn : JS.nullish (error_value y) = false) by reflexivity.
        rewrite !(get_not_nullish _ _ Hn). cbn [rbind].
        destruct (JS.truthy (JS.prop (error_value y) "message")); eauto. }
      rewrite Hms. cbn [rbind]. eauto.
  - cbn. destruct (m =? "")%string; cbn; eauto.
Qed.

(** The failures of the SDK are worded. *)
Lemma failure_worded : forall f, worded (failure_value f) = true.
Proof.
  intros [errs rid|m]; unfold worded.
  - change (JS.truthy (failure_value (GoogleAdsFailure errs rid))) with true.
    cbn [negb orb]. rewrite failure_has_errors.
    destruct errs as [|e errs].
    + change (JS.prop (failure_value (GoogleAdsFailure [] rid)) "message")
        with (JS.lookup "message" (opt_field "request_id" JStr rid)).
      destruct rid; reflexivity.
    + change (JS.items_of (JS.get_opt (failure_value (GoogleAdsFailure (e :: errs) rid))
                                      "errors"))
        with (map error_value (e :: errs)).
      apply forallb_forall. intros x Hx. apply in_map_iff in Hx as [y [<- _]].
      reflexivity.
  - reflexivity.
Qed.

End FailureFacts.
(** ** Running the saga *)

Module SagaFacts.
Import Platform Classifier ClassifierSpec ClassifierFacts FailureFacts SagaSpec.
Import GoogleAdsService.

Ltac run :=
  cbv beta iota zeta delta
      [bind ret throw try_catch lift gets modify asks await sleep Date_now Date_new
       set_trace set_ticks set_campaigns set_budgetResourceName
       set_campaignResourceName];
  cbn [trace ticks campaigns articles budgetResourceName campaignResourceName].

Ltac run_in H :=
  cbv beta iota zeta delta
      [bind ret throw try_catch lift gets modify asks await sleep Date_now Date_new
       set_trace set_ticks set_campaigns set_budgetResourceName
       set_campaignResourceName] in H;
  cbn [trace ticks campaigns articles budgetResourceName campaignResourceName] in H.


(** *** What the readers of a payload throw *)

Lemma te_ok : forall {A} (a : A), only_type_errors (Ok a).
Proof. intros A a e H. discriminate. Qed.

Lemma te_throw : forall {A} m, only_type_errors (@Throw A (TypeError m)).
Proof. intros A m e H. injection H as <-. eauto. Qed.

Lemma te_retype : forall {A B} e,
  only_type_errors (@Throw A e) -> only_type_errors (@Throw B e).
Proof. intros A B e H e' He'. injection He' as <-. apply (H e eq_refl). Qed.

Lemma te_bind : forall {A B} (r : result A) (k : A -> result B),
  only_type_errors r -> (forall a, only_type_errors (k a)) ->
  only_type_errors (rbind r k).
Proof.
  intros A B [a|x] k Hr Hk e H; cbn [rbind] in H.
  - apply (Hk a e H).
  - injection H as <-. apply (Hr x eq_refl).
Qed.

Lemma te_mapR : forall {A B} (f : A -> result B) l,
  (forall x, only_type_errors (f x)) -> only_type_errors (mapR f l).
Proof.
  intros A B f l Hf. induction l as [|x l IH]; cbn [mapR]; [apply te_ok|].
  apply te_bind; [apply Hf|]. intros y.
  apply te_bind; [exact IH|]. intros ys. apply te_ok.
Qed.

Lemma te_get : forall v k, only_type_errors (JS.get v k).
Proof. intros v k. unfold JS.get. destruct (JS.nullish v); [apply te_throw|apply te_ok]. Qed.

Lemma te_keys : forall v, only_type_errors (JS.Object_keys v).
Proof. destruct v; cbn; first [apply te_throw|apply te_ok]. Qed.

Lemma te_values : forall v, only_type_errors (JS.Object_values v).
Proof. destruct v; cbn; first [apply te_throw|apply te_ok]. Qed.

Ltac te :=
  repeat first
    [ apply te_ok | apply te_throw | apply te_get | apply te_keys | apply te_values
    | apply te_bind; [|intros ?]
    | apply te_mapR; intros ?
    | progress cbv zeta
    | match goal with
      | |- only_type_errors (if ?b then _ else _) => destruct b
      end ].

Lemma te_message : forall v, only_type_errors (extractErrorMessage v).
Proof. intros v. unfold extractErrorMessage. te. Qed.

Lemma te_includes : forall v s, only_type_errors (includes v s).
Proof. intros v s. destruct v; cbn [includes]; te. Qed.

Lemma te_budget_handler : forall v, only_type_errors (budget_handler v).
Proof.
  intros v. unfold budget_handler.
  apply te_bind; [apply te_message|]. intros m.
  apply te_bind; [apply te_includes|]. intros a.
  apply te_bind; [destruct a; [apply te_ok|apply te_includes]|]. intros _. apply te_ok.
Qed.

Lemma te_field_of : forall e, only_type_errors (field_of e).
Proof. intros e. unfold field_of. te. Qed.

Lemma te_formatError : forall e, only_type_errors (formatError e).
Proof.
  intros e. unfold formatError.
  te.
Qed.

Lemma te_determineStatusCode : forall errs, only_type_errors (determineStatusCode errs).
Proof.
  induction errs as [|e errs IH]; [apply te_ok|].
  rewrite determineStatusCode_cons.
  assert (H : only_type_errors (subErrorStatus e)).
  { unfold subErrorStatus, errorCode_of, errorType_of, errorValue_of. te. }
  destruct (subErrorStatus e) as [[s|]|x]; [apply te_ok|exact IH|].
  intros e' He'. injection He' as <-. apply (H x eq_refl).
Qed.

(** The classifier throws nothing but a TypeError. *)
Lemma te_details : forall v, only_type_errors (extractGoogleAdsErrorDetails v).
Proof.
  intros v. unfold extractGoogleAdsErrorDetails.
  destruct (has_errors v); [|apply te_ok].
  apply te_bind; [apply te_mapR, te_formatError|]. intros fes.
  apply te_bind; [apply te_determineStatusCode|]. intros s. apply te_ok.
Qed.

(** *** Worded reasons *)

Lemma serialize_truthy : forall v, JS.truthy v = true -> exists t, JS.serialize v = Some t.
Proof. destruct v as [| |[|]|n|s|items|fields]; cbn; intros H; try discriminate; eauto. Qed.

Lemma worded_message : forall v,
  worded v = true -> exists s, extractErrorMessage v = Ok (JStr s).
Proof.
  intros v H. unfold worded in H. unfold extractErrorMessage.
  destruct (JS.truthy v) eqn:Hv; cbn [negb orb] in H |- *; [|eauto].
  destruct (has_errors v).
  - destruct (mapR_total
                (fun e => let? m := JS.get e "message" in
                          if JS.truthy m then Ok m
                          else (let? ec := JS.get e "error_code" in
                                Ok (JS.JSON_stringify ec)))
                (JS.items_of (JS.prop v "errors"))) as [ms Hms].
    { apply Forall_forall. intros x Hx.
      assert (Hn : JS.nullish x = false).
      { apply negb_true_iff. rewrite forallb_forall in H. apply H.
        unfold JS.get_opt. rewrite (truthy_not_nullish v Hv). exact Hx. }
      rewrite !(get_not_nullish _ _ Hn). cbn [rbind].
      destruct (JS.truthy (JS.prop x "message")); eauto. }
    rewrite Hms. cbn [rbind]. eauto.
  - destruct (serialize_truthy v Hv) as [t Ht].
    assert (Hs : JS.JSON_stringify v = JStr t) by (unfold JS.JSON_stringify; rewrite Ht; reflexivity).
    destruct (JS.prop v "message") as [| |[|]|n|s|items|fields];
      cbn [JS.truthy negb] in H |- *; try discriminate;
      try (rewrite Hs; eauto; fail);
      match goal with
      | |- context [if ?c then _ else _] => destruct c
      end; try discriminate; rewrite ?Hs; eauto.
Qed.

(** The handler of the budget removal returns on a worded reason. *)
Lemma worded_budget_handler : forall v, worded v = true -> budget_handler v = Ok tt.
Proof.
  intros v H. destruct (worded_message v H) as [s Hs].
  unfold budget_handler. rewrite Hs. cbn [rbind includes].
  destruct (Str.includes s "associated with"); reflexivity.
Qed.

Lemma sdk_words_cleanup : forall E, sdk E -> words_cleanup E.
Proof.
  intros E H history c reason _ Hr.
  destruct (H history c reason Hr) as [f ->]. apply failure_worded.
Qed.

(** *** The rollback *)

(** The removal of the budget, by the answer of the platform. *)
Lemma remove_budget_run : forall budget E w,
  try_catch
    (await (campaignBudgets_remove budget) ;; ret tt)
    (fun rollbackError =>
       errorMessage <- lift (extractErrorMessage (as_any rollbackError)) ;;
       associated <- lift (includes errorMessage "associated with") ;;
       (if associated : bool then ret false
        else lift (includes errorMessage "in use")) ;;
       ret tt) E w
  = (set_trace (trace w ++ [Called (campaignBudgets_remove budget)
                                   (platform E (trace w) (campaignBudgets_remove budget))]) w,
     match platform E (trace w) (campaignBudgets_remove budget) with
     | Resolved _ => Ok tt
     | Rejected reason => budget_handler reason
     end).
Proof.
  intros budget E w. run.
  destruct (platform E (trace w) (campaignBudgets_remove budget)) as [n|v];
    [reflexivity|].
  cbn [as_any]. unfold budget_handler.
  destruct (extractErrorMessage v) as [m|e]; cbn [rbind]; [|reflexivity].
  destruct (includes m "associated with") as [[|]|e]; cbn [rbind]; try reflexivity.
  destruct (includes m "in use") as [a|e]; reflexivity.
Qed.

(** The removal of the campaign, by the answers of the platform. *)
Lemma remove_campaign_run : forall campaign E w,
  let ev1 := Called (campaigns_remove campaign)
                    (platform E (trace w) (campaigns_remove campaign)) in
  let ev2 := Called (campaigns_update campaign CampaignStatus.REMOVED)
                    (platform E (trace w ++ [ev1])
                              (campaigns_update campaign CampaignStatus.REMOVED)) in
  remove_campaign campaign E w =
    match platform E (trace w) (campaigns_remove campaign) with
    | Resolved _ => (set_trace (trace w ++ [ev1]) w, Ok true)
    | Rejected v =>
        match extractErrorMessage v with
        | Throw e => (set_trace (trace w ++ [ev1]) w, Throw e)
        | Ok _ =>
            (set_trace (trace w ++ [ev1; ev2]) w,
             match platform E (trace w ++ [ev1])
                            (campaigns_update campaign CampaignStatus.REMOVED) with
             | Resolved _ => Ok true
             | Rejected v' =>
                 match extractErrorMessage v' with
                 | Throw e => Throw e
                 | Ok _ => Ok false
                 end
             end)
        end
    end.
Proof.
  intros campaign E w ev1 ev2. subst ev1 ev2. unfold remove_campaign. run.
  destruct (platform E (trace w) (campaigns_remove campaign)) as [n|v];
    [reflexivity|].
  cbn [as_any]. destruct (extractErrorMessage v) as [m|e]; [|reflexivity].
  run.
  destruct (platform E (trace w ++ [Called (campaigns_remove campaign) (Rejected v)])
              (campaigns_update campaign CampaignStatus.REMOVED)) as [n|v']; run.
  - rewrite <- app_assoc. reflexivity.
  - cbn [as_any]. rewrite <- app_assoc.
    destruct (extractErrorMessage v') as [m'|e]; reflexivity.
Qed.

(** With worded rejections the removal of the campaign returns, in one of
    three ways. *)
Lemma remove_campaign_cases : forall campaign E w,
  words_cleanup E ->
  (exists n,
      remove_campaign campaign E w =
        (set_trace (trace w ++ [Called (campaigns_remove campaign) (Resolved n)]) w,
         Ok true)) \/
  (exists v n,
      remove_campaign campaign E w =
        (set_trace (trace w ++
                      [Called (campaigns_remove campaign) (Rejected v);
                       Called (campaigns_update campaign CampaignStatus.REMOVED)
                              (Resolved n)]) w,
         Ok true)) \/
  (exists v v',
      remove_campaign campaign E w =
        (set_trace (trace w ++
                      [Called (campaigns_remove campaign) (Rejected v);
                       Called (campaigns_update campaign CampaignStatus.REMOVED)
                              (Rejected v')]) w,
         Ok false)).
Proof.
  intros campaign E w Hw. rewrite remove_campaign_run.
  destruct (platform E (trace w) (campaigns_remove campaign)) as [n|v] eqn:H1.
  - left. exists n. reflexivity.
  - right. destruct (worded_message v (Hw _ (campaigns_remove campaign) _ eq_refl H1)) as [s ->].
    destruct (platform E (trace w ++ [Called (campaigns_remove campaign) (Rejected v)])
                (campaigns_update campaign CampaignStatus.REMOVED)) as [n|v'] eqn:H2.
    + left. exists v, n. reflexivity.
    + right. exists v, v'.
      destruct (worded_message v' (Hw _ (campaigns_update campaign CampaignStatus.REMOVED) _ eq_refl H2)) as [s' ->]. reflexivity.
Qed.

(** Whatever the answers, the removal of the campaign leaves cleanup events
    and throws nothing but a TypeError. *)
Lemma remove_campaign_any : forall campaign E w,
  exists evs out,
    remove_campaign campaign E w = (set_trace (trace w ++ evs) w, out) /\
    forallb is_cleanup evs = true /\
    only_type_errors out.
Proof.
  intros campaign E w. rewrite remove_campaign_run.
  destruct (platform E (trace w) (campaigns_remove campaign)) as [n|v].
  - eexists. eexists. split; [reflexivity|]. split; [reflexivity|apply te_ok].
  - pose proof (te_message v) as Hv.
    destruct (extractErrorMessage v) as [m|e].
    + eexists. eexists. split; [reflexivity|]. split; [reflexivity|].
      destruct (platform E _ (campaigns_update campaign CampaignStatus.REMOVED))
        as [n|v']; [apply te_ok|].
      pose proof (te_message v') as Hv'.
      destruct (extractErrorMessage v'); [apply te_ok|apply (te_retype _ Hv')].
    + eexists. eexists. split; [reflexivity|]. split; [reflexivity|].
      apply (te_retype _ Hv).
Qed.

Lemma set_trace_twice : forall t1 t2 w, set_trace t2 (set_trace t1 w) = set_trace t2 w.
Proof. reflexivity. Qed.



(** Whatever handles it is given and whatever the platform answers, the
    rollback leaves cleanup events only and throws nothing but a
    TypeError; with worded rejections it returns. *)
Lemma rollback_run : forall c b E w,
  exists evs out,
    rollbackCampaignCreation c b E w = (set_trace (trace w ++ evs) w, out) /\
    forallb is_cleanup evs = true /\
    only_type_errors out /\
    (words_cleanup E -> out = Ok tt).
Proof.
  intros c b E w. unfold rollbackCampaignCreation.
  assert (Hc : exists evs out,
             (match c with
              | Some campaign =>
                  if JS.truthy (JStr campaign) then remove_campaign campaign
                  else ret false
              | None => ret false
              end) E w = (set_trace (trace w ++ evs) w, out) /\
             forallb is_cleanup evs = true /\
             only_type_errors out /\
             (words_cleanup E -> exists removed, out = Ok removed)).
  { assert (Hnone : exists evs out,
               @ret bool false E w = (set_trace (trace w ++ evs) w, out) /\
               forallb is_cleanup evs = true /\
               only_type_errors out /\
               (words_cleanup E -> exists removed, out = Ok removed)).
    { exists [], (Ok false). destruct w. unfold ret, set_trace. cbn.
      rewrite app_nil_r. split; [reflexivity|]. split; [reflexivity|].
      split; [apply te_ok|eauto]. }
    destruct c as [campaign|]; [|exact Hnone].
    destruct (JS.truthy (JStr campaign)); [|exact Hnone].
    destruct (remove_campaign_any campaign E w) as [evs [out [Hrun [Hcl Hte]]]].
    exists evs, out. split; [exact Hrun|]. split; [exact Hcl|]. split; [exact Hte|].
    intros Hw.
    destruct (remove_campaign_cases campaign E w Hw)
      as [[n H] | [[v [n H]] | [v [v' H]]]];
      rewrite Hrun in H; injection H as _ ->; eauto. }
  destruct Hc as [evs [out [Hrun [Hevs [Hte Hok]]]]].
  unfold remove_campaign in Hrun. unfold bind at 1. rewrite Hrun.
  destruct out as [removed|e].
  - assert (Hb : exists evs' out',
               (match b with
                | Some budget =>
                    if JS.truthy (JStr budget) then
                      (if removed : bool then sleep 2000 else ret tt) ;;
                      try_catch
                        (await (campaignBudgets_remove budget) ;; ret tt)
                        (fun rollbackError =>
                           errorMessage <- lift (extractErrorMessage (as_any rollbackError)) ;;
                           associated <- lift (includes errorMessage "associated with") ;;
                           (if associated : bool then ret false
                            else lift (includes errorMessage "in use")) ;;
                           ret tt)
                    else ret tt
                | None => ret tt
                end) E (set_trace (trace w ++ evs) w)
               = (set_trace (trace w ++ evs ++ evs') w, out') /\
               forallb is_cleanup evs' = true /\
               only_type_errors out' /\
               (words_cleanup E -> out' = Ok tt)).
    { assert (Hnone : exists evs' out',
                 @ret unit tt E (set_trace (trace w ++ evs) w)
                 = (set_trace (trace w ++ evs ++ evs') w, out') /\
                 forallb is_cleanup evs' = true /\
                 only_type_errors out' /\
                 (words_cleanup E -> out' = Ok tt)).
      { exists [], (Ok tt). rewrite app_nil_r. split; [reflexivity|].
        split; [reflexivity|]. split; [apply te_ok|reflexivity]. }
      destruct b as [budget|]; [|exact Hnone].
      destruct (JS.truthy (JStr budget)); [|exact Hnone].
      unfold bind at 1.
      destruct removed; [unfold sleep, modify | unfold ret at 1];
        rewrite remove_budget_run;
        cbn [set_trace trace ticks campaigns articles
               budgetResourceName campaignResourceName];
        rewrite <- !app_assoc;
        eexists; eexists; (split; [reflexivity|]);
        (split; [reflexivity|]);
        match goal with
        | |- context [platform E ?h ?c] =>
            destruct (platform E h c) as [n|v] eqn:Hp
        end;
        try (split; [apply te_ok|reflexivity]);
        (split; [apply te_budget_handler|]);
        intros Hw; apply worded_budget_handler, (Hw _ (campaignBudgets_remove budget) _ eq_refl Hp). }
    destruct Hb as [evs' [out' [Hrb [Hcl' [Hte' Hok']]]]].
    rewrite Hrb. exists (evs ++ evs')%list, out'.
    split; [reflexivity|]. split; [rewrite forallb_app, Hevs, Hcl'; reflexivity|].
    split; [exact Hte'|exact Hok'].
  - exists evs, (Throw e). split; [reflexivity|]. split; [exact Hevs|].
    split; [apply (te_retype _ Hte)|].
    intros Hw. destruct (Hok Hw) as [removed H]. discriminate.
Qed.

Ltac next_call :=
  match goal with
  | |- context [platform ?E ?tr ?c] => destruct (platform E tr c) eqn:?; run
  end.

Ltac next_date :=
  match goal with
  | |- context [formatDate ?d] => destruct (formatDate d) eqn:?; run
  end.

Ltac conclude :=
  do 3 eexists; split; [reflexivity|];
  split;
  [ unfold advanced;
    cbn [trace ticks campaigns articles budgetResourceName campaignResourceName];
    rewrite <- ?app_assoc; rewrite ?Nat.add_1_r; repeat split; reflexivity
  | cbn [trace ticks campaigns articles budgetResourceName campaignResourceName] ].

(** Every attempt follows the state machine. *)
Lemma provision_run : forall config E w,
  exists evs w1 r,
    provision config E w = (w1, r) /\
    advanced w w1 evs 1 /\
    saga_outcome (budgetData E w config) config
      (budgetResourceName w) (campaignResourceName w)
      evs (budgetResourceName w1) (campaignResourceName w1) r.
Proof.
  intros config E w.
  unfold provision, createCampaignBudget, createAdGroup, addKeywords,
    createResponsiveSearchAd.
  run. fold (budgetData E w config).
  next_call; [|conclude; apply FAILED_at_budget].
  next_date; [|conclude; apply FAILED_at_dates; left; assumption].
  next_date; [|conclude; apply FAILED_at_dates; right; eexists; split; eassumption].
  next_call; [|conclude; apply FAILED_at_campaign; assumption].
  next_call; [|conclude; apply FAILED_at_ad_group; assumption].
  next_call; [|conclude; apply FAILED_at_keywords; assumption].
  next_call; [|conclude; apply FAILED_at_ad; assumption].
  conclude; apply AD_CREATED; assumption.
Qed.

Lemma formatDate_throws : forall d e,
  formatDate d = Throw e -> e = RangeError "Invalid time value".
Proof.
  intros [t|] e H; unfold formatDate, JSDate.toISOString in H; cbn [rbind] in H;
    [discriminate|].
  injection H as <-. reflexivity.
Qed.

(** The reason that an attempt throws is the reason of a rejection. *)
Lemma provision_rejection : forall config E w w1 reason,
  provision config E w = (w1, Throw (Thrown reason)) ->
  exists history c, platform E history c = Rejected reason.
Proof.
  intros config E w w1 reason.
  unfold provision, createCampaignBudget, createAdGroup, addKeywords,
    createResponsiveSearchAd.
  run.
  assert (Hdate : forall d, formatDate d <> Throw (Thrown reason)).
  { intros d Hd. apply formatDate_throws in Hd. discriminate. }
  next_call; [|intros H; injection H as _ <-; do 2 eexists; eassumption].
  next_date; [|intros H; injection H as _ ->; exfalso; eapply Hdate; eassumption].
  next_date; [|intros H; injection H as _ ->; exfalso; eapply Hdate; eassumption].
  next_call; [|intros H; injection H as _ <-; do 2 eexists; eassumption].
  next_call; [|intros H; injection H as _ <-; do 2 eexists; eassumption].
  next_call; [|intros H; injection H as _ <-; do 2 eexists; eassumption].
  next_call; [|intros H; injection H as _ <-; do 2 eexists; eassumption].
  intros H. discriminate.
Qed.

(** [createHttpException] on what a [try] block throws: the classification
    stamped with the reading of the clock, or what the classifier throws. *)
Lemma createHttpException_run : forall error E w,
  plain error = true ->
  createHttpException error E w =
    match extractGoogleAdsErrorDetails (as_any error) with
    | Ok d => (set_ticks (S (ticks w)) w, Ok (classified d (timestamp_at E (ticks w))))
    | Throw e => (w, Throw e)
    end.
Proof.
  intros error E w Hp. unfold createHttpException.
  destruct error; try discriminate; run;
    destruct (extractGoogleAdsErrorDetails _); reflexivity.
Qed.


(** What a provisioning attempt throws is classified, not passed on. *)
Lemma saga_error_plain : forall bd config b0 c0 evs b c error,
  saga_outcome bd config b0 c0 evs b c (Throw error) -> plain error = true.
Proof.
  intros bd config b0 c0 evs b c error H. inversion H; subst; try reflexivity.
  match goal with
  | Hd : _ \/ _ |- _ =>
      destruct Hd as [Hd | [sd [_ Hd]]];
      apply formatDate_throws in Hd; subst; reflexivity
  end.
Qed.

(** With the failures of the SDK, it is well shaped. *)
Lemma provision_error_shape : forall config E w w1 error,
  sdk E ->
  provision config E w = (w1, Throw error) ->
  well_shaped (as_any error) = true.
Proof.
  intros config E w w1 error Hsdk Hp.
  destruct (provision_run config E w) as [evs [w1' [r [Hp' [_ Hout]]]]].
  rewrite Hp in Hp'. injection Hp' as <- <-.
  assert (Hcases : error = RangeError "Invalid time value" \/
                   exists reason, error = Thrown reason).
  { inversion Hout; subst; eauto.
    match goal with
    | Hd : _ \/ _ |- _ =>
        destruct Hd as [Hd | [sd [_ Hd]]];
        apply formatDate_throws in Hd; subst; left; reflexivity
    end. }
  destruct Hcases as [->|[reason ->]]; [reflexivity|].
  destruct (provision_rejection config E w w1 reason Hp) as [history [c Hr]].
  destruct (Hsdk history c reason Hr) as [f ->].
  apply failure_well_shaped.
Qed.

Lemma advanced_reset : forall w w1 evs n,
  advanced (reset w) w1 evs n -> advanced w w1 evs n.
Proof. intros w w1 evs n H. exact H. Qed.

Lemma createCampaign_unfold : forall config E w,
  createCampaign config E w =
    match provision config E (reset w) with
    | (w1, Ok res) => (w1, Ok res)
    | (w1, Throw error) =>
        (rollbackCampaignCreation (campaignResourceName w1) (budgetResourceName w1) ;;
         e <- createHttpException error ;; throw e) E w1
    end.
Proof.
  intros config E w. unfold createCampaign, reset.
  unfold bind at 1. unfold modify at 1. unfold bind at 1. unfold modify at 1.
  unfold try_catch.
  destruct (provision config E
              (set_campaignResourceName None (set_budgetResourceName None w)))
    as [w1 [res|error]]; reflexivity.
Qed.


(** A run of [createCampaign]: the attempt; then, on a failure, the
    rollback, and if the rollback returns the classification of the
    error. *)
Lemma createCampaign_run : forall config E w,
  exists evs w1 r,
    provision config E (reset w) = (w1, r) /\
    advanced w w1 evs 1 /\
    saga_outcome (budgetData E w config) config None None
      evs (budgetResourceName w1) (campaignResourceName w1) r /\
    match r with
    | Ok res => createCampaign config E w = (w1, Ok res)
    | Throw error =>
        exists cleanup out,
          rollbackCampaignCreation (campaignResourceName w1) (budgetResourceName w1) E w1
            = (set_trace (trace w1 ++ cleanup) w1, out) /\
          forallb is_cleanup cleanup = true /\
          only_type_errors out /\
          (words_cleanup E -> out = Ok tt) /\
          createCampaign config E w =
            match out with
            | Throw e => (set_trace (trace w1 ++ cleanup) w1, Throw e)
            | Ok _ =>
                match extractGoogleAdsErrorDetails (as_any error) with
                | Ok d =>
                    (set_ticks (S (ticks w1)) (set_trace (trace w1 ++ cleanup) w1),
                     Throw (classified d (timestamp_at E (ticks w1))))
                | Throw e => (set_trace (trace w1 ++ cleanup) w1, Throw e)
                end
            end
    end.
Proof.
  intros config E w.
  destruct (provision_run config E (reset w)) as [evs [w1 [r [Hp [Hadv Hout]]]]].
  exists evs, w1, r. split; [exact Hp|]. split; [exact Hadv|].
  split; [exact Hout|].
  rewrite createCampaign_unfold, Hp.
  destruct r as [res|error]; [reflexivity|].
  destruct (rollback_run (campaignResourceName w1) (budgetResourceName w1) E w1)
    as [cleanup [out [Hrb [Hcl [Hte Hok]]]]].
  exists cleanup, out. split; [exact Hrb|]. split; [exact Hcl|].
  split; [exact Hte|]. split; [exact Hok|].
  unfold bind at 1. rewrite Hrb.
  destruct out as [[]|e]; [|reflexivity].
  unfold bind at 1.
  rewrite (createHttpException_run error E _ (saga_error_plain _ _ _ _ _ _ _ _ Hout)).
  destruct (extractGoogleAdsErrorDetails (as_any error)); reflexivity.
Qed.

(** With the failures of the SDK the rollback returns and the caller gets
    the classification. *)
Lemma createCampaign_run_sdk : forall config E w,
  sdk E ->
  exists evs w1 r,
    provision config E (reset w) = (w1, r) /\
    advanced w w1 evs 1 /\
    saga_outcome (budgetData E w config) config None None
      evs (budgetResourceName w1) (campaignResourceName w1) r /\
    match r with
    | Ok res => createCampaign config E w = (w1, Ok res)
    | Throw error =>
        exists cleanup d,
          rollbackCampaignCreation (campaignResourceName w1) (budgetResourceName w1) E w1
            = (set_trace (trace w1 ++ cleanup) w1, Ok tt) /\
          forallb is_cleanup cleanup = true /\
          extractGoogleAdsErrorDetails (as_any error) = Ok d /\
          createCampaign config E w =
            (set_ticks (S (ticks w1)) (set_trace (trace w1 ++ cleanup) w1),
             Throw (classified d (timestamp_at E (ticks w1))))
    end.
Proof.
  intros config E w Hsdk.
  destruct (createCampaign_run config E w) as [evs [w1 [r [Hp [Hadv [Hout Hrun]]]]]].
  exists evs, w1, r. split; [exact Hp|]. split; [exact Hadv|]. split; [exact Hout|].
  destruct r as [res|error]; [exact Hrun|].
  destruct Hrun as [cleanup [out [Hrb [Hcl [_ [Hok Hcc]]]]]].
  rewrite (Hok (sdk_words_cleanup E Hsdk)) in Hrb, Hcc.
  destruct (extractGoogleAdsErrorDetails_total _
              (provision_error_shape config E (reset w) w1 error Hsdk Hp))
    as [d [Hd _]].
  rewrite Hd in Hcc. exists cleanup, d. auto.
Qed.

(** What [createCampaign] throws, whatever the platform answers: the
    classification of the error of the attempt, or a TypeError; the
    registry and the catalogue are as they were. *)
Lemma createCampaign_throws : forall config E w w' e,
  createCampaign config E w = (w', Throw e) ->
  campaigns w' = campaigns w /\ articles w' = articles w /\
  ((exists m, e = TypeError m) \/
   (exists d ts, e = classified d ts)).
Proof.
  intros config E w w' e H.
  destruct (createCampaign_run config E w)
    as [evs [w1 [r [_ [[_ [_ [Hc Ha]]] [_ Hrun]]]]]].
  destruct r as [res|error]; [rewrite Hrun in H; discriminate|].
  destruct Hrun as [cleanup [out [_ [_ [Hte [_ Hcc]]]]]].
  rewrite Hcc in H. destruct out as [[]|e0].
  - pose proof (te_details (as_any error)) as Hd.
    destruct (extractGoogleAdsErrorDetails (as_any error)) as [d|e1];
      injection H as <- <-; (split; [exact Hc|]); (split; [exact Ha|]).
    + right. eauto.
    + left. apply (Hd e1 eq_refl).
  - injection H as <- <-. split; [exact Hc|]. split; [exact Ha|].
    left. apply (Hte e0 eq_refl).
Qed.

(** The one request that creates a campaign. *)
Lemma saga_campaign_request : forall bd config b0 c0 evs b c r data resp,
  saga_outcome bd config b0 c0 evs b c r ->
  In (Called (campaigns_create data) resp) evs ->
  exists budget sd ed,
    data = campaignData config budget sd ed /\
    formatDate (cfg_startDate config) = Ok sd /\
    formatDate (cfg_endDate config) = Ok ed.
Proof.
  intros bd config b0 c0 evs b c r data resp Hout Hin.
  inversion Hout; subst; cbn [In] in Hin;
    repeat match goal with
           | H : _ \/ _ |- _ => destruct H as [H|H]
           | H : False |- _ => destruct H
           | H : Called _ _ = Called (campaigns_create _) _ |- _ =>
               first [ discriminate H
                     | injection H as <- _; do 3 eexists;
                       (split; [reflexivity|split; eassumption]) ]
           end.
Qed.

Lemma saga_result_paused : forall bd config b0 c0 evs b c res,
  saga_outcome bd config b0 c0 evs b c (Ok res) ->
  res_status res = CampaignStatus.PAUSED.
Proof. intros. inversion H; subst. reflexivity. Qed.

Lemma cleanup_creates_nothing : forall cleanup data resp,
  forallb is_cleanup cleanup = true ->
  ~ In (Called (campaigns_create data) resp) cleanup.
Proof.
  intros cleanup data resp H Hin. rewrite forallb_forall in H.
  specialize (H _ Hin). discriminate.
Qed.

(** Every event of a run of [createCampaign] after the attempt is a cleanup
    event. *)
Lemma createCampaign_trace : forall config E w,
  exists evs w1 r cleanup w' r',
    provision config E (reset w) = (w1, r) /\
    advanced w w1 evs 1 /\
    saga_outcome (budgetData E w config) config None None
      evs (budgetResourceName w1) (campaignResourceName w1) r /\
    createCampaign config E w = (w', r') /\
    trace w' = (trace w ++ evs ++ cleanup)%list /\
    campaigns w' = campaigns w /\ articles w' = articles w /\
    forallb is_cleanup cleanup = true /\
    (forall res, r' = Ok res -> r = Ok res).
Proof.
  intros config E w.
  destruct (createCampaign_run config E w)
    as [evs [w1 [r [Hp [Hadv [Hout Hrun]]]]]].
  pose proof Hadv as [Htr [_ [Hc Ha]]].
  exists evs, w1, r.
  destruct r as [res|error].
  - exists [], w1, (Ok res). rewrite app_nil_r.
    split; [exact Hp|]. split; [exact Hadv|]. repeat split; auto.
  - destruct Hrun as [cleanup [out [_ [Hcl [_ [_ Hcc]]]]]].
    exists cleanup.
    destruct out as [[]|e0];
      [destruct (extractGoogleAdsErrorDetails (as_any error))|];
      eexists; eexists; (split; [exact Hp|]); (split; [exact Hadv|]);
      (split; [exact Hout|]); (split; [exact Hcc|]);
      cbn [trace campaigns articles set_ticks set_trace];
      rewrite Htr, <- app_assoc; repeat split; try assumption; discriminate.
Qed.

End SagaFacts.

(** ** The platforms of the examples *)

Module ScenarioFacts.
Import Platform SagaSpec SagaFacts.

Ltac by_call :=
  intros history c reason H; destruct c;
  cbv beta iota delta
      [platform Scenario.failing Scenario.working Scenario.down Cases.crowded
       Cases.still Scenario.answers Scenario.accepts Scenario.refuses
       Cases.no_campaigns fails] in H;
  repeat match type of H with
         | (if ?b then _ else _) = _ => destruct b
         end;
  try discriminate;
  match type of H with
  | Rejected (failure_value ?f) = _ =>
      exists f; injection H as H; symmetry; exact H
  end.

Lemma failing_sdk : sdk Scenario.failing.
Proof. by_call. Qed.

Lemma working_sdk : sdk Scenario.working.
Proof. by_call. Qed.

Lemma down_sdk : sdk Scenario.down.
Proof. by_call. Qed.

Lemma crowded_sdk : sdk Cases.crowded.
Proof. by_call. Qed.

Lemma still_sdk : sdk Cases.still.
Proof. by_call. Qed.

End ScenarioFacts.

(** ** Dates are written as eight digits *)

Module DateFacts.
Import JSDate DateSpec.

Lemma year_bounds : forall days, -719528 <= days <= 2932896 ->
  0 <= fst (fst (civil days)) <= 9999.
Proof.
  intros days H. unfold civil. cbv zeta.
  set (z := days + 719468).
  set (era := z / 146097).
  set (doe := z - era * 146097).
  set (yoe := (doe - doe / 1460 + doe / 36524 - doe / 146096) / 365).
  set (doy := doe - (365 * yoe + yoe / 4 - yoe / 100)).
  set (mp := (5 * doy + 2) / 153).
  cbn [fst].
  assert (Hera : -1 <= era <= 24)
    by (subst era z; Z.to_euclidean_division_equations; lia).
  assert (Hdoe : 0 <= doe <= 146096)
    by (subst doe era; Z.to_euclidean_division_equations; lia).
  assert (Hyoe : 0 <= yoe <= 399)
    by (subst yoe; Z.to_euclidean_division_equations; lia).
  assert (Hlo : era = -1 -> 146037 <= doe)
    by (subst doe era z; Z.to_euclidean_division_equations; lia).
  assert (Hhi : era = 24 -> doe <= 146036)
    by (subst doe era z; Z.to_euclidean_division_equations; lia).
  assert (Hy1 : 146037 <= doe -> yoe = 399 /\ 306 <= doy)
    by (subst doy yoe; Z.to_euclidean_division_equations; lia).
  assert (Hy2 : doe <= 146036 -> yoe = 399 -> doy <= 305)
    by (subst doy yoe; Z.to_euclidean_division_equations; lia).
  assert (Hm1 : 306 <= doy -> 10 <= mp)
    by (subst mp; Z.to_euclidean_division_equations; lia).
  assert (Hm2 : doy <= 305 -> mp < 10)
    by (subst mp; Z.to_euclidean_division_equations; lia).
  assert (Hdoy : 0 <= doy <= 365)
    by (subst doy yoe; Z.to_euclidean_division_equations; lia).
  assert (Hmp : 0 <= mp <= 11)
    by (subst mp; Z.to_euclidean_division_equations; lia).
  clearbody mp doy yoe doe era z.
  destruct (Z.ltb_spec mp 10);
    match goal with |- context [?a <=? 2] => destruct (Z.leb_spec a 2) end; lia.
Qed.

Lemma days_in_range : forall t, four_digit_year t ->
  -719528 <= t / msPerDay <= 2932896.
Proof.
  unfold four_digit_year, msPerDay. intros t H.
  Z.to_euclidean_division_equations; lia.
Qed.

Lemma digit_code : forall k, exists n, (n < 10)%nat /\ digit k = ascii_of_nat (48 + n).
Proof.
  intros k. exists (Z.to_nat (k mod 10)). split; [|reflexivity].
  pose proof (Z.mod_pos_bound k 10 ltac:(lia)). lia.
Qed.

Lemma digit_cases : forall (P : ascii -> Prop),
  (forall n, (n < 10)%nat -> P (ascii_of_nat (48 + n))) -> forall k, P (digit k).
Proof. intros P H k. destruct (digit_code k) as [n [Hn ->]]. apply H, Hn. Qed.

Ltac by_digit :=
  intros; match goal with
          | |- context [digit ?k] => pattern (digit k); apply digit_cases
          end;
  intros n Hn; do 10 (destruct n as [|n]; [reflexivity|]); lia.

Lemma digit_is_digit : forall k, is_digit (digit k) = true.
Proof. by_digit. Qed.

Lemma digit_not_dash : forall k, Ascii.eqb (digit k) "-" = false.
Proof. by_digit. Qed.

Lemma digit_not_T : forall k, Ascii.eqb (digit k) "T" = false.
Proof. by_digit. Qed.

Lemma all_app : forall p s1 s2, all p (s1 ++ s2) = all p s1 && all p s2.
Proof.
  intros p s1 s2. induction s1 as [|c s1 IH]; [reflexivity|].
  cbn. rewrite IH, andb_assoc. reflexivity.
Qed.

Lemma length_app : forall s1 s2,
  String.length (s1 ++ s2) = (String.length s1 + String.length s2)%nat.
Proof. induction s1 as [|c s1 IH]; intros s2; cbn; [|rewrite IH]; reflexivity. Qed.

Lemma pad_digits : forall w n,
  all is_digit (pad w n) = true /\ String.length (pad w n) = w.
Proof.
  induction w as [|w IH]; intros n; [split; reflexivity|].
  cbn [pad]. unfold Str.snoc. destruct (IH (n / 10)) as [Ha Hl].
  rewrite all_app, length_app, Ha, Hl. cbn [all String.length andb].
  rewrite digit_is_digit. split; [reflexivity|lia].
Qed.

Lemma digits_have_no (x : ascii) : is_digit x = false -> forall s,
  all is_digit s = true -> all (fun c => negb (Ascii.eqb c x)) s = true.
Proof.
  intros Hx. induction s as [|c s IH]; [reflexivity|].
  cbn. intros H. apply andb_prop in H as [Hc Hs]. rewrite (IH Hs), andb_true_r.
  destruct (Ascii.eqb_spec c x) as [->|]; [congruence|reflexivity].
Qed.

Lemma remove_char_app : forall x s1 s2,
  Str.remove_char x (s1 ++ s2) = Str.remove_char x s1 ++ Str.remove_char x s2.
Proof.
  intros x s1 s2. induction s1 as [|c s1 IH]; [reflexivity|].
  cbn. destruct (Ascii.eqb c x); cbn; rewrite IH; reflexivity.
Qed.

Lemma remove_char_absent : forall x s,
  all (fun c => negb (Ascii.eqb c x)) s = true -> Str.remove_char x s = s.
Proof.
  intros x. induction s as [|c s IH]; [reflexivity|].
  cbn. intros H. apply andb_prop in H as [Hc Hs].
  apply negb_true_iff in Hc. rewrite Hc, (IH Hs). reflexivity.
Qed.

Lemma remove_char_removes : forall x s,
  all (fun c => negb (Ascii.eqb c x)) (Str.remove_char x s) = true.
Proof.
  intros x. induction s as [|c s IH]; [reflexivity|].
  cbn. destruct (Ascii.eqb c x) eqn:Hc; [exact IH|].
  cbn. rewrite Hc, IH. reflexivity.
Qed.

Lemma append_assoc : forall s1 s2 s3 : string, (s1 ++ s2) ++ s3 = s1 ++ (s2 ++ s3).
Proof. induction s1 as [|c s1 IH]; intros; cbn; [|rewrite IH]; reflexivity. Qed.

Lemma append_nil_r : forall s : string, s ++ "" = s.
Proof. induction s as [|c s IH]; cbn; [|rewrite IH]; reflexivity. Qed.

(** The first piece of a split is what stands before the separator. *)
Lemma split_from_first : forall sep s rest cur,
  all (fun c => negb (Ascii.eqb c sep)) s = true ->
  hd EmptyString (Str.split_from sep (s ++ String sep rest) cur) = cur ++ s.
Proof.
  intros sep. induction s as [|c s IH]; intros rest cur H.
  - cbn. rewrite Ascii.eqb_refl. cbn. rewrite append_nil_r. reflexivity.
  - cbn in H |- *. apply andb_prop in H as [Hc Hs].
    apply negb_true_iff in Hc. rewrite Hc, (IH rest _ Hs).
    unfold Str.snoc. rewrite append_assoc. reflexivity.
Qed.

Lemma formatDate_removes_dashes : forall d s,
  GoogleAdsService.formatDate d = Ok s -> all not_dash s = true.
Proof.
  intros d s H. unfold GoogleAdsService.formatDate in H.
  destruct (toISOString d); cbn [rbind] in H; [|discriminate].
  injection H as <-. apply (remove_char_removes "-").
Qed.

(** A date of a four-digit year is written [YYYYMMDD]. *)
Lemma formatDate_YYYYMMDD : forall t, four_digit_year t ->
  GoogleAdsService.formatDate (Some t) = Ok (YYYYMMDD t) /\
  String.length (YYYYMMDD t) = 8%nat /\
  all is_digit (YYYYMMDD t) = true.
Proof.
  intros t Ht.
  pose proof (year_bounds _ (days_in_range t Ht)) as Hy.
  unfold GoogleAdsService.formatDate, toISOString, iso_date, YYYYMMDD, year_text.
  destruct (civil (t / msPerDay)) as [[y m] d]. cbn [fst] in Hy. cbn [rbind].
  replace ((0 <=? y) && (y <=? 9999)) with true
    by (symmetry; apply andb_true_intro; split; apply Z.leb_le; lia).
  destruct (pad_digits 4 y) as [Hya Hyl].
  destruct (pad_digits 2 m) as [Hma Hml].
  destruct (pad_digits 2 d) as [Hda Hdl].
  assert (HnoT : forall s, all is_digit s = true ->
                           all (fun c => negb (Ascii.eqb c "T")) s = true)
    by (apply digits_have_no; reflexivity).
  assert (HnoD : forall s, all is_digit s = true ->
                           all (fun c => negb (Ascii.eqb c "-")) s = true)
    by (apply digits_have_no; reflexivity).
  split; [|split].
  - f_equal. unfold Str.split.
    change ("T" ++ iso_time t) with (String "T" (iso_time t)).
    rewrite split_from_first.
    + cbn [append]. rewrite !remove_char_app. cbn [Str.remove_char Ascii.eqb].
      change (Ascii.eqb "-" "-") with true. cbn iota.
      rewrite !remove_char_app. cbn [Str.remove_char].
      change (Ascii.eqb "-" "-") with true. cbn iota. cbn [append].
      rewrite !remove_char_absent by auto. reflexivity.
    + rewrite !all_app. cbn [all].
      rewrite !HnoT by assumption. reflexivity.
  - rewrite !length_app. lia.
  - rewrite !all_app, Hya, Hma, Hda. reflexivity.
Qed.

End DateFacts.

(** ** The saga: rollback, first-step failure, the campaign request *)

Module SagaClaims.
Import Platform Classifier ClassifierSpec ClassifierFacts FailureFacts SagaSpec.
Import GoogleAdsService SagaFacts DateSpec DateFacts.

Lemma set_trace_inj : forall t1 t2 w, set_trace t1 w = set_trace t2 w -> t1 = t2.
Proof. intros t1 t2 w H. injection H as H. exact H. Qed.




(** The same with the removal of the budget rejected with the message 5:
    the rollback throws when it looks for a phrase in the message. *)
Example numeric_message_stops_the_rollback :
  rollbackCampaignCreation None (Some "customers/123/campaignBudgets/7")
    (mkEnv (fun _ _ => Rejected (JObj [("message", JNum 5)]))
           (fun n => Scenario.noon + Z.of_nat n) Scenario.settings)
    Scenario.empty_world
  = (set_trace [Called (campaignBudgets_remove "customers/123/campaignBudgets/7")
                       (Rejected (JObj [("message", JNum 5)]))]
               Scenario.empty_world,
     Throw (TypeError "errorMessage.includes is not a function")).
Proof. reflexivity. Qed.




(** C6. Every request by which [createCampaign] creates a campaign has
    the status PAUSED, the channel SEARCH, search-only targeting (Google
    search is targeted, [target_google_search]; the content network is
    not, nor are the search partners, [target_search_network]), manual CPC
    without enhanced CPC, the disclosure
    DOES_NOT_CONTAIN_EU_POLITICAL_ADVERTISING, and as start and end dates
    the configured dates as [formatDate] writes them: without any dash, and
    for a date of a four-digit year as the eight digits YYYYMMDD.  A
    successful attempt returns a result whose status is PAUSED. *)
Theorem campaign_request_fields :
  forall config E w w' r evs data resp,
    createCampaign config E w = (w', r) ->
    trace w' = (trace w ++ evs)%list ->
    In (Called (campaigns_create data) resp) evs ->
    status data = CampaignStatus.PAUSED /\
    advertising_channel_type data = SEARCH /\
    network_settings data = mkNetworkSettings true false false /\
    manual_cpc data = mkManualCpc false /\
    contains_eu_political_advertising data
      = "DOES_NOT_CONTAIN_EU_POLITICAL_ADVERTISING" /\
    formatDate (cfg_startDate config) = Ok (start_date data) /\
    formatDate (cfg_endDate config) = Ok (end_date data) /\
    all not_dash (start_date data) = true /\
    all not_dash (end_date data) = true /\
    (forall t, cfg_startDate config = Some t -> four_digit_year t ->
               start_date data = YYYYMMDD t /\
               String.length (start_date data) = 8%nat /\
               all is_digit (start_date data) = true) /\
    (forall t, cfg_endDate config = Some t -> four_digit_year t ->
               end_date data = YYYYMMDD t /\
               String.length (end_date data) = 8%nat /\
               all is_digit (end_date data) = true) /\
    (forall res, r = Ok res -> res_status res = CampaignStatus.PAUSED).
Proof.
  intros config E w w' r evs data resp Hrun Htr Hin.
  destruct (createCampaign_trace config E w)
    as [evs0 [w1 [r0 [cleanup [w2 [r2 [_ [_ [Hout [Hcc [Htr2 [_ [_ [Hcl Hres2]]]]]]]]]]]]]].
  assert (Hreq : In (Called (campaigns_create data) resp) evs0 /\
                 (forall res, r = Ok res -> r0 = Ok res)).
  { rewrite Hrun in Hcc. injection Hcc as <- <-.
    rewrite Htr2 in Htr. apply app_inv_head in Htr. subst evs.
    split; [|exact Hres2].
    apply in_app_or in Hin as [Hin|Hin]; [exact Hin|].
    exfalso. apply (cleanup_creates_nothing _ _ _ Hcl Hin). }
  destruct Hreq as [Hin0 Hres].
  destruct (saga_campaign_request _ _ _ _ _ _ _ _ _ _ Hout Hin0)
    as [budget [sd [ed [-> [Hsd Hed]]]]].
  cbn [status advertising_channel_type network_settings manual_cpc
         contains_eu_political_advertising start_date end_date campaignData].
  repeat split; try assumption.
  - apply (formatDate_removes_dashes _ _ Hsd).
  - apply (formatDate_removes_dashes _ _ Hed).
  - destruct (formatDate_YYYYMMDD t H0) as [Hf _].
    rewrite H in Hsd. congruence.
  - destruct (formatDate_YYYYMMDD t H0) as [Hf [Hl _]].
    rewrite H in Hsd. replace sd with (YYYYMMDD t) by congruence. exact Hl.
  - destruct (formatDate_YYYYMMDD t H0) as [Hf [_ Ha]].
    rewrite H in Hsd. replace sd with (YYYYMMDD t) by congruence. exact Ha.
  - destruct (formatDate_YYYYMMDD t H0) as [Hf _].
    rewrite H in Hed. congruence.
  - destruct (formatDate_YYYYMMDD t H0) as [Hf [Hl _]].
    rewrite H in Hed. replace ed with (YYYYMMDD t) by congruence. exact Hl.
  - destruct (formatDate_YYYYMMDD t H0) as [Hf [_ Ha]].
    rewrite H in Hed. replace ed with (YYYYMMDD t) by congruence. exact Ha.
  - intros res Hr. apply Hres in Hr. subst r0.
    apply (saga_result_paused _ _ _ _ _ _ _ _ Hout).
Qed.

Lemma campaign_request_fields_witness :
  let run := createCampaign Scenario.config Scenario.working Scenario.empty_world in
  let data := campaignData Scenario.config "customers/123/campaignBudgets/7"
                           "20250115" "20250116" in
  let resp := Resolved (Scenario.rn "campaigns" "42") in
  In (Called (campaigns_create data) resp) (trace (fst run)) /\
  status data = CampaignStatus.PAUSED /\
  advertising_channel_type data = SEARCH /\
  network_settings data = mkNetworkSettings true false false /\
  manual_cpc data = mkManualCpc false /\
  contains_eu_political_advertising data
    = "DOES_NOT_CONTAIN_EU_POLITICAL_ADVERTISING" /\
  formatDate (cfg_startDate Scenario.config) = Ok (start_date data) /\
  formatDate (cfg_endDate Scenario.config) = Ok (end_date data) /\
  all not_dash (start_date data) = true /\
  all not_dash (end_date data) = true /\
  (forall t, cfg_startDate Scenario.config = Some t -> four_digit_year t ->
             start_date data = YYYYMMDD t /\
             String.length (start_date data) = 8%nat /\
             all is_digit (start_date data) = true) /\
  (forall t, cfg_endDate Scenario.config = Some t -> four_digit_year t ->
             end_date data = YYYYMMDD t /\
             String.length (end_date data) = 8%nat /\
             all is_digit (end_date data) = true) /\
  (forall res, snd run = Ok res -> res_status res = CampaignStatus.PAUSED).
Proof.
  intros run data resp.
  assert (Hin : In (Called (campaigns_create data) resp) (trace (fst run)))
    by (right; left; reflexivity).
  split; [exact Hin|].
  apply (campaign_request_fields Scenario.config Scenario.working Scenario.empty_world
           (fst run) (snd run) (trace (fst run)) data resp);
    [reflexivity | reflexivity | exact Hin].
Defined.

(** The request of a run, for the record. *)
Example request_of_a_run :
  let run := createCampaign Scenario.config Scenario.working Scenario.empty_world in
  In (Called
        (campaigns_create
           (mkCampaignData "Express: elecciones" SEARCH CampaignStatus.PAUSED
              (Some "customers/123/campaignBudgets/7")
              (mkManualCpc false) (mkNetworkSettings true false false)
              "20250115" "20250116" "DOES_NOT_CONTAIN_EU_POLITICAL_ADVERTISING"))
        (Resolved (Scenario.rn "campaigns" "42")))
     (trace (fst run)) /\
  snd run = Ok (mkCampaignResult "42" "5" CampaignStatus.PAUSED
                                 "customers/123/campaigns/42").
Proof. split; [right; left; reflexivity|reflexivity]. Qed.

End SagaClaims.

(** ** The classifier: order of the sub-errors, totality *)

Module ClassifierClaims.
Import HttpStatus Classifier ClassifierSpec ClassifierFacts SagaSpec SagaFacts.
Import GoogleAdsService.







(** The rollback words its log lines with [extractErrorMessage], which
    throws on the same payload; the failures of the SDK are not of this
    kind (see [FailureFacts.failure_message]). *)
Example message_of_null_sub_error_throws :
  extractErrorMessage null_sub_error =
    Throw (TypeError "Cannot read properties of null (reading 'message')").
Proof. reflexivity. Qed.

(** Payloads without a usable list of sub-errors, all classified 500. *)
Example empty_payloads_are_generic :
  Forall (fun payload =>
            extractGoogleAdsErrorDetails payload =
              Ok (mkErrorDetails INTERNAL_SERVER_ERROR
                    (JStr "An unexpected error occurred") [] JNull))
         [JUndefined; JNull; JObj []; JStr "timeout"; JNum 503;
          JObj [("errors", JArr [])]; JObj [("errors", JStr "none")];
          JObj [("errors", JNull)]].
Proof. repeat constructor. Qed.

End ClassifierClaims.

(** ** The scorer and the matcher *)

Module MatcherFacts.
Import ArticlesService MatcherSpec.

Lemma fold_left_shift : forall {A} (f : Z -> A -> Z),
  (forall s x, f s x = s + f 0 x) ->
  forall l s, fold_left f l s = s + fold_left f l 0.
Proof.
  intros A f Hf. induction l as [|x l IH]; intros s; cbn [fold_left].
  - lia.
  - rewrite (IH (f s x)), (IH (f 0 x)), (Hf s x). lia.
Qed.

Lemma fold_left_grows : forall {A} (f : Z -> A -> Z),
  (forall s x, s <= f s x) -> forall l s, s <= fold_left f l s.
Proof.
  intros A f Hf. induction l as [|x l IH]; intros s; cbn [fold_left].
  - lia.
  - specialize (IH (f s x)). specialize (Hf s x). lia.
Qed.

Lemma add_title_shift : forall ws t s,
  add_title_matches ws t s = s + add_title_matches ws t 0.
Proof.
  intros ws t. unfold add_title_matches. apply fold_left_shift.
  intros s x. destruct (Str.includes t x); lia.
Qed.

Lemma add_word_shift : forall ws k s,
  add_word_matches ws k s = s + add_word_matches ws k 0.
Proof.
  intros ws k. unfold add_word_matches. apply fold_left_shift.
  intros s x. destruct (Str.includes k x || Str.includes x k); lia.
Qed.

Lemma add_related_shift : forall rs k s,
  add_related_matches rs k s = s + add_related_matches rs k 0.
Proof.
  intros rs k. unfold add_related_matches. apply fold_left_shift.
  intros s x. destruct (Str.includes k x || Str.includes x k); lia.
Qed.

Lemma add_title_grows : forall ws t s, s <= add_title_matches ws t s.
Proof.
  intros ws t. unfold add_title_matches. apply fold_left_grows.
  intros s x. destruct (Str.includes t x); lia.
Qed.

Lemma add_word_grows : forall ws k s, s <= add_word_matches ws k s.
Proof.
  intros ws k. unfold add_word_matches. apply fold_left_grows.
  intros s x. destruct (Str.includes k x || Str.includes x k); lia.
Qed.

Lemma add_related_grows : forall rs k s, s <= add_related_matches rs k s.
Proof.
  intros rs k. unfold add_related_matches. apply fold_left_grows.
  intros s x. destruct (Str.includes k x || Str.includes x k); lia.
Qed.

Lemma add_recency_split : forall now p s,
  add_recency now p s = s + add_recency now p 0 /\ 0 <= add_recency now p 0 <= 2.
Proof.
  intros now [p|] s; unfold add_recency; [|lia].
  destruct (now - p <? 24 * msPerHour); [lia|].
  destruct (now - p <? 72 * msPerHour); lia.
Qed.

(** The keyword loop adds the word points and the related points. *)
Lemma add_keyword_split : forall ws rs kws s,
  add_keyword_matches ws rs kws s =
    s + fold_left (fun p k => add_word_matches ws (Str.toLowerCase k) p) kws 0
      + fold_left (fun p k => add_related_matches rs (Str.toLowerCase k) p) kws 0.
Proof.
  intros ws rs. unfold add_keyword_matches.
  induction kws as [|k kws IH]; intros s; cbn [fold_left]; [lia|].
  rewrite IH.
  rewrite (fold_left_shift
             (fun p k0 => add_word_matches ws (Str.toLowerCase k0) p)
             (fun s0 x => add_word_shift ws (Str.toLowerCase x) s0) kws
             (add_word_matches ws (Str.toLowerCase k) 0)).
  rewrite (fold_left_shift
             (fun p k0 => add_related_matches rs (Str.toLowerCase k0) p)
             (fun s0 x => add_related_shift rs (Str.toLowerCase x) s0) kws
             (add_related_matches rs (Str.toLowerCase k) 0)).
  rewrite (add_related_shift rs (Str.toLowerCase k)
             (add_word_matches ws (Str.toLowerCase k) s)).
  rewrite (add_word_shift ws (Str.toLowerCase k) s). lia.
Qed.

Lemma relevance_split : forall now trend article,
  relevance now trend article =
    title_points trend article + word_points trend article +
    related_points trend article + recency_points now article.
Proof.
  intros now trend article.
  unfold relevance, title_points, word_points, related_points, recency_points.
  rewrite (proj1 (add_recency_split now (publishedAt article) _)).
  rewrite add_keyword_split. lia.
Qed.

Lemma points_nonnegative : forall trend article,
  0 <= title_points trend article /\
  0 <= word_points trend article /\
  0 <= related_points trend article.
Proof.
  intros trend article. unfold title_points, word_points, related_points.
  split; [apply add_title_grows|].
  split; apply fold_left_grows; intros s x;
    [apply add_word_grows | apply add_related_grows].
Qed.

Lemma includes_empty : forall s, Str.includes s "" = true.
Proof. destruct s; reflexivity. Qed.

(** The empty keyword is one empty word, found in every title and keyword. *)
Lemma blank_keyword_points : forall trend article,
  keyword trend = "" ->
  title_points trend article = 3 /\
  word_points trend article = 2 * Z.of_nat (List.length (keywords article)).
Proof.
  intros trend article H. unfold title_points, word_points. rewrite H.
  change (Str.split_ws (Str.toLowerCase "")) with [""].
  split.
  - unfold add_title_matches. cbn [fold_left]. rewrite includes_empty. reflexivity.
  - induction (keywords article) as [|k kws IH]; [reflexivity|].
    cbn [fold_left].
    rewrite (fold_left_shift
               (fun p k0 => add_word_matches [""] (Str.toLowerCase k0) p)
               (fun s0 x => add_word_shift [""] (Str.toLowerCase x) s0)).
    rewrite IH. unfold add_word_matches at 1. cbn [fold_left].
    rewrite includes_empty. cbn [orb List.length]. lia.
Qed.

Lemma calculateRelevanceScore_run : forall trend article E w,
  calculateRelevanceScore trend article E w =
    (set_ticks (S (ticks w)) w, Ok (relevance (clock E (ticks w)) trend article)).
Proof. reflexivity. Qed.

End MatcherFacts.

Module ScorerClaims.
Import ArticlesService MatcherSpec MatcherFacts.

(** C7, as the code has it.  The scorer returns, without an error, a
    non-negative integer: the sum of the title points, the word points,
    the related-query points and the recency bonus, none of them
    negative.  An article without keywords gets no word and no
    related-query points; a trend without related queries gives no
    related-query points.  A trend whose keyword is the empty text does
    not give an empty list of words: its one, empty, word is found in
    every title and in every keyword, which adds 3 title points and 2
    word points per keyword of the article. *)
Theorem score_parts :
  forall trend article E w,
    exists s,
      calculateRelevanceScore trend article E w = (set_ticks (S (ticks w)) w, Ok s) /\
      0 <= s /\
      s = title_points trend article + word_points trend article +
          related_points trend article +
          recency_points (clock E (ticks w)) article /\
      0 <= title_points trend article /\
      0 <= word_points trend article /\
      0 <= related_points trend article /\
      0 <= recency_points (clock E (ticks w)) article <= 2 /\
      (keywords article = [] ->
         word_points trend article = 0 /\ related_points trend article = 0) /\
      (relatedQueries trend = [] -> related_points trend article = 0) /\
      (keyword trend = "" ->
         title_points trend article = 3 /\
         word_points trend article = 2 * Z.of_nat (List.length (keywords article))).
Proof.
  intros trend article E w.
  exists (relevance (clock E (ticks w)) trend article).
  destruct (points_nonnegative trend article) as [Ht [Hw Hr]].
  pose proof (proj2 (add_recency_split (clock E (ticks w)) (publishedAt article) 0))
    as Hc. fold (recency_points (clock E (ticks w)) article) in Hc.
  split; [apply calculateRelevanceScore_run|].
  rewrite relevance_split.
  split; [lia|]. split; [reflexivity|].
  split; [exact Ht|]. split; [exact Hw|]. split; [exact Hr|]. split; [exact Hc|].
  split; [|split].
  - intros H. unfold word_points, related_points. rewrite H. split; reflexivity.
  - intros H. unfold related_points. rewrite H. cbn [map].
    induction (keywords article) as [|k kws IH]; [reflexivity|exact IH].
  - apply blank_keyword_points.
Qed.

(** C7 as stated fails: for a trend whose keyword is empty the title term
    adds 3 and the keyword term adds 2, so an article published long ago
    scores 5. *)
Lemma blank_keyword_scores :
  title_points blank_trend Scenario.budget_news = 3 /\
  word_points blank_trend Scenario.budget_news = 2 /\
  related_points blank_trend Scenario.budget_news = 0 /\
  recency_points (clock Scenario.down 0) Scenario.budget_news = 0 /\
  snd (calculateRelevanceScore blank_trend Scenario.budget_news
         Scenario.down Scenario.empty_world) = Ok 5.
Proof. repeat split; reflexivity. Qed.

End ScorerClaims.

Module SortFacts.
Import ArticlesService MatcherSpec.

#[local] Abbreviation insert := (JSArray.insert compare_matches).
#[local] Abbreviation sort := (JSArray.sort compare_matches).

Lemma insert_perm : forall x l, Permutation (insert x l) (x :: l).
Proof.
  intros x. induction l as [|y l IH]; cbn [JSArray.insert]; [reflexivity|].
  destruct (compare_matches x y <=? 0); [reflexivity|].
  rewrite IH. apply perm_swap.
Qed.

Lemma sort_perm : forall l, Permutation (sort l) l.
Proof.
  induction l as [|x l IH]; cbn [JSArray.sort]; [reflexivity|].
  rewrite insert_perm, IH. reflexivity.
Qed.

Lemma insert_Forall : forall (P : TrendMatch -> Prop) x l,
  P x -> Forall P l -> Forall P (insert x l).
Proof.
  intros P x l Hx Hl. apply (Permutation_Forall (Permutation_sym (insert_perm x l))).
  constructor; assumption.
Qed.

Lemma insert_sorted : forall x l,
  StronglySorted descending l -> StronglySorted descending (insert x l).
Proof.
  intros x. induction l as [|y l IH]; intros H; cbn [JSArray.insert].
  - repeat constructor.
  - inversion H as [|y' l' Hl Hy]; subst.
    unfold compare_matches at 1.
    destruct (Z.leb_spec (score y - score x) 0) as [Hle|Hgt].
    + constructor; [exact H|].
      constructor; [unfold descending; lia|].
      apply (Forall_impl (descending x)) with (2 := Hy).
      unfold descending. intros z Hz. lia.
    + constructor; [apply IH, Hl|].
      apply insert_Forall; [unfold descending; lia|exact Hy].
Qed.

Lemma sort_sorted : forall l, StronglySorted descending (sort l).
Proof.
  induction l as [|x l IH]; cbn [JSArray.sort]; [constructor|].
  apply insert_sorted, IH.
Qed.

(** An element is inserted in front of those of its own score. *)
Lemma insert_filter : forall s x l,
  filter (has_score s) (insert x l) =
    if has_score s x then x :: filter (has_score s) l else filter (has_score s) l.
Proof.
  intros s x. induction l as [|y l IH]; cbn [JSArray.insert filter].
  - reflexivity.
  - unfold compare_matches at 1.
    destruct (Z.leb_spec (score y - score x) 0) as [Hle|Hgt]; cbn [filter].
    + reflexivity.
    + rewrite IH. unfold has_score.
      destruct (Z.eqb_spec (score y) s), (Z.eqb_spec (score x) s);
        try reflexivity; lia.
Qed.

Lemma sort_filter : forall s l,
  filter (has_score s) (sort l) = filter (has_score s) l.
Proof.
  intros s. induction l as [|x l IH]; cbn [JSArray.sort filter]; [reflexivity|].
  rewrite insert_filter, IH. reflexivity.
Qed.

End SortFacts.

Module MatcherRun.
Import ArticlesService MatcherSpec MatcherFacts.

Lemma set_ticks_same : forall w, set_ticks (ticks w + 0) w = w.
Proof. intros []. unfold set_ticks. cbn. rewrite Nat.add_0_r. reflexivity. Qed.

Lemma set_ticks_more : forall w n,
  set_ticks (ticks (set_ticks (S (ticks w)) w) + n) (set_ticks (S (ticks w)) w)
  = set_ticks (ticks w + S n) w.
Proof.
  intros w n. unfold set_ticks. cbn. f_equal. lia.
Qed.

Lemma set_ticks_sum : forall w n m,
  set_ticks (ticks (set_ticks (ticks w + n) w) + m) (set_ticks (ticks w + n) w)
  = set_ticks (ticks w + (n + m)) w.
Proof.
  intros w n m. unfold set_ticks. cbn. f_equal. lia.
Qed.

Lemma enumeration_app : forall E p1 p2 k,
  enumeration E k (p1 ++ p2) =
    (enumeration E k p1 ++ enumeration E (k + List.length p1) p2)%list.
Proof.
  intros E. induction p1 as [|[t a] p1 IH]; intros p2 k; cbn [enumeration app List.length].
  - rewrite Nat.add_0_r. reflexivity.
  - rewrite IH. replace (S k + List.length p1)%nat with (k + S (List.length p1))%nat by lia.
    destruct (0 <? relevance (clock E k) t a); reflexivity.
Qed.

Lemma scan_articles_run : forall trend E arts ms w,
  scan_articles trend arts ms E w =
    (set_ticks (ticks w + List.length arts) w,
     Ok (ms ++ enumeration E (ticks w) (map (pair trend) arts))%list).
Proof.
  intros trend E. unfold scan_articles.
  induction arts as [|a arts IH]; intros ms w; cbn [foldM map enumeration List.length].
  - unfold ret. rewrite set_ticks_same, app_nil_r. reflexivity.
  - unfold bind at 1. unfold bind at 1.
    rewrite calculateRelevanceScore_run.
    destruct (0 <? relevance (clock E (ticks w)) trend a).
    + unfold ret at 1. rewrite IH, set_ticks_more, <- app_assoc. reflexivity.
    + unfold ret at 1. rewrite IH, set_ticks_more. reflexivity.
Qed.

Lemma scan_trends_run : forall E arts trends ms w,
  foldM (fun matches trend => scan_articles trend arts matches) trends ms E w =
    (set_ticks (ticks w + List.length (list_prod trends arts)) w,
     Ok (ms ++ enumeration E (ticks w) (list_prod trends arts))%list).
Proof.
  intros E arts. induction trends as [|t trends IH]; intros ms w;
    cbn [foldM list_prod List.length].
  - unfold ret. rewrite set_ticks_same, app_nil_r. reflexivity.
  - unfold bind at 1. rewrite scan_articles_run, IH.
    rewrite enumeration_app, length_app, length_map, set_ticks_sum, <- app_assoc.
    reflexivity.
Qed.

Lemma matchWithTrends_run : forall trends E w,
  matchWithTrends trends E w =
    (set_ticks (ticks w + List.length (list_prod trends (findAll w))) w,
     Ok (JSArray.sort compare_matches
           (enumeration E (ticks w) (list_prod trends (findAll w))))).
Proof.
  intros trends E w. unfold matchWithTrends.
  unfold bind at 1. unfold gets at 1. unfold bind at 1.
  fold (scan_articles).
  change (foldM _ trends [] E w)
    with (foldM (fun matches trend => scan_articles trend (findAll w) matches)
                trends [] E w).
  rewrite scan_trends_run. reflexivity.
Qed.

Lemma enumeration_positive : forall E pairs k,
  Forall (fun m => 1 <= score m) (enumeration E k pairs).
Proof.
  intros E. induction pairs as [|[t a] pairs IH]; intros k; cbn [enumeration].
  - constructor.
  - destruct (Z.ltb_spec 0 (relevance (clock E k) t a)); [|apply IH].
    constructor; [cbn; lia|apply IH].
Qed.

Lemma list_prod_nil_r : forall {A B} (l : list A), list_prod l (@nil B) = [].
Proof. induction l as [|x l IH]; [reflexivity|exact IH]. Qed.

End MatcherRun.

Module MatcherClaims.
Import ArticlesService MatcherSpec MatcherFacts SortFacts MatcherRun.

(** C3. [matchWithTrends] returns, without an error, a list that is sorted
    by score, highest first; it holds the matches of the enumeration of
    the pairs (trend by trend, article by article), those of one score in
    the order of that enumeration; every score in it is at least 1; and it
    is empty when there is no trend or no article. *)
Theorem matches_sorted_stable_positive :
  forall trends E w,
    exists w' result,
      matchWithTrends trends E w = (w', Ok result) /\
      StronglySorted (fun a b => score b <= score a) result /\
      Permutation result
        (enumeration E (ticks w) (list_prod trends (findAll w))) /\
      (forall s,
          filter (has_score s) result =
          filter (has_score s)
                 (enumeration E (ticks w) (list_prod trends (findAll w)))) /\
      Forall (fun m => 1 <= score m) result /\
      (trends = [] \/ findAll w = [] -> result = []).
Proof.
  intros trends E w. eexists. eexists.
  split; [apply matchWithTrends_run|].
  split; [apply sort_sorted|].
  split; [apply sort_perm|].
  split; [intros s; apply sort_filter|].
  split.
  - apply (Permutation_Forall (Permutation_sym (sort_perm _))).
    apply enumeration_positive.
  - intros [-> | ->]; [reflexivity|].
    rewrite list_prod_nil_r. reflexivity.
Qed.

End MatcherClaims.

(** ** The registry *)

Module MapFacts.

Lemma get_app : forall {V} k (pre m : list (string * V)),
  ~ In k (JSMap.keys pre) -> JSMap.get k (pre ++ m) = JSMap.get k m.
Proof.
  intros V k pre m. induction pre as [|[k' v] pre IH]; intros H; [reflexivity|].
  cbn. destruct (String.eqb_spec k k') as [->|Hne].
  - exfalso. apply H. left. reflexivity.
  - apply IH. intros Hin. apply H. right. exact Hin.
Qed.

Lemma get_head : forall {V} k (v : V) m, JSMap.get k ((k, v) :: m) = Some v.
Proof. intros. cbn. rewrite String.eqb_refl. reflexivity. Qed.

Lemma delete_app : forall {V} k (v : V) pre m,
  ~ In k (JSMap.keys pre) -> JSMap.delete k (pre ++ (k, v) :: m) = (pre ++ m)%list.
Proof.
  intros V k v pre m. induction pre as [|[k' v'] pre IH]; intros H.
  - cbn. rewrite String.eqb_refl. reflexivity.
  - cbn. destruct (String.eqb_spec k k') as [->|Hne].
    + exfalso. apply H. left. reflexivity.
    + rewrite IH; [reflexivity|]. intros Hin. apply H. right. exact Hin.
Qed.

Lemma get_adjust : forall {V} k (f : V -> V) m v,
  JSMap.get k m = Some v -> JSMap.get k (JSMap.adjust k f m) = Some (f v).
Proof.
  intros V k f. induction m as [|[k' v'] m IH]; intros v H; [discriminate|].
  cbn in H |- *. destruct (String.eqb_spec k k') as [->|Hne].
  - injection H as <-. cbn. rewrite String.eqb_refl. reflexivity.
  - cbn. destruct (String.eqb_spec k k'); [contradiction|]. apply IH, H.
Qed.

Lemma get_append : forall {V} k (v : V) m,
  JSMap.get k m = None -> JSMap.get k (m ++ [(k, v)]) = Some v.
Proof.
  intros V k v. induction m as [|[k' v'] m IH]; intros H.
  - apply get_head.
  - cbn in H |- *. destruct (k =? k')%string; [discriminate|]. apply IH, H.
Qed.

(** What was [set] is what [get] finds. *)
Lemma get_set : forall {V} k (v : V) m, JSMap.get k (JSMap.set k v m) = Some v.
Proof.
  intros V k v m. unfold JSMap.set, JSMap.has.
  destruct (JSMap.get k m) as [v0|] eqn:H.
  - apply (get_adjust k (fun _ => v) m v0 H).
  - apply get_append, H.
Qed.

Lemma keys_app : forall {V} (a b : list (string * V)),
  JSMap.keys (a ++ b) = (JSMap.keys a ++ JSMap.keys b)%list.
Proof. intros. unfold JSMap.keys. apply map_app. Qed.

End MapFacts.

Module RegistryFacts.
Import Platform CampaignsService RegistrySpec MapFacts SagaFacts.

Lemma update_resolved : forall name st E w n,
  platform E (trace w) (campaigns_update name st) = Resolved n ->
  await (campaigns_update name st) E w =
    (set_trace (trace w ++ [Called (campaigns_update name st) (Resolved n)]) w,
     Ok (resource_name n)).
Proof. intros name st E w n H. unfold await. rewrite H. reflexivity. Qed.

Lemma update_rejected : forall name st E w reason,
  platform E (trace w) (campaigns_update name st) = Rejected reason ->
  await (campaigns_update name st) E w =
    (set_trace (trace w ++ [Called (campaigns_update name st) (Rejected reason)]) w,
     Throw (Thrown reason)).
Proof. intros name st E w reason H. unfold await. rewrite H. reflexivity. Qed.

(** An operation on a stored campaign, by the answer of the platform. *)
Lemma run_cases : forall op id c E w,
  JSMap.get id (campaigns w) = Some c ->
  let request := campaigns_update (resourceName (sc_result c)) (requested op) in
  run op id E w =
    match platform E (trace w) request with
    | Resolved n =>
        (set_campaigns (applied op id (campaigns w))
           (set_trace (trace w ++ [Called request (Resolved n)]) w), Ok tt)
    | Rejected reason =>
        (set_trace (trace w ++ [Called request (Rejected reason)]) w,
         Throw (Thrown reason))
    end.
Proof.
  intros op id c E w H request. subst request.
  destruct op; cbn [run requested applied];
    unfold pauseCampaign, enableCampaign, removeCampaign,
      GoogleAdsService.pauseCampaign, GoogleAdsService.enableCampaign,
      GoogleAdsService.removeCampaign;
    run; rewrite H;
    match goal with
    | |- context [platform E (trace w) ?c] => destruct (platform E (trace w) c)
    end; reflexivity.
Qed.

End RegistryFacts.

Module RegistryClaims.
Import Platform CampaignsService RegistrySpec MapFacts RegistryFacts.

(** C10. For a campaign that is in the registry, when the platform rejects
    the request of [pauseCampaign], [enableCampaign] or [removeCampaign],
    the operation throws that rejection and the registry is as it was; the
    status is changed, or the entry deleted, only when the platform
    accepted the request. *)
Theorem registry_changes_after_platform_success :
  forall op id c E w,
    JSMap.get id (campaigns w) = Some c ->
    let request := campaigns_update (resourceName (sc_result c)) (requested op) in
    (forall reason, platform E (trace w) request = Rejected reason ->
       exists w',
         run op id E w = (w', Throw (Thrown reason)) /\
         campaigns w' = campaigns w /\
         trace w' = (trace w ++ [Called request (Rejected reason)])%list) /\
    (forall n, platform E (trace w) request = Resolved n ->
       exists w',
         run op id E w = (w', Ok tt) /\
         campaigns w' = applied op id (campaigns w) /\
         trace w' = (trace w ++ [Called request (Resolved n)])%list).
Proof.
  intros op id c E w H request.
  pose proof (run_cases op id c E w H) as Hrun. cbv zeta in Hrun.
  fold request in Hrun.
  split; intros x Hx; rewrite Hx in Hrun; eexists;
    (split; [exact Hrun|split; reflexivity]).
Qed.

Lemma registry_changes_after_platform_success_witness :
  let w := Scenario.registry [Scenario.old1; Scenario.locked] in
  let request := campaigns_update (resourceName (sc_result Scenario.locked))
                                  CampaignStatus.REMOVED in
  JSMap.get "13" (campaigns w) = Some Scenario.locked /\
  platform Scenario.failing (trace w) request = fails (PlainError "campaign is locked") /\
  (forall reason, platform Scenario.failing (trace w) request = Rejected reason ->
     exists w',
       run Remove "13" Scenario.failing w = (w', Throw (Thrown reason)) /\
       campaigns w' = campaigns w /\
       trace w' = (trace w ++ [Called request (Rejected reason)])%list) /\
  (forall n, platform Scenario.failing (trace w) request = Resolved n ->
     exists w',
       run Remove "13" Scenario.failing w = (w', Ok tt) /\
       campaigns w' = applied Remove "13" (campaigns w) /\
       trace w' = (trace w ++ [Called request (Resolved n)])%list).
Proof.
  intros w request. split; [reflexivity|]. split; [reflexivity|].
  apply (registry_changes_after_platform_success
           Remove "13" Scenario.locked Scenario.failing w).
  reflexivity.
Defined.

End RegistryClaims.

Module ExpressClaims.
Import Platform CampaignsService RegistrySpec MapFacts SagaSpec SagaFacts.

Lemma formatted_date_is_valid : forall x s,
  GoogleAdsService.formatDate (JSDate.TimeClip x) = Ok s -> JSDate.TimeClip x = Some x.
Proof.
  intros x s H. unfold JSDate.TimeClip in *.
  destruct (Z.abs x <=? JSDate.maxTime); [reflexivity|discriminate].
Qed.

(** C9. The entry that a successful [createExpressCampaign] puts in the
    registry, under the id of the campaign, has the status ACTIVE, is
    created at the reading of the clock and expires the requested number
    of hours (the default when none is requested) later, and holds the
    returned result, whose status is PAUSED; nothing else in the registry
    changes. *)
Theorem express_campaign_is_stored_active :
  forall dto E w w' res,
    createExpressCampaign dto E w = (w', Ok res) ->
    exists stored,
      campaigns w' = JSMap.set (campaignId res) stored (campaigns w) /\
      JSMap.get (campaignId res) (campaigns w') = Some stored /\
      sc_status stored = StoredStatus.ACTIVE /\
      createdAt stored = Some (clock E (ticks w)) /\
      expiresAt stored = Some (clock E (ticks w) + hours E dto * 60 * 60 * 1000) /\
      (forall h, dto_durationHours dto = Some h -> h <> 0 -> hours E dto = h) /\
      sc_result stored = res /\
      res_status (sc_result stored) = CampaignStatus.PAUSED.
Proof.
  intros dto E w w' res H.
  unfold createExpressCampaign in H.
  unfold bind at 1 in H. unfold gets at 1 in H.
  destruct (ArticlesService.findOne (dto_articleId dto) w) as [article|];
    [|discriminate].
  run_in H. cbn [JSDate.toISOString] in H. run_in H.
  match type of H with
  | context [GoogleAdsService.createCampaign ?cfg E ?w1] =>
      destruct (createCampaign_trace cfg E w1)
        as [evs [w2 [r [cleanup [w3 [r3 [_ [_ [Hout [Hrun [_ [Hcamp [_ [_ Hres]]]]]]]]]]]]]];
      rewrite Hrun in H
  end.
  destruct r3 as [res0|e]; [|discriminate].
  pose proof (Hres res0 eq_refl) as Hr. subst r.
  injection H as <- <-.
  pose proof (saga_result_paused _ _ _ _ _ _ _ _ Hout) as Hpaused.
  assert (Hend : exists ed,
             GoogleAdsService.formatDate
               (JSDate.TimeClip (clock E (ticks w) + hours E dto * 60 * 60 * 1000))
             = Ok ed).
  { inversion Hout; subst. eexists. eassumption. }
  destruct Hend as [ed Hend]. apply formatted_date_is_valid in Hend.
  eexists. split; [|split; [apply get_set|]].
  - cbn [campaigns set_campaigns]. cbn [campaigns set_ticks] in Hcamp.
    rewrite Hcamp. reflexivity.
  - cbn [sc_status createdAt expiresAt sc_result].
    split; [reflexivity|]. split; [reflexivity|].
    split; [exact Hend|].
    split; [|split; [reflexivity|exact Hpaused]].
    intros h Hh Hne. unfold hours, or_default. rewrite Hh.
    destruct (Z.eqb_spec h 0); [contradiction|reflexivity].
Qed.

Lemma express_campaign_is_stored_active_witness :
  let dto := mkCreateExpressCampaignDto "a1" "elecciones 2025" None (Some 6) in
  let run := createExpressCampaign dto Scenario.working Scenario.empty_world in
  let res := mkCampaignResult "42" "5" CampaignStatus.PAUSED
                              "customers/123/campaigns/42" in
  snd run = Ok res /\
  exists stored,
    campaigns (fst run) = JSMap.set (campaignId res) stored (campaigns Scenario.empty_world) /\
    JSMap.get (campaignId res) (campaigns (fst run)) = Some stored /\
    sc_status stored = StoredStatus.ACTIVE /\
    createdAt stored = Some (clock Scenario.working (ticks Scenario.empty_world)) /\
    expiresAt stored =
      Some (clock Scenario.working (ticks Scenario.empty_world)
            + hours Scenario.working dto * 60 * 60 * 1000) /\
    (forall h, dto_durationHours dto = Some h -> h <> 0 ->
               hours Scenario.working dto = h) /\
    sc_result stored = res /\
    res_status (sc_result stored) = CampaignStatus.PAUSED.
Proof.
  intros dto run res. split; [reflexivity|].
  apply (express_campaign_is_stored_active dto Scenario.working Scenario.empty_world
           (fst run) res).
  reflexivity.
Defined.

End ExpressClaims.
(** ** The sweep *)

Module SweepFacts.
Import Platform CampaignsService RegistrySpec MapFacts RegistryFacts SagaFacts.

(** The test of the sweep is that the entry is due. *)
Lemma expired_active_due : forall now id c,
  expired_active now c = due now (id, c).
Proof.
  intros now id c. unfold expired_active, due, JSDate.lt. cbn [snd].
  destruct (expiresAt c) as [expires|], now as [t|], (sc_status c);
    cbn [StoredStatus.eqb andb]; rewrite ?andb_true_r, ?andb_false_r; reflexivity.
Qed.


Lemma mem_false : forall k ks, ~ In k ks -> mem k ks = false.
Proof.
  intros k. induction ks as [|k' ks IH]; intros H; [reflexivity|].
  cbn. destruct (String.eqb_spec k k') as [->|Hne].
  - exfalso. apply H. left. reflexivity.
  - apply IH. intros Hin. apply H. right. exact Hin.
Qed.

Lemma attempts_keys : forall E now entries history k,
  In k (map fst (attempts E history now entries)) -> In k (JSMap.keys entries).
Proof.
  intros E now. induction entries as [|[id c] entries IH]; intros history k H.
  - destruct H.
  - cbn [attempts] in H. cbn [JSMap.keys map fst].
    destruct (due now (id, c)).
    + cbn [map fst] in H. destruct H as [<-|H]; [left; reflexivity|].
      right. destruct (unread _); [destruct H|]. apply (IH _ _ H).
    + right. apply (IH _ _ H).
Qed.

Lemma removed_keys : forall E now entries history k,
  In k (removed_ids (attempts E history now entries)) -> In k (JSMap.keys entries).
Proof.
  intros E now entries history k H. unfold removed_ids in H.
  apply in_map_iff in H as [[k' ev] [<- H]]. apply filter_In in H as [H _].
  apply (attempts_keys E now entries history). apply in_map_iff.
  exists (k', ev). split; [reflexivity|exact H].
Qed.






Lemma restore : forall w,
  set_campaigns (campaigns w) (set_trace (trace w) w) = w.
Proof. intros []. reflexivity. Qed.

Lemma filter_rest : forall (id : string) (ks : list string)
                           (rest : list (string * StoredCampaign)),
  ~ In id (JSMap.keys rest) ->
  filter (fun kv => negb (mem (fst kv) (id :: ks))) rest =
  filter (fun kv => negb (mem (fst kv) ks)) rest.
Proof.
  intros id ks rest H. apply filter_ext_in. intros [k v] Hin. cbn [fst mem existsb].
  destruct (String.eqb_spec k id) as [->|Hne]; [|reflexivity].
  exfalso. apply H. apply in_map_iff. exists (id, v). split; [reflexivity|exact Hin].
Qed.

(** The turn of an entry that is in the map. *)
Lemma sweep_entry_cases : forall now cleaned id c E w,
  JSMap.get id (campaigns w) = Some c ->
  sweep_entry now cleaned id E w =
    if due now (id, c) then
      match platform E (trace w) (removal_request c) with
      | Resolved n =>
          (set_campaigns (JSMap.delete id (campaigns w))
             (set_trace (trace w ++ [Called (removal_request c) (Resolved n)]) w),
           Ok (cleaned + 1))
      | Rejected reason =>
          (set_trace (trace w ++ [Called (removal_request c) (Rejected reason)]) w,
           match unread (Called (removal_request c) (Rejected reason)) with
           | Some e => Throw e
           | None => Ok cleaned
           end)
      end
    else (w, Ok cleaned).
Proof.
  intros now cleaned id c E w H. unfold sweep_entry.
  unfold bind at 1. unfold gets at 1. rewrite H.
  rewrite (expired_active_due now id c).
  destruct (due now (id, c)); [|reflexivity].
  unfold try_catch. unfold bind at 1.
  change (removeCampaign id) with (run Remove id).
  rewrite (run_cases Remove id c E w H). cbn [requested applied].
  fold (removal_request c).
  destruct (platform E (trace w) (removal_request c)) as [n|reason]; [reflexivity|].
  unfold bind, lift, ret, unread. cbn [GoogleAdsService.as_any].
  destruct (JS.get reason "message"); reflexivity.
Qed.

Lemma mem_head : forall id ks, mem id (id :: ks) = true.
Proof. intros. unfold mem. cbn [existsb]. rewrite String.eqb_refl. reflexivity. Qed.

Lemma removed_ids_cons : forall id ev tries,
  removed_ids ((id, ev) :: tries) =
    if resolved ev then id :: removed_ids tries else removed_ids tries.
Proof. intros id ev tries. unfold removed_ids. cbn. destruct (resolved ev); reflexivity. Qed.

Lemma kept_cons : forall ks id c (rest : list (string * StoredCampaign)),
  filter (fun kv => negb (mem (fst kv) ks)) ((id, c) :: rest) =
    if mem id ks then filter (fun kv => negb (mem (fst kv) ks)) rest
    else (id, c) :: filter (fun kv => negb (mem (fst kv) ks)) rest.
Proof. intros. cbn [filter fst]. destruct (mem id ks); reflexivity. Qed.

Lemma kept_all : forall (rest : list (string * StoredCampaign)),
  filter (fun kv => negb (mem (fst kv) [])) rest = rest.
Proof.
  induction rest as [|kv rest IH]; [reflexivity|].
  cbn [filter mem existsb negb]. f_equal. exact IH.
Qed.

(** The loop, started when [pre] has been visited and kept and [rest] is
    still to be visited. *)
Lemma sweep_loop : forall E now rest pre w cleaned,
  campaigns w = (pre ++ rest)%list ->
  NoDup (JSMap.keys (pre ++ rest)) ->
  foldM (sweep_entry now) (JSMap.keys rest) cleaned E w =
    (set_campaigns
       (pre ++ filter (fun kv => negb (mem (fst kv)
                                         (removed_ids (attempts E (trace w) now rest))))
                      rest)
       (set_trace (trace w ++ map snd (attempts E (trace w) now rest)) w),
     sweep_result (attempts E (trace w) now rest) cleaned).
Proof.
  intros E now. induction rest as [|[id c] rest IH]; intros pre w cleaned Hw Hnd.
  - cbn. unfold ret. rewrite !app_nil_r in *. rewrite <- Hw, restore.
    reflexivity.
  - assert (Hpre : ~ In id (JSMap.keys pre)).
    { rewrite keys_app in Hnd. cbn [JSMap.keys map fst] in Hnd.
      apply NoDup_remove_2 in Hnd. intros Hin. apply Hnd.
      apply in_or_app. left. exact Hin. }
    assert (Hrest : ~ In id (JSMap.keys rest)).
    { rewrite keys_app in Hnd. cbn [JSMap.keys map fst] in Hnd.
      apply NoDup_remove_2 in Hnd. intros Hin. apply Hnd.
      apply in_or_app. right. exact Hin. }
    assert (Hget : JSMap.get id (campaigns w) = Some c).
    { rewrite Hw, (get_app id pre _ Hpre). apply get_head. }
    assert (Hkeep : forall history,
               mem id (removed_ids (attempts E history now rest)) = false).
    { intros history. apply mem_false. intros Hin. apply Hrest.
      apply (removed_keys _ _ _ _ _ Hin). }
    change (JSMap.keys ((id, c) :: rest)) with (id :: JSMap.keys rest).
    cbn [foldM]. unfold bind at 1.
    rewrite (sweep_entry_cases now cleaned id c E w Hget).
    cbn [attempts].
    destruct (due now (id, c)) eqn:Hdue.
    + destruct (platform E (trace w) (removal_request c)) as [n|reason] eqn:Hp.
      * cbn [unread sweep_result resolved].
        rewrite (IH pre); cbn [campaigns trace set_campaigns set_trace].
        -- rewrite removed_ids_cons. cbn [resolved].
           rewrite kept_cons, mem_head, (filter_rest id _ rest Hrest).
           cbn [map snd]. rewrite <- app_assoc. reflexivity.
        -- rewrite Hw. apply (delete_app id c pre rest Hpre).
        -- rewrite keys_app in Hnd |- *. cbn [JSMap.keys map fst] in Hnd.
           apply (NoDup_remove_1 _ _ _ Hnd).
      * cbn [sweep_result resolved].
        destruct (unread (Called (removal_request c) (Rejected reason))) as [e|].
        -- unfold removed_ids. cbn [filter snd resolved map].
           cbn [mem existsb negb]. rewrite kept_all, <- Hw. destruct w. reflexivity.
        -- rewrite (IH (pre ++ [(id, c)])%list);
             cbn [campaigns trace set_campaigns set_trace].
           ++ rewrite removed_ids_cons. cbn [resolved].
              rewrite kept_cons, Hkeep. cbn [map snd].
              rewrite <- !app_assoc. reflexivity.
           ++ rewrite Hw, <- app_assoc. reflexivity.
           ++ rewrite <- app_assoc. exact Hnd.
    + rewrite (IH (pre ++ [(id, c)])%list).
      * rewrite kept_cons, Hkeep. rewrite <- !app_assoc. reflexivity.
      * rewrite Hw, <- app_assoc. reflexivity.
      * rewrite <- app_assoc. exact Hnd.
Qed.

(** A run of the sweep. *)
Lemma cleanup_unfold : forall E w,
  JSMap.wf (campaigns w) ->
  let now := Some (clock E (ticks w)) in
  let tries := attempts E (trace w) now (campaigns w) in
  cleanupExpiredCampaigns E w =
    (set_campaigns
       (filter (fun kv => negb (mem (fst kv) (removed_ids tries))) (campaigns w))
       (set_trace (trace w ++ map snd tries) (set_ticks (S (ticks w)) w)),
     sweep_result tries 0).
Proof.
  intros E w Hwf now tries.
  pose proof (sweep_loop E now (campaigns w) [] (set_ticks (S (ticks w)) w) 0
                eq_refl Hwf) as Hloop.
  cbn [trace set_ticks app campaigns] in Hloop. fold tries in Hloop.
  unfold cleanupExpiredCampaigns, Date_new.
  unfold bind at 1. unfold bind at 1. unfold Date_now at 1. unfold ret at 1.
  unfold bind at 1. unfold gets at 1.
  cbn [campaigns set_ticks]. fold now. exact Hloop.
Qed.




End SweepFacts.

Module SweepClaims.
Import Platform CampaignsService RegistrySpec MapFacts RegistryFacts SweepFacts.




(** With one removal rejected the sweep still visits the entries after it:
    of three due campaigns the two that the platform lets go are deleted
    and counted, the third and the one that is not due stay. *)
Example sweep_goes_on_after_a_rejection :
  let run := cleanupExpiredCampaigns Scenario.failing
               (Scenario.registry [Scenario.old1; Scenario.locked;
                                  Scenario.fresh; Scenario.old2]) in
  snd run = Ok 2 /\
  campaigns (fst run) = [("13", Scenario.locked); ("14", Scenario.fresh)] /\
  map (fun ev => match ev with
                 | Called (campaigns_update name _) _ => name
                 | _ => EmptyString
                 end) (trace (fst run))
    = ["customers/123/campaigns/11"; "customers/123/campaigns/13";
       "customers/123/campaigns/12"].
Proof. repeat split; reflexivity. Qed.

(** Two expired active campaigns and one that expires later, in each of
    the six orders of insertion: the sweep returns 2 and leaves the one. *)
Example sweep_three_campaigns :
  Forall (fun entries =>
            let run := cleanupExpiredCampaigns Scenario.working
                         (Scenario.registry entries) in
            snd run = Ok 2 /\ campaigns (fst run) = [("14", Scenario.fresh)])
         [[Scenario.old1; Scenario.old2; Scenario.fresh];
          [Scenario.old1; Scenario.fresh; Scenario.old2];
          [Scenario.old2; Scenario.old1; Scenario.fresh];
          [Scenario.old2; Scenario.fresh; Scenario.old1];
          [Scenario.fresh; Scenario.old1; Scenario.old2];
          [Scenario.fresh; Scenario.old2; Scenario.old1]].
Proof. repeat constructor. Qed.

End SweepClaims.

(** ** Resource ids, truncated texts, budget names *)

Module TextFacts.
Import TextSpec DateSpec DateFacts.

Lemma split_from_cons : forall sep s cur,
  exists h t, Str.split_from sep s cur = h :: t.
Proof.
  intros sep. induction s as [|c s IH]; intros cur; cbn [Str.split_from].
  - eauto.
  - destruct (Ascii.eqb c sep); [eauto|apply IH].
Qed.

Lemma last_cons : forall {A} (x : A) l d, l <> [] -> last (x :: l) d = last l d.
Proof. intros A x [|y l] d H; [contradiction|reflexivity]. Qed.

Lemma last_split_tail : forall sep s cur x d,
  last (x :: Str.split_from sep s cur) d = last (Str.split_from sep s cur) d.
Proof.
  intros sep s cur x d. apply last_cons.
  destruct (split_from_cons sep s cur) as [h [t ->]]. discriminate.
Qed.

(** A text without the separator is one piece. *)
Lemma split_from_free : forall sep s cur,
  free_of sep s = true -> Str.split_from sep s cur = [cur ++ s].
Proof.
  intros sep. induction s as [|c s IH]; intros cur H.
  - cbn. rewrite append_nil_r. reflexivity.
  - cbn [free_of all] in H. apply andb_prop in H as [Hc Hs].
    apply negb_true_iff in Hc. cbn [Str.split_from]. rewrite Hc.
    rewrite (IH _ Hs). unfold Str.snoc. rewrite append_assoc. reflexivity.
Qed.

(** The last piece is what follows the last separator. *)
Lemma last_piece : forall sep s cur,
  (free_of sep s = true /\ last (Str.split_from sep s cur) "" = cur ++ s) \/
  (exists p, s = p ++ String sep (last (Str.split_from sep s cur) "") /\
             free_of sep (last (Str.split_from sep s cur) "") = true).
Proof.
  intros sep. induction s as [|c s IH]; intros cur.
  - left. split; [reflexivity|]. cbn. rewrite append_nil_r. reflexivity.
  - cbn [Str.split_from]. destruct (Ascii.eqb_spec c sep) as [->|Hne].
    + right. rewrite last_split_tail.
      destruct (IH "") as [[Hfree Hl] | [p [Hp Hfree]]].
      * exists "". rewrite Hl. split; [reflexivity|exact Hfree].
      * exists (String sep p). split; [|exact Hfree].
        cbn [append]. f_equal. exact Hp.
    + destruct (IH (Str.snoc cur c)) as [[Hfree Hl] | [p [Hp Hfree]]].
      * left. split.
        -- cbn [free_of all]. apply andb_true_intro. split; [|exact Hfree].
           apply negb_true_iff. apply Ascii.eqb_neq. exact Hne.
        -- rewrite Hl. unfold Str.snoc. rewrite append_assoc. reflexivity.
      * right. exists (String c p). split; [|exact Hfree].
        cbn [append]. f_equal. exact Hp.
Qed.

Lemma last_piece_after : forall sep t,
  free_of sep t = true ->
  forall p cur, last (Str.split_from sep (p ++ String sep t) cur) "" = t.
Proof.
  intros sep t Ht. induction p as [|c p IH]; intros cur.
  - change ("" ++ String sep t) with (String sep t).
    cbn [Str.split_from]. rewrite Ascii.eqb_refl.
    rewrite (split_from_free sep t "" Ht). reflexivity.
  - change (String c p ++ String sep t) with (String c (p ++ String sep t)).
    cbn [Str.split_from]. destruct (Ascii.eqb c sep).
    + rewrite last_split_tail. apply IH.
    + apply IH.
Qed.

Lemma substring0_nil : forall n, String.substring 0 n "" = "".
Proof. intros [|n]; reflexivity. Qed.

Lemma substring0_prefix : forall n s,
  String.prefix (String.substring 0 n s) s = true.
Proof.
  induction n as [|n IH]; intros [|c s];
    cbn [String.substring String.prefix]; try reflexivity.
  destruct (ascii_dec c c) as [_|Hne]; [apply IH|contradiction].
Qed.

Lemma substring0_length : forall n s,
  String.length (String.substring 0 n s) = Nat.min n (String.length s).
Proof.
  induction n as [|n IH]; intros [|c s]; cbn; try reflexivity.
  f_equal. apply IH.
Qed.

Lemma substring0_short : forall n s,
  (String.length s <= n)%nat -> String.substring 0 n s = s.
Proof.
  induction n as [|n IH]; intros [|c s] H; cbn in *; try reflexivity; try lia.
  f_equal. apply IH. lia.
Qed.

Lemma substring0_truncated : forall n s, truncated n s (Str.substring0 n s).
Proof.
  intros n s. unfold truncated, Str.substring0.
  split; [apply substring0_prefix|]. split; [apply substring0_length|].
  apply substring0_short.
Qed.

Lemma map_truncated : forall n texts,
  Forall2 (truncated n) texts (map (Str.substring0 n) texts).
Proof.
  intros n. induction texts as [|s texts IH]; cbn [map]; constructor;
    [apply substring0_truncated|exact IH].
Qed.

Lemma append_inv_head : forall p s t : string, p ++ s = p ++ t -> s = t.
Proof.
  induction p as [|c p IH]; intros s t H; cbn [append] in H; [exact H|].
  injection H as H. apply IH, H.
Qed.

Lemma append_inv_last : forall (c : ascii) s t,
  s ++ String c "" = t ++ String c "" -> s = t.
Proof.
  intros c. induction s as [|a s IH]; intros [|b t] H; cbn [append] in H.
  - reflexivity.
  - injection H as _ H. destruct t; discriminate.
  - injection H as _ H. destruct s; discriminate.
  - injection H as -> H. f_equal. apply IH, H.
Qed.

Lemma to_int_not_nil : forall n,
  Z.to_int n <> Decimal.Pos Decimal.Nil /\ Z.to_int n <> Decimal.Neg Decimal.Nil.
Proof.
  intros [|p|p]; cbn [Z.to_int]; split; try discriminate;
    intros H; injection H as H;
    apply (DecimalPos.Unsigned.to_uint_nonnil p H).
Qed.

(** The decimal texts of different numbers differ. *)
Lemma decimal_inj : forall a b, JS.decimal a = JS.decimal b -> a = b.
Proof.
  intros a b H. unfold JS.decimal in H.
  apply (f_equal NilZero.int_of_string) in H.
  destruct (to_int_not_nil a) as [Ha1 Ha2].
  destruct (to_int_not_nil b) as [Hb1 Hb2].
  rewrite (NilZero.isi _ Ha1 Ha2), (NilZero.isi _ Hb1 Hb2) in H.
  injection H as H. apply DecimalZ.to_int_inj, H.
Qed.

End TextFacts.

Module TextClaims.
Import Platform GoogleAdsService TextSpec TextFacts SagaSpec.

(** X1. [extractId] returns what follows the last slash of the resource name
    (the whole name when it has no slash); the id has no slash. *)
Theorem extractId_is_the_last_segment :
  forall resourceName,
    free_of "/" (extractId resourceName) = true /\
    (resourceName = extractId resourceName \/
     exists parent, resourceName = parent ++ "/" ++ extractId resourceName).
Proof.
  intros s. unfold extractId, Str.split.
  destruct (last_piece "/" s "") as [[Hfree Hl] | [p [Hp Hfree]]].
  - rewrite Hl. cbn [append]. split; [exact Hfree|left; reflexivity].
  - split; [exact Hfree|]. right. exists p. exact Hp.
Qed.

(** X2. The id extracted from the name that the platform gives a resource is
    the id of that resource, as long as the id itself has no slash. *)
Theorem extractId_of_a_platform_name :
  forall r,
    free_of "/" (resource_id r) = true ->
    extractId (resource_name r) = resource_id r.
Proof.
  intros r H. unfold extractId, Str.split, resource_name.
  replace ("customers/" ++ customer r ++ "/" ++ collection r ++ "/" ++ resource_id r)
    with (("customers/" ++ customer r ++ "/" ++ collection r) ++
          String "/" (resource_id r)).
  - apply (last_piece_after "/" _ H).
  - rewrite !DateFacts.append_assoc. reflexivity.
Qed.

Lemma extractId_of_a_platform_name_witness :
  free_of "/" (resource_id (Scenario.rn "campaigns" "42")) = true /\
  extractId (resource_name (Scenario.rn "campaigns" "42")) = "42".
Proof.
  split; [reflexivity|].
  apply (extractId_of_a_platform_name (Scenario.rn "campaigns" "42")).
  reflexivity.
Defined.

(** X3. The request for the ad carries one headline and one description per
    configured text, in order, each cut after 30 and 90 UTF-16 code units
    (a text that has no more is sent as it is), and the final URL alone;
    it is the only platform event of [createResponsiveSearchAd]. *)
Theorem ad_texts_are_truncated :
  forall adGroup headlines descriptions finalUrl E w,
    exists data resp,
      trace (fst (createResponsiveSearchAd adGroup headlines descriptions finalUrl E w))
        = (trace w ++ [Called (adGroupAds_create data) resp])%list /\
      ad_ad_group data = adGroup /\
      Forall2 (truncated 30) headlines (ad_headlines data) /\
      Forall2 (truncated 90) descriptions (ad_descriptions data) /\
      final_urls data = [finalUrl].
Proof.
  intros adGroup headlines descriptions finalUrl E w.
  unfold createResponsiveSearchAd.
  eexists. exists (platform E (trace w) (adGroupAds_create
    (mkAdData adGroup Ad_ENABLED (map (Str.substring0 30) headlines)
              (map (Str.substring0 90) descriptions) [finalUrl]))).
  split; [|split; [|split; [|split]]].
  - unfold try_catch, bind, await, ret, throw.
    destruct (platform E (trace w) _); reflexivity.
  - reflexivity.
  - apply map_truncated.
  - apply map_truncated.
  - reflexivity.
Qed.

(** A headline of thirty code units, one of them an accented letter, is
    sent whole. *)
Example accented_headline_is_sent_whole :
  let headline := Str.text "economia-finanza - Última Hora" in
  String.length headline = 30%nat /\
  exists resp,
    trace (fst (createResponsiveSearchAd "customers/123/adGroups/5" [headline] []
                  "https://tumedio.com/budget" Scenario.working Scenario.empty_world))
      = [Called (adGroupAds_create
                   (mkAdData "customers/123/adGroups/5" Ad_ENABLED [headline] []
                             ["https://tumedio.com/budget"])) resp].
Proof.
  cbv zeta. split; [vm_compute; reflexivity|].
  eexists. vm_compute. reflexivity.
Qed.

(** X4. Two requests for a budget of the same campaign name made at different
    readings of the clock carry different budget names. *)
Theorem budget_names_differ_with_the_clock :
  forall name amount1 amount2 E w1 w2 data1 data2 resp1 resp2,
    clock E (ticks w1) <> clock E (ticks w2) ->
    trace (fst (createCampaignBudget name amount1 E w1))
      = (trace w1 ++ [Called (campaignBudgets_create data1) resp1])%list ->
    trace (fst (createCampaignBudget name amount2 E w2))
      = (trace w2 ++ [Called (campaignBudgets_create data2) resp2])%list ->
    budget_name data1 <> budget_name data2.
Proof.
  intros name a1 a2 E w1 w2 d1 d2 r1 r2 Hclock H1 H2 Heq.
  assert (Hreq : forall a w d r,
             trace (fst (createCampaignBudget name a E w))
               = (trace w ++ [Called (campaignBudgets_create d) r])%list ->
             budget_name d =
               "Budget: " ++ name ++ " (" ++ JS.decimal (clock E (ticks w)) ++ ")").
  { intros a w d r H. unfold createCampaignBudget in H.
    unfold bind, Date_now, try_catch, await, throw in H.
    cbn [trace set_ticks] in H.
    destruct (platform E (trace w) _) in H; cbn [fst trace set_trace] in H;
      apply app_inv_head in H; injection H as <- _; reflexivity. }
  rewrite (Hreq _ _ _ _ H1), (Hreq _ _ _ _ H2) in Heq.
  apply (append_inv_head "Budget: ") in Heq.
  apply append_inv_head in Heq.
  apply (append_inv_head " (") in Heq.
  apply append_inv_last in Heq. apply decimal_inj in Heq.
  contradiction.
Qed.

Lemma budget_names_differ_with_the_clock_witness :
  let E := Scenario.working in
  let w1 := Scenario.empty_world in
  let w2 := set_ticks 5 Scenario.empty_world in
  let data t := mkBudgetData ("Budget: news (" ++ t ++ ")") 20000000 STANDARD in
  clock E (ticks w1) <> clock E (ticks w2) /\
  budget_name (data "1736942400000") <> budget_name (data "1736942400005").
Proof.
  intros E w1 w2 data.
  assert (H : clock E (ticks w1) <> clock E (ticks w2)) by discriminate.
  split; [exact H|].
  apply (budget_names_differ_with_the_clock "news" 20000000 20000000 E w1 w2
           (data "1736942400000") (data "1736942400005")
           (Resolved (Scenario.rn "campaignBudgets" "7"))
           (Resolved (Scenario.rn "campaignBudgets" "7")) H);
    reflexivity.
Defined.

End TextClaims.

(** ** The status of a classification; the runs of the saga *)

Module StatusFacts.
Import HttpStatus Classifier ClassifierSpec ClassifierFacts.

Lemma subErrorStatus_range : forall e s,
  subErrorStatus e = Ok (Some s) -> In s [400; 401; 403; 404; 429].
Proof.
  intros e s H. unfold subErrorStatus in H.
  destruct (errorCode_of e) as [errorCode|]; cbn [rbind] in H; [|discriminate].
  destruct (errorType_of errorCode) as [errorType|]; cbn [rbind] in H; [|discriminate].
  destruct (errorValue_of errorCode) as [errorValue|]; cbn [rbind] in H; [|discriminate].
  repeat match type of H with
         | (if ?b then _ else _) = _ => destruct b
         end;
    try discriminate; injection H as <-; cbn; tauto.
Qed.

Lemma determineStatusCode_range : forall errs s,
  determineStatusCode errs = Ok s -> In s [400; 401; 403; 404; 429].
Proof.
  induction errs as [|e errs IH]; intros s H.
  - injection H as <-. cbn. tauto.
  - rewrite determineStatusCode_cons in H.
    destruct (subErrorStatus e) as [[s'|]|] eqn:He; [|apply IH, H|discriminate].
    injection H as <-. apply (subErrorStatus_range e s' He).
Qed.

Lemma details_shape : forall error d,
  extractGoogleAdsErrorDetails error = Ok d ->
  (has_errors error = true ->
     In (statusCode d) [400; 401; 403; 404; 429] /\
     List.length (errors d)
       = List.length (JS.items_of (JS.get_opt error "errors"))) /\
  (has_errors error = false -> statusCode d = 500 /\ errors d = []).
Proof.
  intros error d H. unfold extractGoogleAdsErrorDetails in H.
  destruct (has_errors error).
  - split; [intros _|discriminate].
    destruct (mapR formatError (JS.items_of (JS.get_opt error "errors")))
      as [fes|] eqn:Hfes; cbn [rbind] in H; [|discriminate].
    destruct (determineStatusCode (JS.items_of (JS.get_opt error "errors")))
      as [s|] eqn:Hs; cbn [rbind] in H; [|discriminate].
    injection H as <-. cbn [statusCode errors]. split.
    + apply (determineStatusCode_range _ _ Hs).
    + apply (mapR_length _ _ _ Hfes).
  - split; [discriminate|intros _]. injection H as <-. split; reflexivity.
Qed.

End StatusFacts.

Module SagaRuns.
Import Platform HttpStatus Classifier ClassifierSpec ClassifierFacts FailureFacts.
Import SagaSpec GoogleAdsService SagaFacts StatusFacts TextSpec.

Lemma same_trace : forall t1 t2 w, set_trace t1 w = set_trace t2 w -> t1 = t2.
Proof. intros t1 t2 w H. injection H as H. exact H. Qed.



Lemma status_of_details : forall error d,
  extractGoogleAdsErrorDetails error = Ok d ->
  In (statusCode d) [400; 401; 403; 404; 429; 500].
Proof.
  intros error d Hd. destruct (details_shape _ _ Hd) as [Hyes Hno].
  destruct (has_errors error).
  - destruct (Hyes eq_refl) as [Hin _]. cbn [In] in Hin |- *. tauto.
  - destruct (Hno eq_refl) as [-> _]. cbn. tauto.
Qed.

(** X5. A classification has the status 500 when the payload has no usable
    list of sub-errors, and otherwise one of 400, 401, 403, 404 and 429,
    with one formatted error for each sub-error. *)
Theorem classification_status_and_count :
  forall error d,
    extractGoogleAdsErrorDetails error = Ok d ->
    (has_errors error = true ->
       In (statusCode d) [400; 401; 403; 404; 429] /\
       List.length (errors d)
         = List.length (JS.items_of (JS.get_opt error "errors"))) /\
    (has_errors error = false -> statusCode d = 500 /\ errors d = []).
Proof. intros error d H. apply (details_shape error d H). Qed.

Lemma classification_status_and_count_witness :
  let error := failure_value Scenario.quota_exceeded in
  let d := mkErrorDetails 429 (JStr "Too many requests")
             [mkFormattedError (JStr "quota_error") (JStr "RESOURCE_EXHAUSTED")
                (JStr "Too many requests") (JStr "operations") JNull]
             (JStr "req-1") in
  extractGoogleAdsErrorDetails error = Ok d /\
  (has_errors error = true ->
     In (statusCode d) [400; 401; 403; 404; 429] /\
     List.length (errors d)
       = List.length (JS.items_of (JS.get_opt error "errors"))) /\
  (has_errors error = false -> statusCode d = 500 /\ errors d = []).
Proof.
  intros error d.
  assert (H : extractGoogleAdsErrorDetails error = Ok d) by reflexivity.
  split; [exact H|].
  apply (classification_status_and_count error d H).
Defined.

(** What [createCampaign] throws. *)
Lemma createCampaign_thrown : forall config E w w' e,
  createCampaign config E w = (w', Throw e) ->
  ((exists m, e = TypeError m) \/
   (exists body st,
      e = HttpException body st /\
      In st [400; 401; 403; 404; 429; 500] /\
      JS.prop body "statusCode" = JNum st)) /\
  (sdk E ->
   exists body st,
     e = HttpException body st /\
     In st [400; 401; 403; 404; 429; 500] /\
     JS.prop body "statusCode" = JNum st).
Proof.
  intros config E w w' e H. split.
  - destruct (createCampaign_run config E w) as [evs [w1 [r [_ [_ [_ Hrun]]]]]].
    destruct r as [res|error]; [rewrite Hrun in H; discriminate|].
    destruct Hrun as [cleanup [out [_ [_ [Hte [_ Hcc]]]]]].
    rewrite Hcc in H. destruct out as [[]|e0].
    + pose proof (te_details (as_any error)) as Hd.
      destruct (extractGoogleAdsErrorDetails (as_any error)) as [d|e1] eqn:Hdet;
        injection H as _ <-.
      * right. eexists. eexists. split; [reflexivity|].
        split; [apply (status_of_details _ _ Hdet)|reflexivity].
      * left. apply (Hd e1 eq_refl).
    + injection H as _ <-. left. apply (Hte e0 eq_refl).
  - intros Hsdk.
    destruct (createCampaign_run_sdk config E w Hsdk)
      as [evs [w1 [r [_ [_ [_ Hrun]]]]]].
    destruct r as [res|error]; [rewrite Hrun in H; discriminate|].
    destruct Hrun as [cleanup [d [_ [_ [Hd Hcc]]]]].
    rewrite Hcc in H. injection H as _ <-.
    eexists. eexists. split; [reflexivity|].
    split; [apply (status_of_details _ _ Hd)|reflexivity].
Qed.

(** X6. When the platform rejects with the failure objects of its SDK,
    whatever [createCampaign] throws is an [HttpException] whose status is
    one of 400, 401, 403, 404, 429 and 500 and is the [statusCode] of its
    body.  With any other platform what it throws is such an exception or
    a TypeError. *)
Theorem createCampaign_throws_http_exceptions :
  forall config E w w' e,
    createCampaign config E w = (w', Throw e) ->
    ((exists m, e = TypeError m) \/
     (exists body st,
        e = HttpException body st /\
        In st [400; 401; 403; 404; 429; 500] /\
        JS.prop body "statusCode" = JNum st)) /\
    (sdk E ->
     exists body st,
       e = HttpException body st /\
       In st [400; 401; 403; 404; 429; 500] /\
       JS.prop body "statusCode" = JNum st).
Proof. intros config E w w' e H. apply (createCampaign_thrown config E w w' e H). Qed.

Lemma createCampaign_throws_http_exceptions_witness :
  let run := createCampaign Scenario.config Scenario.failing Scenario.empty_world in
  sdk Scenario.failing /\
  exists e body st,
    snd run = Throw e /\
    e = HttpException body st /\
    In st [400; 401; 403; 404; 429; 500] /\
    JS.prop body "statusCode" = JNum st.
Proof.
  intros run. split; [exact ScenarioFacts.failing_sdk|].
  assert (Hrun : exists e, run = (fst run, Throw e))
    by (eexists; vm_compute; reflexivity).
  destruct Hrun as [e Hrun].
  destruct (createCampaign_throws_http_exceptions
              Scenario.config Scenario.failing Scenario.empty_world (fst run) e Hrun)
    as [_ Hsdk].
  destruct (Hsdk ScenarioFacts.failing_sdk) as [body [st [He [Hst Hbody]]]].
  exists e, body, st. rewrite Hrun.
  split; [reflexivity|]. split; [exact He|]. split; [exact Hst|exact Hbody].
Defined.





(** X9. A successful run is five accepted requests and nothing else: the
    budget, the campaign on that budget, the ad group in that campaign,
    the keywords and the ad in that ad group.  The result names the
    campaign and gives the last segments of the names of the campaign and
    of the ad group as ids. *)
Theorem successful_run_is_five_creations :
  forall config E w w' res,
    createCampaign config E w = (w', Ok res) ->
    exists nb nc ng nk na sd ed,
      formatDate (cfg_startDate config) = Ok sd /\
      formatDate (cfg_endDate config) = Ok ed /\
      trace w' =
        (trace w ++
           [Called (campaignBudgets_create (budgetData E w config)) (Resolved nb);
            Called (campaigns_create (campaignData config (resource_name nb) sd ed))
                   (Resolved nc);
            Called (adGroups_create (adGroupData config (resource_name nc)))
                   (Resolved ng);
            Called (adGroupCriteria_create (keywordOperations config (resource_name ng)))
                   (Resolved nk);
            Called (adGroupAds_create (adData config (resource_name ng)))
                   (Resolved na)])%list /\
      resourceName res = resource_name nc /\
      campaignId res = extractId (resource_name nc) /\
      adGroupId res = extractId (resource_name ng) /\
      (free_of "/" (resource_id nc) = true -> campaignId res = resource_id nc).
Proof.
  intros config E w w' res H.
  destruct (createCampaign_trace config E w)
    as [evs [w1 [r [cleanup [w2 [r2 [Hp [[Htr _] [Hout [Hrun [_ [_ [_ [_ Hres]]]]]]]]]]]]]].
  rewrite H in Hrun. injection Hrun as <- <-.
  pose proof (Hres res eq_refl) as Hr. subst r.
  assert (Hw : w' = w1).
  { rewrite createCampaign_unfold, Hp in H. injection H as <-. reflexivity. }
  subst w'.
  inversion Hout; subst.
  exists nb, nc, ng, nk, na, sd, ed.
  split; [assumption|]. split; [assumption|]. split; [exact Htr|].
  cbn [resourceName campaignId adGroupId].
  repeat split.
  intros Hfree. unfold extractId, Str.split, resource_name.
  replace ("customers/" ++ customer nc ++ "/" ++ collection nc ++ "/" ++ resource_id nc)
    with (("customers/" ++ customer nc ++ "/" ++ collection nc) ++
          String "/" (resource_id nc))
    by (rewrite !DateFacts.append_assoc; reflexivity).
  apply (TextFacts.last_piece_after "/" _ Hfree).
Qed.

Lemma successful_run_is_five_creations_witness :
  let config := Scenario.config in
  let E := Scenario.working in
  let w := Scenario.empty_world in
  let res := mkCampaignResult "42" "5" CampaignStatus.PAUSED
                              "customers/123/campaigns/42" in
  snd (createCampaign config E w) = Ok res /\
  exists nb nc ng nk na sd ed,
    formatDate (cfg_startDate config) = Ok sd /\
    formatDate (cfg_endDate config) = Ok ed /\
    trace (fst (createCampaign config E w)) =
      (trace w ++
         [Called (campaignBudgets_create (budgetData E w config)) (Resolved nb);
          Called (campaigns_create (campaignData config (resource_name nb) sd ed))
                 (Resolved nc);
          Called (adGroups_create (adGroupData config (resource_name nc)))
                 (Resolved ng);
          Called (adGroupCriteria_create (keywordOperations config (resource_name ng)))
                 (Resolved nk);
          Called (adGroupAds_create (adData config (resource_name ng)))
                 (Resolved na)])%list /\
    resourceName res = resource_name nc /\
    campaignId res = extractId (resource_name nc) /\
    adGroupId res = extractId (resource_name ng) /\
    (free_of "/" (resource_id nc) = true -> campaignId res = resource_id nc).
Proof.
  intros config E w res. split; [reflexivity|].
  apply (successful_run_is_five_creations config E w
           (fst (createCampaign config E w)) res).
  reflexivity.
Defined.

End SagaRuns.

(** ** More on the scorer and the matcher *)

Module MatcherMore.
Import ArticlesService MatcherSpec MatcherFacts SortFacts MatcherRun TextSpec.

Lemma fold_left_map : forall {A B S} (g : A -> B) (f : S -> B -> S) l s,
  fold_left (fun acc x => f acc (g x)) l s = fold_left f (map g l) s.
Proof.
  intros A B S g f. induction l as [|x l IH]; intros s; [reflexivity|].
  cbn [map fold_left]. apply IH.
Qed.

(** The keyword loop reads the keywords in lower case only. *)
Lemma add_keyword_lower : forall ws rs kws s,
  add_keyword_matches ws rs kws s =
    fold_left (fun score k => add_related_matches rs k (add_word_matches ws k score))
              (map Str.toLowerCase kws) s.
Proof.
  intros ws rs kws s. unfold add_keyword_matches.
  apply (fold_left_map Str.toLowerCase
           (fun score k => add_related_matches rs k (add_word_matches ws k score))).
Qed.

Lemma recent_scores : forall now p trend article,
  publishedAt article = Some p ->
  now - p < 72 * msPerHour ->
  0 < relevance now trend article.
Proof.
  intros now p trend article Hp Hrecent.
  rewrite relevance_split.
  destruct (points_nonnegative trend article) as [Ht [Hw Hr]].
  assert (1 <= recency_points now article).
  { unfold recency_points, add_recency. rewrite Hp.
    destruct (now - p <? 24 * msPerHour); [lia|].
    destruct (Z.ltb_spec (now - p) (72 * msPerHour)); lia. }
  lia.
Qed.

Lemma enumeration_all : forall E pairs k,
  (forall t a n, In (t, a) pairs -> 0 < relevance (clock E n) t a) ->
  map (fun m => (trend m, article m)) (enumeration E k pairs) = pairs.
Proof.
  intros E. induction pairs as [|[t a] pairs IH]; intros k H; [reflexivity|].
  cbn [enumeration].
  destruct (Z.ltb_spec 0 (relevance (clock E k) t a)) as [_|Hle].
  - cbn [map trend article]. f_equal. apply IH.
    intros t' a' n Hin. apply H. right. exact Hin.
  - specialize (H t a k (or_introl eq_refl)). lia.
Qed.

(** X10. The score does not depend on the case of the letters of the trend
    keyword, of the related queries, of the title and of the keywords of
    the article. *)
Theorem score_ignores_case :
  forall trend1 trend2 article1 article2 E w,
    same_letters (keyword trend1) (keyword trend2) ->
    Forall2 same_letters (relatedQueries trend1) (relatedQueries trend2) ->
    same_letters (title article1) (title article2) ->
    Forall2 same_letters (keywords article1) (keywords article2) ->
    publishedAt article1 = publishedAt article2 ->
    calculateRelevanceScore trend1 article1 E w =
    calculateRelevanceScore trend2 article2 E w.
Proof.
  intros t1 t2 a1 a2 E w Hk Hr Ht Hks Hp.
  assert (Hmap : forall l1 l2, Forall2 same_letters l1 l2 ->
                               map Str.toLowerCase l1 = map Str.toLowerCase l2).
  { induction 1 as [|x y l1 l2 Hxy _ IH]; [reflexivity|].
    cbn [map]. rewrite Hxy, IH. reflexivity. }
  rewrite !calculateRelevanceScore_run. f_equal. f_equal.
  unfold relevance. rewrite !add_keyword_lower.
  unfold same_letters in Hk, Ht.
  rewrite Hk, Ht, Hp, (Hmap _ _ Hr), (Hmap _ _ Hks). reflexivity.
Qed.

Lemma score_ignores_case_witness :
  let shouted :=
    mkArticle "a9" "ELECCIONES 2025: RESULTADOS PRELIMINARES"
              "https://tumedio.com/elecciones-2025"
              ["Elecciones"; "RESULTADOS"] "politica"
              (Some (Scenario.noon - Scenario.hour)) None in
  calculateRelevanceScore Cases.vote shouted Scenario.working Scenario.empty_world =
  calculateRelevanceScore Cases.vote_lower Scenario.elections
                          Scenario.working Scenario.empty_world.
Proof.
  intros shouted.
  apply (score_ignores_case Cases.vote Cases.vote_lower shouted Scenario.elections
           Scenario.working Scenario.empty_world);
    repeat constructor.
Defined.

(** X11. An article published less than 72 hours before the clock is read
    scores at least 1 with any trend: when all articles of the catalogue
    are that recent, every trend is matched with every article, whatever
    their texts. *)
Theorem recent_articles_match_every_trend :
  forall trends E w,
    (forall a, In a (findAll w) ->
       exists p, publishedAt a = Some p /\
                 forall n, clock E n - p < 72 * msPerHour) ->
    exists w' result,
      matchWithTrends trends E w = (w', Ok result) /\
      Permutation (map (fun m => (trend m, article m)) result)
                  (list_prod trends (findAll w)) /\
      List.length result = (List.length trends * List.length (findAll w))%nat.
Proof.
  intros trends E w Hrecent. rewrite matchWithTrends_run.
  eexists. eexists. split; [reflexivity|].
  assert (Hall : map (fun m => (trend m, article m))
                   (enumeration E (ticks w) (list_prod trends (findAll w)))
                 = list_prod trends (findAll w)).
  { apply enumeration_all. intros t a n Hin.
    apply in_prod_iff in Hin as [_ Ha].
    destruct (Hrecent a Ha) as [p [Hp Hn]].
    apply (recent_scores _ p t a Hp (Hn n)). }
  assert (Hperm : Permutation
                    (map (fun m => (trend m, article m))
                       (JSArray.sort compare_matches
                          (enumeration E (ticks w) (list_prod trends (findAll w)))))
                    (list_prod trends (findAll w))).
  { rewrite <- Hall at 2. apply Permutation_map, sort_perm. }
  split; [exact Hperm|].
  rewrite <- (length_map (fun m => (trend m, article m))).
  rewrite (Permutation_length Hperm). apply length_prod.
Qed.

Lemma recent_articles_match_every_trend_witness :
  exists w' result,
    matchWithTrends [Cases.football; Cases.vote] Cases.still Cases.morning
      = (w', Ok result) /\
    Permutation (map (fun m => (trend m, article m)) result)
                (list_prod [Cases.football; Cases.vote] (findAll Cases.morning)) /\
    List.length result
      = (List.length [Cases.football; Cases.vote]
         * List.length (findAll Cases.morning))%nat.
Proof.
  apply (recent_articles_match_every_trend
           [Cases.football; Cases.vote] Cases.still Cases.morning).
  intros a [<-|[<-|[]]]; eexists; (split; [reflexivity|]);
    intros n; cbn; unfold Scenario.noon, Scenario.hour, msPerHour; lia.
Defined.

Lemma fold_left_le : forall {A} (f g : Z -> A -> Z),
  (forall s x, f s x <= g s x) ->
  (forall s s' x, s <= s' -> g s x <= g s' x) ->
  forall l s s', s <= s' -> fold_left f l s <= fold_left g l s'.
Proof.
  intros A f g Hfg Hg. induction l as [|x l IH]; intros s s' Hs; cbn [fold_left].
  - exact Hs.
  - apply IH. specialize (Hfg s x). specialize (Hg s s' x Hs). lia.
Qed.

Lemma add_related_more : forall rs extra k s s',
  s <= s' ->
  add_related_matches rs k s <= add_related_matches (rs ++ extra) k s'.
Proof.
  intros rs extra k s s' Hs. unfold add_related_matches at 2.
  rewrite fold_left_app. fold (add_related_matches rs k s').
  match goal with
  | |- _ <= fold_left ?f extra ?x => fold (add_related_matches extra k x)
  end.
  pose proof (add_related_grows extra k (add_related_matches rs k s')).
  rewrite (add_related_shift rs k s), (add_related_shift rs k s') in *. lia.
Qed.

Lemma add_recency_le : forall now p s s',
  s <= s' -> add_recency now p s <= add_recency now p s'.
Proof.
  intros now p s s' H.
  rewrite (proj1 (add_recency_split now p s)), (proj1 (add_recency_split now p s')).
  lia.
Qed.

Lemma add_keyword_more_keywords : forall ws rs kws more s,
  add_keyword_matches ws rs kws s <= add_keyword_matches ws rs (kws ++ more) s.
Proof.
  intros ws rs kws more s. unfold add_keyword_matches. rewrite fold_left_app.
  apply fold_left_grows. intros s0 k.
  apply (Z.le_trans _ _ _ (add_word_grows ws _ s0) (add_related_grows rs _ _)).
Qed.

Lemma add_keyword_more_queries : forall ws rs more kws s,
  add_keyword_matches ws rs kws s <= add_keyword_matches ws (rs ++ more) kws s.
Proof.
  intros ws rs more kws s. unfold add_keyword_matches.
  apply fold_left_le; [| |lia].
  - intros s0 k. apply add_related_more. lia.
  - intros s0 s1 k Hs.
    rewrite (add_related_shift _ _ (add_word_matches _ _ s0)),
            (add_related_shift _ _ (add_word_matches _ _ s1)),
            (add_word_shift _ _ s0), (add_word_shift _ _ s1). lia.
Qed.

(** X27. More keywords of the article, or more related queries of the trend,
    never lower the score. *)
Theorem more_texts_never_lower_the_score :
  forall trend article more_keywords more_queries E w,
    let richer_article :=
      mkArticle (art_id article) (title article) (url article)
                (keywords article ++ more_keywords) (category article)
                (publishedAt article) (shortDescription article) in
    let richer_trend :=
      mkTrendingSearch (keyword trend) (traffic trend)
                       (relatedQueries trend ++ more_queries) (trend_articles trend) in
    exists w' s s1 s2,
      calculateRelevanceScore trend article E w = (w', Ok s) /\
      calculateRelevanceScore trend richer_article E w = (w', Ok s1) /\
      calculateRelevanceScore richer_trend article E w = (w', Ok s2) /\
      s <= s1 /\ s <= s2.
Proof.
  intros trend article more_keywords more_queries E w richer_article richer_trend.
  rewrite !calculateRelevanceScore_run.
  eexists. eexists. eexists. eexists.
  split; [reflexivity|]. split; [reflexivity|]. split; [reflexivity|].
  unfold relevance. subst richer_article richer_trend.
  cbn [keywords title publishedAt keyword relatedQueries].
  split; apply add_recency_le.
  - apply add_keyword_more_keywords.
  - rewrite map_app. apply add_keyword_more_queries.
Qed.

End MatcherMore.

(** ** Letters and their case *)

Module CaseFacts.
Import TextSpec.

Lemma is_upper_capital : forall c, Str.is_upper c = capital (Str.code c).
Proof. reflexivity. Qed.

Lemma capital_bound : forall n, capital n = true -> (n + 32 < 256)%nat.
Proof.
  intros n H. unfold capital in H.
  repeat match type of H with
         | (_ || _)%bool = true => apply orb_prop in H as [H|H]
         | (_ && _)%bool = true => apply andb_prop in H as [_ H]
         end;
    apply Nat.leb_le in H; lia.
Qed.

Lemma capital_not_small : forall n, capital n = true -> capital (n + 32) = false.
Proof.
  intros n H. unfold capital in *.
  repeat match type of H with
         | (_ || _)%bool = true => apply orb_prop in H as [H|H]
         end;
    apply andb_prop in H as [H1 H2];
    apply Nat.leb_le in H1; apply Nat.leb_le in H2;
    repeat match goal with
           | |- context [Nat.leb ?a ?b] => destruct (Nat.leb_spec a b)
           end; try reflexivity; lia.
Qed.

(** The code unit that [toLowerCase] makes of a code unit. *)
Lemma code_lower : forall c,
  Str.code (Str.lower_char c) =
    if capital (Str.code c) then (Str.code c + 32)%nat else Str.code c.
Proof.
  intros c. unfold Str.lower_char. rewrite is_upper_capital.
  destruct (capital (Str.code c)) eqn:H; [|reflexivity].
  apply nat_ascii_embedding, capital_bound, H.
Qed.

Lemma code_inj : forall c d, Str.code c = Str.code d -> c = d.
Proof.
  intros c d H. unfold Str.code in H.
  rewrite <- (ascii_nat_embedding c), <- (ascii_nat_embedding d), H. reflexivity.
Qed.

(** Two code units become the same code unit just when they are the same
    letter. *)
Lemma same_letter_lower : forall c d,
  same_letter c d <-> Str.lower_char c = Str.lower_char d.
Proof.
  intros c d. split.
  - intros [->|[[Hc Hd]|[Hd Hc]]]; [reflexivity| |];
      apply code_inj; rewrite !code_lower.
    + rewrite Hc, Hd, (capital_not_small _ Hc). reflexivity.
    + rewrite Hd, Hc, (capital_not_small _ Hd). reflexivity.
  - intros H. apply (f_equal Str.code) in H. rewrite !code_lower in H.
    unfold same_letter.
    destruct (capital (Str.code c)) eqn:Hc, (capital (Str.code d)) eqn:Hd.
    + left. apply code_inj. lia.
    + right. left. split; [reflexivity|]. symmetry. exact H.
    + right. right. split; [reflexivity|]. exact H.
    + left. apply code_inj, H.
Qed.

(** Two texts become the same text just when they are alike. *)
Lemma alike_lower : forall s t,
  alike s t <-> Str.toLowerCase s = Str.toLowerCase t.
Proof.
  intros s t. split.
  - induction 1 as [|c d s t Hcd _ IH]; [reflexivity|].
    cbn [Str.toLowerCase]. apply same_letter_lower in Hcd. rewrite Hcd, IH.
    reflexivity.
  - revert t. induction s as [|c s IH]; intros [|d t] H; try discriminate.
    + constructor.
    + cbn [Str.toLowerCase] in H. injection H as Hc Hs.
      constructor; [apply same_letter_lower, Hc|apply IH, Hs].
Qed.

Lemma toLowerCase_app : forall a b,
  Str.toLowerCase (a ++ b) = Str.toLowerCase a ++ Str.toLowerCase b.
Proof.
  induction a as [|c a IH]; intros b; [reflexivity|].
  cbn [append Str.toLowerCase]. rewrite IH. reflexivity.
Qed.

Lemma toLowerCase_parts : forall a b s,
  Str.toLowerCase s = a ++ b ->
  exists s1 s2, s = s1 ++ s2 /\ Str.toLowerCase s1 = a /\ Str.toLowerCase s2 = b.
Proof.
  induction a as [|c a IH]; intros b s H.
  - exists EmptyString, s. repeat split. exact H.
  - destruct s as [|x s]; [discriminate|].
    cbn [append Str.toLowerCase] in H. injection H as Hx Hs.
    destruct (IH b s Hs) as [s1 [s2 [-> [H1 H2]]]].
    exists (String x s1), s2. cbn [append Str.toLowerCase].
    rewrite Hx, H1. repeat split. exact H2.
Qed.

Lemma prefix_app : forall t s,
  String.prefix t s = true <-> exists after, s = t ++ after.
Proof.
  induction t as [|c t IH]; intros s.
  - split; [intros _; exists s; reflexivity|intros _; destruct s; reflexivity].
  - destruct s as [|d s]; cbn [String.prefix append].
    + split; [discriminate|intros [after H]; discriminate].
    + destruct (ascii_dec c d) as [->|Hne].
      * rewrite IH. split; intros [after H]; exists after.
        -- rewrite H. reflexivity.
        -- injection H as H. exact H.
      * split; [discriminate|]. intros [after H]. injection H as H _.
        congruence.
Qed.

(** [s.includes(t)] holds just when [t] is a part of [s]. *)
Lemma includes_part : forall s t,
  Str.includes s t = true <-> exists before after, s = before ++ t ++ after.
Proof.
  induction s as [|c s IH]; intros t.
  - cbn [Str.includes]. split.
    + intros H. destruct (String.prefix t "") eqn:Hp; [|discriminate].
      apply prefix_app in Hp as [after Hp]. exists EmptyString, after. exact Hp.
    + intros [before [after H]].
      destruct before; [|discriminate].
      assert (Hp : String.prefix t "" = true) by (apply prefix_app; eauto).
      rewrite Hp. reflexivity.
  - cbn [Str.includes]. destruct (String.prefix t (String c s)) eqn:Hp.
    + split; [intros _|reflexivity].
      apply prefix_app in Hp as [after Hp]. exists EmptyString, after. exact Hp.
    + rewrite IH. split.
      * intros [before [after ->]]. exists (String c before), after. reflexivity.
      * intros [[|x before] [after H]].
        -- assert (Hp' : String.prefix t (String c s) = true)
             by (apply prefix_app; eauto).
           congruence.
        -- injection H as _ H. eauto.
Qed.

(** The test of [findByKeyword]. *)
Lemma includes_alike : forall k kw,
  Str.includes (Str.toLowerCase k) (Str.toLowerCase kw) = true <->
  contains_alike k kw.
Proof.
  intros k kw. rewrite includes_part. unfold contains_alike. split.
  - intros [before [after H]].
    apply toLowerCase_parts in H as [s1 [s23 [-> [H1 H23]]]].
    apply toLowerCase_parts in H23 as [s2 [s3 [-> [H2 H3]]]].
    exists s1, s2, s3. split; [reflexivity|apply alike_lower, H2].
  - intros [before [part [after [-> H]]]].
    apply alike_lower in H.
    exists (Str.toLowerCase before), (Str.toLowerCase after).
    rewrite !toLowerCase_app, H. reflexivity.
Qed.

End CaseFacts.

(** ** The catalogue *)

Module CatalogueFacts.
Import ArticlesService CatalogueSpec MapFacts.

Ltac step :=
  cbv beta iota zeta delta
      [bind ret throw try_catch lift gets modify asks Date_now Date_new
       set_trace set_ticks set_campaigns set_articles];
  cbn [trace ticks campaigns articles budgetResourceName campaignResourceName].

Lemma has_get : forall {V} k (m : list (string * V)),
  JSMap.has k m = match JSMap.get k m with Some _ => true | None => false end.
Proof. reflexivity. Qed.

Lemma get_in_keys : forall {V} k (m : list (string * V)) v,
  JSMap.get k m = Some v -> In k (JSMap.keys m).
Proof.
  intros V k. induction m as [|[k' v'] m IH]; intros v H; [discriminate|].
  cbn in H |- *. destruct (String.eqb_spec k k') as [->|Hne]; [left; reflexivity|].
  right. apply (IH v H).
Qed.

Lemma get_none_keys : forall {V} k (m : list (string * V)),
  JSMap.get k m = None -> ~ In k (JSMap.keys m).
Proof.
  intros V k. induction m as [|[k' v'] m IH]; intros H Hin; [exact Hin|].
  cbn in H, Hin. destruct (String.eqb_spec k k') as [->|Hne]; [discriminate|].
  destruct Hin as [Heq|Hin]; [congruence|]. apply (IH H Hin).
Qed.

Lemma keys_adjust : forall {V} k (f : V -> V) m,
  JSMap.keys (JSMap.adjust k f m) = JSMap.keys m.
Proof.
  intros V k f. induction m as [|[k' v'] m IH]; [reflexivity|].
  cbn [JSMap.adjust]. destruct (k =? k')%string; [reflexivity|].
  cbn [JSMap.keys map fst]. f_equal. exact IH.
Qed.

Lemma get_adjust_other : forall {V} k k' (f : V -> V) m,
  k' <> k -> JSMap.get k' (JSMap.adjust k f m) = JSMap.get k' m.
Proof.
  intros V k k' f m Hne. induction m as [|[k0 v0] m IH]; [reflexivity|].
  cbn [JSMap.adjust]. destruct (String.eqb_spec k k0) as [->|Hk].
  - cbn [JSMap.get]. destruct (String.eqb_spec k' k0); [contradiction|reflexivity].
  - cbn [JSMap.get]. destruct (k' =? k0)%string; [reflexivity|exact IH].
Qed.

Lemma get_set_other : forall {V} k k' (v : V) m,
  k' <> k -> JSMap.get k' (JSMap.set k v m) = JSMap.get k' m.
Proof.
  intros V k k' v m Hne. unfold JSMap.set.
  destruct (JSMap.has k m); [apply get_adjust_other, Hne|].
  induction m as [|[k0 v0] m IH]; cbn [app JSMap.get].
  - destruct (String.eqb_spec k' k); [contradiction|reflexivity].
  - destruct (k' =? k0)%string; [reflexivity|exact IH].
Qed.

Lemma get_delete_other : forall {V} k k' (m : list (string * V)),
  k' <> k -> JSMap.get k' (JSMap.delete k m) = JSMap.get k' m.
Proof.
  intros V k k' m Hne. induction m as [|[k0 v0] m IH]; [reflexivity|].
  cbn [JSMap.delete]. destruct (String.eqb_spec k k0) as [->|Hk].
  - cbn [JSMap.get]. destruct (String.eqb_spec k' k0); [contradiction|reflexivity].
  - cbn [JSMap.get]. destruct (k' =? k0)%string; [reflexivity|exact IH].
Qed.

Lemma keys_delete_incl : forall {V} k (m : list (string * V)) x,
  In x (JSMap.keys (JSMap.delete k m)) -> In x (JSMap.keys m).
Proof.
  intros V k. induction m as [|[k0 v0] m IH]; intros x H; [exact H|].
  cbn [JSMap.delete] in H. destruct (k =? k0)%string.
  - right. exact H.
  - destruct H as [H|H]; [left; exact H|right; apply IH, H].
Qed.

Lemma wf_delete : forall {V} k (m : list (string * V)),
  JSMap.wf m -> JSMap.wf (JSMap.delete k m).
Proof.
  intros V k. unfold JSMap.wf.
  induction m as [|[k0 v0] m IH]; intros H; [exact H|].
  cbn [JSMap.keys map fst] in H. inversion H as [|x l Hnot Hnd]; subst.
  cbn [JSMap.delete]. destruct (k =? k0)%string; [exact Hnd|].
  cbn [JSMap.keys map fst]. constructor; [|apply IH, Hnd].
  intros Hin. apply Hnot. apply (keys_delete_incl k m _ Hin).
Qed.

Lemma get_delete_same : forall {V} k (m : list (string * V)),
  JSMap.wf m -> JSMap.get k (JSMap.delete k m) = None.
Proof.
  intros V k. unfold JSMap.wf.
  induction m as [|[k0 v0] m IH]; intros H; [reflexivity|].
  cbn [JSMap.keys map fst] in H. inversion H as [|x l Hnot Hnd]; subst.
  cbn [JSMap.delete]. destruct (String.eqb_spec k k0) as [->|Hk].
  - destruct (JSMap.get k0 m) as [v|] eqn:Hg; [|reflexivity].
    exfalso. apply Hnot. apply (get_in_keys _ _ _ Hg).
  - cbn [JSMap.get]. destruct (String.eqb_spec k k0); [contradiction|].
    apply IH, Hnd.
Qed.

Lemma length_delete : forall {V} k (m : list (string * V)) v,
  JSMap.get k m = Some v ->
  S (List.length (JSMap.delete k m)) = List.length m.
Proof.
  intros V k. induction m as [|[k0 v0] m IH]; intros v H; [discriminate|].
  cbn [JSMap.get] in H. cbn [JSMap.delete].
  destruct (k =? k0)%string; [reflexivity|].
  cbn [List.length]. f_equal. apply (IH v H).
Qed.

Lemma wf_set : forall {V} k (v : V) m, JSMap.wf m -> JSMap.wf (JSMap.set k v m).
Proof.
  intros V k v m H. unfold JSMap.set. rewrite has_get.
  destruct (JSMap.get k m) as [v0|] eqn:Hg.
  - unfold JSMap.wf. rewrite keys_adjust. exact H.
  - unfold JSMap.wf in *. rewrite keys_app. cbn [JSMap.keys map fst].
    apply NoDup_app; [exact H|repeat constructor; intros []|].
    intros x Hx [<-|[]]. apply (get_none_keys _ _ Hg Hx).
Qed.

Lemma Forall_adjust : forall {V} (P : string * V -> Prop) k (f : V -> V) m,
  (forall v, P (k, v) -> P (k, f v)) ->
  Forall P m -> Forall P (JSMap.adjust k f m).
Proof.
  intros V P k f m Hf. induction 1 as [|[k0 v0] m Hx Hm IH]; [constructor|].
  cbn [JSMap.adjust]. destruct (String.eqb_spec k k0) as [->|Hk].
  - constructor; [apply Hf, Hx|assumption].
  - constructor; assumption.
Qed.

Lemma Forall_delete : forall {V} (P : string * V -> Prop) k m,
  Forall P m -> Forall P (JSMap.delete k m).
Proof.
  intros V P k m. induction 1 as [|[k0 v0] m Hx Hm IH]; [constructor|].
  cbn [JSMap.delete]. destruct (k =? k0)%string; [exact Hm|].
  constructor; assumption.
Qed.

Lemma Forall_set : forall {V} (P : string * V -> Prop) k (v : V) m,
  P (k, v) -> Forall P m -> Forall P (JSMap.set k v m).
Proof.
  intros V P k v m Hv Hm. unfold JSMap.set.
  destruct (JSMap.has k m).
  - apply Forall_adjust; [intros _ _; exact Hv|exact Hm].
  - apply Forall_app. split; [exact Hm|repeat constructor; exact Hv].
Qed.

Lemma values_set_absent : forall {V} k (v : V) m,
  JSMap.get k m = None ->
  JSMap.values (JSMap.set k v m) = (JSMap.values m ++ [v])%list.
Proof.
  intros V k v m H. unfold JSMap.set. rewrite has_get, H.
  unfold JSMap.values. rewrite map_app. reflexivity.
Qed.

Lemma length_set_present : forall {V} k (v v0 : V) m,
  JSMap.get k m = Some v0 ->
  List.length (JSMap.values (JSMap.set k v m)) = List.length (JSMap.values m).
Proof.
  intros V k v v0 m H. unfold JSMap.set. rewrite has_get, H.
  unfold JSMap.values. rewrite !length_map.
  rewrite <- (length_map fst (JSMap.adjust _ _ _)), <- (length_map fst m).
  change (map fst (JSMap.adjust k (fun _ => v) m))
    with (JSMap.keys (JSMap.adjust k (fun _ => v) m)).
  rewrite keys_adjust. reflexivity.
Qed.

Lemma lower_char_twice : forall c, Str.lower_char (Str.lower_char c) = Str.lower_char c.
Proof. intros [[] [] [] [] [] [] [] []]; reflexivity. Qed.

Lemma toLowerCase_twice : forall s,
  Str.toLowerCase (Str.toLowerCase s) = Str.toLowerCase s.
Proof.
  induction s as [|c s IH]; [reflexivity|].
  cbn [Str.toLowerCase]. rewrite lower_char_twice, IH. reflexivity.
Qed.

(** A run of [create]. *)
Lemma create_run : forall random dto E w,
  create random dto E w =
    (set_articles
       (JSMap.set (art_id (created random E (ticks w) dto))
                  (created random E (ticks w) dto) (articles w))
       (set_ticks (S (S (ticks w))) w),
     Ok (created random E (ticks w) dto)).
Proof. reflexivity. Qed.

Lemma bulkCreate_run : forall random E dtos w,
  exists w',
    bulkCreate random dtos E w = (w', Ok (created_all random E (ticks w) dtos)) /\
    ticks w' = (ticks w + 2 * List.length dtos)%nat /\
    trace w' = trace w /\ campaigns w' = campaigns w /\
    (JSMap.wf (articles w) -> JSMap.wf (articles w')) /\
    (Forall own_id (articles w) -> Forall own_id (articles w')) /\
    Forall (fun a => JSMap.has (art_id a) (articles w') = true)
           (created_all random E (ticks w) dtos) /\
    (forall id, JSMap.has id (articles w) = true ->
                JSMap.has id (articles w') = true).
Proof.
  intros random E. unfold bulkCreate.
  induction dtos as [|dto dtos IH]; intros w; cbn [mapM created_all List.length].
  - exists w. unfold ret. rewrite Nat.add_0_r.
    do 4 (split; [reflexivity|]).
    split; [intros H; exact H|]. split; [intros H; exact H|].
    split; [constructor|]. intros id H. exact H.
  - unfold bind at 1. rewrite create_run. cbv beta iota.
    unfold bind at 1.
    match goal with
    | |- context [mapM _ dtos E ?w1] =>
        destruct (IH w1)
          as [w' [Hrun [Hticks [Htrace [Hcamp [Hwf [Hinv [Hall Hkeep]]]]]]]]
    end.
    cbn [ticks trace campaigns articles set_articles set_ticks] in *.
    exists w'. rewrite Hrun. unfold ret.
    split; [reflexivity|]. split; [lia|].
    split; [exact Htrace|]. split; [exact Hcamp|].
    split; [|split; [|split]].
    + intros H. apply Hwf, wf_set, H.
    + intros H. apply Hinv, Forall_set; [reflexivity|exact H].
    + constructor; [|exact Hall].
      apply Hkeep. rewrite has_get, get_set. reflexivity.
    + intros id Hid. apply Hkeep. rewrite has_get in Hid |- *.
      destruct (String.eqb_spec id
                  (art_id (created random E (ticks w) dto))) as [->|Hne].
      * rewrite get_set. reflexivity.
      * rewrite (get_set_other _ _ _ _ Hne). exact Hid.
Qed.

End CatalogueFacts.

Module CatalogueClaims.
Import ArticlesService CatalogueSpec MapFacts CatalogueFacts TextSpec.

(** X12. [create] always returns: the article has the fields of the request, an
    id made of the clock reading and the random draw, and the next clock
    reading as date of publication; it is then found under its id, the
    other ids are found as before.  A new id is appended to the
    catalogue; an id that was there has its article replaced. *)
Theorem created_article_is_found :
  forall random dto E w,
    exists article w',
      create random dto E w = (w', Ok article) /\
      article = created random E (ticks w) dto /\
      findOne (art_id article) w' = Some article /\
      (forall id, id <> art_id article -> findOne id w' = findOne id w) /\
      (findOne (art_id article) w = None ->
         findAll w' = (findAll w ++ [article])%list) /\
      (forall old, findOne (art_id article) w = Some old ->
         List.length (findAll w') = List.length (findAll w)) /\
      trace w' = trace w /\ campaigns w' = campaigns w.
Proof.
  intros random dto E w. eexists. eexists.
  split; [apply create_run|]. split; [reflexivity|].
  unfold findOne, findAll. cbn [articles set_articles set_ticks].
  split; [apply get_set|].
  split; [intros id Hne; apply get_set_other, Hne|].
  split; [apply values_set_absent|].
  split; [intros old; apply length_set_present|].
  split; reflexivity.
Qed.

(** X13. [remove] throws a [NotFoundException] for an id that is not in the
    catalogue and changes nothing; for an id that is there it deletes the
    article, which is not found any more, and leaves the others. *)
Theorem removed_article_is_gone :
  forall id E w,
    JSMap.wf (articles w) ->
    (findOne id w = None ->
       remove id E w = (w, Throw (NotFoundException ("Article not found: " ++ id))) /\
       ArticlesController.remove id E w
         = (w, Throw (NotFoundException ("Article not found: " ++ id)))) /\
    (forall a, findOne id w = Some a ->
       exists w',
         remove id E w = (w', Ok tt) /\
         ArticlesController.remove id E w
           = (w', Ok ("Article " ++ id ++ " removed successfully")) /\
         findOne id w' = None /\
         (forall id', id' <> id -> findOne id' w' = findOne id' w) /\
         S (List.length (findAll w')) = List.length (findAll w) /\
         trace w' = trace w /\ campaigns w' = campaigns w).
Proof.
  intros id E w Hwf. unfold ArticlesController.remove, findOne, findAll, remove.
  split.
  - intros H. step. rewrite has_get, H. split; reflexivity.
  - intros a H. eexists. split; [step; rewrite has_get, H; reflexivity|].
    split; [step; rewrite has_get, H; reflexivity|].
    cbn [articles].
    split; [apply get_delete_same, Hwf|].
    split; [intros id' Hne; apply get_delete_other, Hne|].
    split; [|split; reflexivity].
    unfold JSMap.values. rewrite !length_map. apply (length_delete id _ a H).
Qed.

Lemma removed_article_is_gone_witness :
  let w := Scenario.empty_world in
  JSMap.wf (articles w) /\
  (findOne "a2" w = None ->
     remove "a2" Scenario.working w
       = (w, Throw (NotFoundException ("Article not found: " ++ "a2"))) /\
     ArticlesController.remove "a2" Scenario.working w
       = (w, Throw (NotFoundException ("Article not found: " ++ "a2")))) /\
  (forall a, findOne "a2" w = Some a ->
     exists w',
       remove "a2" Scenario.working w = (w', Ok tt) /\
       ArticlesController.remove "a2" Scenario.working w
         = (w', Ok ("Article " ++ "a2" ++ " removed successfully")) /\
       findOne "a2" w' = None /\
       (forall id', id' <> "a2" -> findOne id' w' = findOne id' w) /\
       S (List.length (findAll w')) = List.length (findAll w) /\
       trace w' = trace w /\ campaigns w' = campaigns w).
Proof.
  intros w.
  assert (Hwf : JSMap.wf (articles w)).
  { unfold JSMap.wf. cbn. repeat constructor; cbn; intuition discriminate. }
  split; [exact Hwf|].
  apply (removed_article_is_gone "a2" Scenario.working w Hwf).
Defined.

(** X14. [update] throws a [NotFoundException] for an id that is not in the
    catalogue and changes nothing; for an id that is there it returns and
    stores, at the place the article had and under the id of the call,
    the article with every property of the given object in the place of
    its own: its id and its date of publication too, which are kept when
    the object has none.  An object without properties changes nothing;
    the other articles are found as before. *)
Theorem update_replaces_the_given_properties :
  forall id dto E w,
    (findOne id w = None ->
       update id dto E w = (w, Throw (NotFoundException ("Article not found: " ++ id)))) /\
    (forall a, findOne id w = Some a ->
       exists w' updated,
         update id dto E w = (w', Ok updated) /\
         art_id updated = or_else (ua_id dto) (art_id a) /\
         title updated = or_else (ua_title dto) (title a) /\
         url updated = or_else (ua_url dto) (url a) /\
         keywords updated = or_else (ua_keywords dto) (keywords a) /\
         category updated = or_else (ua_category dto) (category a) /\
         publishedAt updated = or_else (ua_publishedAt dto) (publishedAt a) /\
         shortDescription updated
           = or_else (option_map Some (ua_shortDescription dto)) (shortDescription a) /\
         (dto = no_change -> updated = a) /\
         findOne id w' = Some updated /\
         JSMap.keys (articles w') = JSMap.keys (articles w) /\
         (forall id', id' <> id -> findOne id' w' = findOne id' w) /\
         trace w' = trace w /\ campaigns w' = campaigns w).
Proof.
  intros id dto E w. unfold findOne, update. split.
  - intros H. step. unfold findOne. rewrite H. reflexivity.
  - intros a H. eexists. exists (spread a dto).
    split; [step; unfold findOne; rewrite H; reflexivity|].
    cbn [articles].
    do 6 (split; [reflexivity|]).
    split; [destruct dto as [? ? ? ? [text|] ? ?]; reflexivity|].
    split; [intros ->; destruct a; reflexivity|].
    split; [apply get_set|].
    split.
    + unfold JSMap.set. rewrite has_get, H. apply keys_adjust.
    + split; [intros id' Hne; apply get_set_other, Hne|split; reflexivity].
Qed.

(** An update whose object has an id: the article keeps its place under
    the id of the call and carries the new id, under which it is not
    found. *)
Example update_can_give_another_id :
  exists w' updated,
    update "a1" (new_id "zz") Scenario.working Scenario.empty_world
      = (w', Ok updated) /\
    art_id updated = "zz" /\
    findOne "a1" w' = Some updated /\
    findOne "zz" w' = None /\
    ~ filed_by_id (articles w').
Proof.
  eexists. eexists. split; [vm_compute; reflexivity|].
  split; [reflexivity|]. split; [reflexivity|]. split; [reflexivity|].
  intros [_ H]. inversion H as [|kv m Hown _]. discriminate Hown.
Qed.

(** X15. [bulkCreate] always returns: one article for each request, in order,
    made as [create] makes them at successive readings of the clock;
    each returned id is in the catalogue afterwards; no platform request
    is made. *)
Theorem bulkCreate_creates_in_order :
  forall random dtos E w,
    exists w' articles_made,
      bulkCreate random dtos E w = (w', Ok articles_made) /\
      articles_made = created_all random E (ticks w) dtos /\
      List.length articles_made = List.length dtos /\
      map title articles_made = map ca_title dtos /\
      map keywords articles_made = map ca_keywords dtos /\
      Forall (fun a => JSMap.has (art_id a) (articles w') = true) articles_made /\
      (forall id, JSMap.has id (articles w) = true ->
                  JSMap.has id (articles w') = true) /\
      trace w' = trace w /\ campaigns w' = campaigns w.
Proof.
  intros random dtos E w.
  destruct (bulkCreate_run random E dtos w)
    as [w' [Hrun [_ [Htrace [Hcamp [_ [_ [Hall Hkeep]]]]]]]].
  exists w', (created_all random E (ticks w) dtos).
  split; [exact Hrun|]. split; [reflexivity|].
  assert (Hfields : forall n,
             List.length (created_all random E n dtos) = List.length dtos /\
             map title (created_all random E n dtos) = map ca_title dtos /\
             map keywords (created_all random E n dtos) = map ca_keywords dtos).
  { clear. induction dtos as [|dto rest IH]; intros n;
      cbn [created_all map List.length].
    - repeat split.
    - destruct (IH (S (S n))) as [Hl [Ht Hk]].
      rewrite Hl, Ht, Hk. repeat split. }
  destruct (Hfields (ticks w)) as [Hl [Ht Hk]].
  repeat split; assumption.
Qed.

(** X16. [findByCategory] lists, in the order of the catalogue, the articles
    whose category is the given one but for the case of the letters (the
    letters of Latin-1, accented ones too).  [findByKeyword] lists, in the
    order of the catalogue, the articles one of whose keywords has a part
    that is the given text but for the case of the letters; for the empty
    text these are the articles that have a keyword.  Texts that differ in
    case only give the same lists. *)
Theorem filters_ignore_case :
  forall w,
    (forall cat, exists keep,
        findByCategory cat w = filter keep (findAll w) /\
        forall a, keep a = true <-> alike (category a) cat) /\
    (forall kw, exists keep,
        findByKeyword kw w = filter keep (findAll w) /\
        forall a, keep a = true <->
                  exists k, In k (keywords a) /\ contains_alike k kw) /\
    (forall cat cat', alike cat cat' -> findByCategory cat w = findByCategory cat' w) /\
    (forall kw kw', alike kw kw' -> findByKeyword kw w = findByKeyword kw' w) /\
    findByKeyword "" w = filter has_keywords (findAll w).
Proof.
  intros w. unfold findByCategory, findByKeyword.
  split.
  { intros cat. eexists. split; [reflexivity|].
    intros a. cbv beta. rewrite String.eqb_eq. symmetry. apply CaseFacts.alike_lower. }
  split.
  { intros kw. eexists. split; [reflexivity|].
    intros a. cbv beta. rewrite existsb_exists.
    split; intros [k [Hk H]]; exists k; (split; [exact Hk|]);
      apply CaseFacts.includes_alike, H. }
  split.
  { intros cat cat' H. apply CaseFacts.alike_lower in H. rewrite H. reflexivity. }
  split.
  { intros kw kw' H. apply CaseFacts.alike_lower in H. rewrite H. reflexivity. }
  apply filter_ext. intros a. unfold has_keywords.
  destruct (keywords a) as [|k ks]; [reflexivity|].
  cbn [existsb Str.toLowerCase]. rewrite MatcherFacts.includes_empty. reflexivity.
Qed.

(** A category and a keyword written with accented capital letters. *)
Example accented_capitals_are_folded :
  let politics :=
    mkArticle "a3" (Str.text "Votación en el Senado") "https://tumedio.com/senado"
              [Str.text "votación"; "senado"] (Str.text "política") None None in
  let w := set_articles [("a1", Scenario.elections); ("a3", politics)]
                        Scenario.empty_world in
  findByCategory (Str.text "POLÍTICA") w = [politics] /\
  findByKeyword (Str.text "VOTACIÓN") w = [politics] /\
  alike (Str.text "política") (Str.text "POLÍTICA").
Proof.
  cbv zeta. split; [vm_compute; reflexivity|]. split; [vm_compute; reflexivity|].
  apply CaseFacts.alike_lower. vm_compute. reflexivity.
Qed.

(** X17. The listing of the controller is the catalogue, in its order, without
    the articles that a filter leaves out: a category that is given (and
    not empty) decides alone, the keyword is then not looked at; without
    a category a given keyword decides; empty parameters count as absent,
    so that an empty keyword lists every article, also those without
    keywords. *)
Theorem listing_is_filtered_by_one_parameter :
  forall category keyword w,
    let listed := ArticlesController.findAll category keyword w in
    (forall cat, category = Some cat -> cat <> "" ->
                 listed = findByCategory cat w) /\
    (category = None \/ category = Some "" ->
     forall kw, keyword = Some kw -> kw <> "" -> listed = findByKeyword kw w) /\
    (category = None \/ category = Some "" ->
     keyword = None \/ keyword = Some "" -> listed = findAll w) /\
    (forall a, In a listed -> In a (findAll w)) /\
    (List.length listed <= List.length (findAll w))%nat.
Proof.
  intros category keyword w listed. subst listed.
  unfold ArticlesController.findAll, ArticlesController.given.
  split.
  { intros cat -> Hne. destruct (String.eqb_spec cat ""); [contradiction|reflexivity]. }
  split.
  { intros [->| ->] kw -> Hne; cbn [String.eqb];
      destruct (String.eqb_spec kw ""); try contradiction; reflexivity. }
  split.
  { intros [->| ->] [->| ->]; reflexivity. }
  assert (Hsub : forall keep, incl (filter keep (findAll w)) (findAll w)).
  { intros keep a Ha. apply filter_In in Ha as [Ha _]. exact Ha. }
  unfold findByCategory, findByKeyword.
  split.
  - intros a.
    destruct category as [cat|]; [destruct (cat =? "")%string|];
      try apply Hsub;
      (destruct keyword as [kw|]; [destruct (kw =? "")%string|]);
      try apply Hsub; auto.
  - destruct category as [cat|]; [destruct (cat =? "")%string|];
      try apply filter_length_le;
      (destruct keyword as [kw|]; [destruct (kw =? "")%string|]);
      try apply filter_length_le; auto.
Qed.

(** X18. Whatever calls are made of [create], [bulkCreate], [update] and
    [remove], and whether they return or throw, the catalogue keeps one
    article for each id, and the registry of campaigns and the trace of
    the platform are not touched.  As long as no update gives an id,
    every article stays filed under its own id. *)
Theorem catalogue_stays_filed_by_id :
  forall random ops E w,
    JSMap.wf (articles w) ->
    exists w',
      perform_all random ops E w = (w', Ok tt) /\
      JSMap.wf (articles w') /\
      (Forall keeps_ids ops -> filed_by_id (articles w) -> filed_by_id (articles w')) /\
      trace w' = trace w /\ campaigns w' = campaigns w.
Proof.
  intros random ops E. unfold perform_all.
  induction ops as [|op ops IH]; intros w Hwf; cbn [foldM].
  - exists w. split; [reflexivity|]. split; [exact Hwf|].
    split; [intros _ H; exact H|]. split; reflexivity.
  - assert (Hop : exists w1,
               perform random op E w = (w1, Ok tt) /\
               JSMap.wf (articles w1) /\
               (keeps_ids op -> Forall own_id (articles w) ->
                Forall own_id (articles w1)) /\
               trace w1 = trace w /\ campaigns w1 = campaigns w).
    { unfold perform. destruct op as [dto|dtos|id dto|id].
      - unfold try_catch, bind. rewrite create_run. unfold ret.
        eexists. split; [reflexivity|].
        cbn [articles trace campaigns set_articles set_ticks].
        split; [apply wf_set, Hwf|]. split; [|split; reflexivity].
        intros _ Hids. apply Forall_set; [reflexivity|exact Hids].
      - destruct (bulkCreate_run random E dtos w)
          as [w1 [Hrun [_ [Htrace [Hcamp [Hkeep [Hown _]]]]]]].
        exists w1. unfold try_catch, bind. rewrite Hrun. unfold ret.
        split; [reflexivity|]. split; [apply Hkeep, Hwf|].
        split; [intros _; exact Hown|split; assumption].
      - unfold try_catch, bind, update.
        unfold gets at 1. unfold bind at 1.
        destruct (findOne id w) as [a|] eqn:Hfind.
        + step. eexists. split; [reflexivity|].
          cbn [articles trace campaigns].
          split; [apply wf_set, Hwf|]. split; [|split; reflexivity].
          intros Hid Hids. cbn [keeps_ids] in Hid.
          apply Forall_set; [|exact Hids].
          unfold own_id, spread. cbn [fst snd art_id]. rewrite Hid.
          unfold findOne in Hfind.
          clear - Hfind Hids. induction Hids as [|[k v] m Hkv _ IHm]; [discriminate|].
          cbn [JSMap.get] in Hfind. destruct (String.eqb_spec id k) as [->|Hne].
          * injection Hfind as <-. exact Hkv.
          * apply IHm, Hfind.
        + step. exists w. split; [reflexivity|]. split; [exact Hwf|].
          split; [intros _ H; exact H|split; reflexivity].
      - unfold try_catch, remove. step.
        destruct (JSMap.has id (articles w)).
        + eexists. split; [reflexivity|]. cbn [articles trace campaigns].
          split; [apply wf_delete, Hwf|]. split; [|split; reflexivity].
          intros _ Hids. apply Forall_delete, Hids.
        + exists w. split; [reflexivity|]. split; [exact Hwf|].
          split; [intros _ H; exact H|split; reflexivity]. }
    destruct Hop as [w1 [Hrun [Hwf1 [Hown1 [Htrace1 Hcamp1]]]]].
    destruct (IH w1 Hwf1) as [w' [Hrest [Hwf' [Hown' [Htrace' Hcamp']]]]].
    exists w'. unfold bind at 1. rewrite Hrun. split; [exact Hrest|].
    split; [exact Hwf'|]. split; [|split; congruence].
    intros Hops [_ Hids]. inversion Hops as [|op' ops' Hk Hks]; subst.
    apply Hown'; [exact Hks|]. split; [exact Hwf1|apply Hown1; assumption].
Qed.

Lemma catalogue_stays_filed_by_id_witness :
  let ops := [Create Cases.storm;
              Update "a1" (new_title "Elecciones: resultados");
              Remove "a2"; Remove "a7";
              BulkCreate [Cases.storm; Cases.storm]] in
  JSMap.wf (articles Scenario.empty_world) /\
  Forall keeps_ids ops /\
  filed_by_id (articles Scenario.empty_world) /\
  exists w',
    perform_all Cases.dice ops Scenario.working Scenario.empty_world = (w', Ok tt) /\
    filed_by_id (articles w') /\
    trace w' = trace Scenario.empty_world /\
    campaigns w' = campaigns Scenario.empty_world.
Proof.
  intros ops.
  assert (H : JSMap.wf (articles Scenario.empty_world)).
  { unfold JSMap.wf. cbn. repeat constructor; cbn; intuition discriminate. }
  assert (Hops : Forall keeps_ids ops) by (repeat constructor).
  assert (Hfiled : filed_by_id (articles Scenario.empty_world)).
  { split; [exact H|repeat constructor]. }
  split; [exact H|]. split; [exact Hops|]. split; [exact Hfiled|].
  destruct (catalogue_stays_filed_by_id Cases.dice ops Scenario.working
              Scenario.empty_world H) as [w' [Hrun [_ [Hkeep [Ht Hc]]]]].
  exists w'. split; [exact Hrun|]. split; [apply (Hkeep Hops Hfiled)|].
  split; [exact Ht|exact Hc].
Defined.

(** After an update that gives an id the article is not filed under its
    own id any more. *)
Example update_with_an_id_breaks_the_filing :
  let ops := [Update "a1" (new_id "zz")] in
  filed_by_id (articles Scenario.empty_world) /\
  exists w',
    perform_all Cases.dice ops Scenario.working Scenario.empty_world = (w', Ok tt) /\
    ~ Forall own_id (articles w').
Proof.
  cbv zeta. split.
  - split.
    + unfold JSMap.wf. cbn. repeat constructor; cbn; intuition discriminate.
    + repeat constructor.
  - eexists. split; [vm_compute; reflexivity|].
    intros H. inversion H as [|kv m Hown _]. discriminate Hown.
Qed.

End CatalogueClaims.

(** ** The campaigns service *)

Module ServiceFacts.
Import Platform CampaignsService RegistrySpec ServiceSpec MapFacts.
Import SagaSpec SagaFacts DateSpec DateFacts StatusFacts SagaRuns.

Lemma year_text_no_T : forall y,
  all (fun c => negb (Ascii.eqb c "T")) (JSDate.year_text y) = true.
Proof.
  intros y. unfold JSDate.year_text.
  assert (H : forall w n, all (fun c => negb (Ascii.eqb c "T")) (JSDate.pad w n) = true).
  { intros w n. apply (digits_have_no "T"); [reflexivity|apply pad_digits]. }
  destruct ((0 <=? y) && (y <=? 9999)); [apply H|].
  destruct (y <? 0); cbn [append all]; rewrite H; reflexivity.
Qed.

Lemma iso_date_no_T : forall t,
  all (fun c => negb (Ascii.eqb c "T")) (JSDate.iso_date t) = true.
Proof.
  intros t. unfold JSDate.iso_date.
  destruct (JSDate.civil (t / JSDate.msPerDay)) as [[y m] d].
  assert (H : forall w n, all (fun c => negb (Ascii.eqb c "T")) (JSDate.pad w n) = true).
  { intros w n. apply (digits_have_no "T"); [reflexivity|apply pad_digits]. }
  rewrite !all_app, year_text_no_T. cbn [all].
  rewrite !H. reflexivity.
Qed.

(** The date part of the text of [toISOString]. *)
Lemma iso_date_part : forall t,
  hd EmptyString (Str.split "T" (JSDate.iso_date t ++ "T" ++ JSDate.iso_time t))
    = JSDate.iso_date t.
Proof.
  intros t. unfold Str.split.
  change ("T" ++ JSDate.iso_time t) with (String "T" (JSDate.iso_time t)).
  rewrite (split_from_first "T" _ _ "" (iso_date_no_T t)). reflexivity.
Qed.

(** A run of [createExpressCampaign] for an article of the catalogue. *)
Lemma express_run : forall dto article E w,
  ArticlesService.findOne (dto_articleId dto) w = Some article ->
  createExpressCampaign dto E w =
    match GoogleAdsService.createCampaign
            (express_config E (clock E (ticks w)) dto article) E
            (set_ticks (S (ticks w)) w) with
    | (w2, Ok result) =>
        (set_campaigns
           (JSMap.set (campaignId result) (entry E (clock E (ticks w)) dto result)
                      (campaigns w2)) w2,
         Ok result)
    | (w2, Throw e) => (w2, Throw e)
    end.
Proof.
  intros dto article E w H. unfold createExpressCampaign.
  unfold bind at 1. unfold gets at 1. rewrite H.
  run. cbn [JSDate.toISOString]. run. rewrite iso_date_part.
  unfold express_config, entry, fallback_description.
  destruct (GoogleAdsService.createCampaign _ E _) as [w2 [result|e]]; reflexivity.
Qed.

Lemma custom_run : forall dto E w,
  createCampaign dto E w =
    GoogleAdsService.createCampaign (custom_config E (clock E (ticks w)) dto) E
      (set_ticks (S (ticks w)) w).
Proof. reflexivity. Qed.

(** What every run of the saga has: a first request, for the budget; the
    registry and the catalogue as they were; an [HttpException] if it
    throws. *)
Lemma saga_frame : forall config E w,
  exists w' r resp rest,
    GoogleAdsService.createCampaign config E w = (w', r) /\
    trace w' =
      (trace w ++ Called (campaignBudgets_create (budgetData E w config)) resp :: rest)%list /\
    campaigns w' = campaigns w /\ articles w' = articles w /\
    (forall data resp', In (Called (adGroups_create data) resp') rest ->
                        cpc_bid_micros data = cfg_cpcBidMicros config) /\
    (forall ops resp', In (Called (adGroupCriteria_create ops) resp') rest ->
                       map kw_text ops = cfg_keywords config) /\
    (forall data resp', In (Called (adGroupAds_create data) resp') rest ->
                        final_urls data = [cfg_finalUrl config]) /\
    match r with
    | Ok res => res_status res = CampaignStatus.PAUSED /\
                cfg_startDate config <> None /\ cfg_endDate config <> None
    | Throw e =>
        ((exists m, e = TypeError m) \/
         (exists body st, e = HttpException body st /\
                          In st [400; 401; 403; 404; 429; 500])) /\
        (sdk E -> exists body st, e = HttpException body st /\
                                  In st [400; 401; 403; 404; 429; 500])
    end.
Proof.
  intros config E w.
  destruct (createCampaign_trace config E w)
    as [evs [w1 [r [cleanup [w' [r' [_ [_ [Hout [Hrun [Htr [Hc [Ha [Hcl Hok]]]]]]]]]]]]]].
  assert (Hevs : exists resp rest0,
             evs = Called (campaignBudgets_create (budgetData E w config)) resp :: rest0 /\
             (forall data resp', In (Called (adGroups_create data) resp') rest0 ->
                                 cpc_bid_micros data = cfg_cpcBidMicros config) /\
             (forall ops resp', In (Called (adGroupCriteria_create ops) resp') rest0 ->
                                map kw_text ops = cfg_keywords config) /\
             (forall data resp', In (Called (adGroupAds_create data) resp') rest0 ->
                                 final_urls data = [cfg_finalUrl config])).
  { assert (Hkw : forall g, map kw_text (keywordOperations config g) = cfg_keywords config).
    { intros g. unfold keywordOperations. rewrite map_map. cbn [kw_text].
      apply map_id. }
    inversion Hout; subst; eexists; eexists; (split; [reflexivity|]);
      (split; [|split]); intros x resp' Hin; cbn [In] in Hin;
      repeat match goal with
             | H : _ \/ _ |- _ => destruct H as [H|H]
             | H : False |- _ => destruct H
             | H : Called _ _ = Called _ _ |- _ =>
                 first [discriminate H | injection H as <- _]
             end;
      first [reflexivity | apply Hkw]. }
  destruct Hevs as [resp [rest0 [-> [Hag [Hkw Had]]]]].
  exists w', r', resp, (rest0 ++ cleanup)%list.
  split; [exact Hrun|].
  split; [rewrite Htr; reflexivity|].
  split; [exact Hc|]. split; [exact Ha|].
  assert (Hnot : forall ev, In ev cleanup -> is_cleanup ev = true).
  { intros ev Hin. rewrite forallb_forall in Hcl. apply Hcl, Hin. }
  split; [|split; [|split]].
  - intros data resp' Hin. apply in_app_or in Hin as [Hin|Hin]; [eauto|].
    apply Hnot in Hin. discriminate.
  - intros ops resp' Hin. apply in_app_or in Hin as [Hin|Hin]; [eauto|].
    apply Hnot in Hin. discriminate.
  - intros data resp' Hin. apply in_app_or in Hin as [Hin|Hin]; [eauto|].
    apply Hnot in Hin. discriminate.
  - destruct r' as [res|e].
    + specialize (Hok res eq_refl). subst r.
      split; [apply (saga_result_paused _ _ _ _ _ _ _ _ Hout)|].
      inversion Hout; subst.
      split; intros Hnone;
        match goal with
        | H : GoogleAdsService.formatDate ?d = Ok _, Hn : ?d = None |- _ =>
            rewrite Hn in H; discriminate H
        end.
    + destruct (createCampaign_thrown config E w w' e Hrun) as [Hany Hsdk].
      split.
      * destruct Hany as [Hte|[body [st [He [Hst _]]]]]; [left; exact Hte|].
        right. exists body, st. split; assumption.
      * intros HE. destruct (Hsdk HE) as [body [st [He [Hst _]]]].
        exists body, st. split; assumption.
Qed.

End ServiceFacts.

Module ServiceClaims.
Import Platform CampaignsService RegistrySpec ServiceSpec MapFacts RegistryFacts.
Import SagaSpec SagaFacts ServiceFacts CatalogueFacts.

(** X19. When [createExpressCampaign] throws, the registry and the catalogue
    are as they were.  For an article that is not in the catalogue it
    throws a [NotFoundException] before anything else is done (no reading
    of the clock, no request to the platform); otherwise it throws what
    the saga throws: an [HttpException] whose status is one of 400, 401,
    403, 404, 429 and 500 when the platform rejects with the failure
    objects of its SDK, such an exception or a TypeError with any other
    platform. *)
Theorem failed_express_campaign_stores_nothing :
  forall dto E w w' e,
    createExpressCampaign dto E w = (w', Throw e) ->
    campaigns w' = campaigns w /\
    articles w' = articles w /\
    ((ArticlesService.findOne (dto_articleId dto) w = None /\
      w' = w /\
      e = NotFoundException ("Article not found: " ++ dto_articleId dto)) \/
     (exists article,
        ArticlesService.findOne (dto_articleId dto) w = Some article /\
        ((exists m, e = TypeError m) \/
         (exists body st, e = HttpException body st /\
                          In st [400; 401; 403; 404; 429; 500])) /\
        (sdk E -> exists body st, e = HttpException body st /\
                                  In st [400; 401; 403; 404; 429; 500]))).
Proof.
  intros dto E w w' e H.
  destruct (ArticlesService.findOne (dto_articleId dto) w) as [article|] eqn:Hfind.
  - rewrite (express_run dto article E w Hfind) in H.
    destruct (saga_frame (express_config E (clock E (ticks w)) dto article) E
                (set_ticks (S (ticks w)) w))
      as [w2 [r [resp [rest [Hrun [_ [Hc [Ha [_ [_ [_ Hr]]]]]]]]]]].
    rewrite Hrun in H. destruct r as [res|e0]; [discriminate|].
    injection H as <- <-.
    split; [exact Hc|]. split; [exact Ha|]. right.
    exists article. split; [reflexivity|]. exact Hr.
  - unfold createExpressCampaign in H. unfold bind at 1 in H.
    unfold gets at 1 in H. rewrite Hfind in H. injection H as <- <-.
    split; [reflexivity|]. split; [reflexivity|]. left. repeat split.
Qed.

Lemma failed_express_campaign_stores_nothing_witness :
  let dto := mkCreateExpressCampaignDto "a1" "elecciones 2025" None None in
  let run := createExpressCampaign dto Scenario.failing Scenario.empty_world in
  sdk Scenario.failing /\
  exists e body st,
    snd run = Throw e /\
    campaigns (fst run) = campaigns Scenario.empty_world /\
    articles (fst run) = articles Scenario.empty_world /\
    ArticlesService.findOne (dto_articleId dto) Scenario.empty_world
      = Some Scenario.elections /\
    e = HttpException body st /\
    In st [400; 401; 403; 404; 429; 500].
Proof.
  intros dto run. split; [exact ScenarioFacts.failing_sdk|].
  assert (Hrun : exists e, run = (fst run, Throw e))
    by (eexists; vm_compute; reflexivity).
  destruct Hrun as [e Hrun].
  destruct (failed_express_campaign_stores_nothing dto Scenario.failing
              Scenario.empty_world (fst run) e Hrun) as [Hc [Ha Hcases]].
  destruct Hcases as [[Hnone _]|[article [_ [_ Hsdk]]]]; [discriminate Hnone|].
  destruct (Hsdk ScenarioFacts.failing_sdk) as [body [st [He Hst]]].
  exists e, body, st. rewrite Hrun.
  split; [reflexivity|]. split; [exact Hc|]. split; [exact Ha|].
  split; [reflexivity|]. split; [exact He|exact Hst].
Defined.

(** X20. For an article of the catalogue [createExpressCampaign] first asks
    for a budget whose name is made of the trend keyword, the day (UTC, as
    YYYY-MM-DD) and the next reading of the clock, and whose amount is
    the requested one, or the default one when none or zero is requested.
    The ad group then bids the default CPC, the keywords are the trend
    keyword followed by the keywords of the article, and the ad leads to
    the URL of the article. *)
Theorem express_campaign_requests :
  forall dto article E w,
    ArticlesService.findOne (dto_articleId dto) w = Some article ->
    let day := JSDate.iso_date (clock E (ticks w)) in
    let amount := or_default (dto_budgetMicros dto) (defaultBudgetMicros (defaults E)) in
    exists w' r resp rest,
      createExpressCampaign dto E w = (w', r) /\
      trace w' =
        (trace w ++
         Called (budget_request ("Express: " ++ dto_trendKeyword dto ++ " - " ++ day)
                                (clock E (S (ticks w))) amount) resp :: rest)%list /\
      (forall b, dto_budgetMicros dto = Some b -> b <> 0 -> amount = b) /\
      (dto_budgetMicros dto = None \/ dto_budgetMicros dto = Some 0 ->
       amount = defaultBudgetMicros (defaults E)) /\
      (forall data resp', In (Called (adGroups_create data) resp') rest ->
                          cpc_bid_micros data = defaultCpcBidMicros (defaults E)) /\
      (forall ops resp', In (Called (adGroupCriteria_create ops) resp') rest ->
                         map kw_text ops = dto_trendKeyword dto :: keywords article) /\
      (forall data resp', In (Called (adGroupAds_create data) resp') rest ->
                          final_urls data = [url article]).
Proof.
  intros dto article E w Hfind day amount.
  rewrite (express_run dto article E w Hfind).
  destruct (saga_frame (express_config E (clock E (ticks w)) dto article) E
              (set_ticks (S (ticks w)) w))
    as [w2 [r [resp [rest [Hrun [Htr [_ [_ [Hag [Hkw [Had _]]]]]]]]]]].
  rewrite Hrun.
  assert (Hamount : (forall b, dto_budgetMicros dto = Some b -> b <> 0 -> amount = b) /\
                    (dto_budgetMicros dto = None \/ dto_budgetMicros dto = Some 0 ->
                     amount = defaultBudgetMicros (defaults E))).
  { subst amount. unfold or_default. split.
    - intros b -> Hb. destruct (Z.eqb_spec b 0); [contradiction|reflexivity].
    - intros [->| ->]; reflexivity. }
  destruct Hamount as [Hsome Hnone].
  destruct r as [res|e]; eexists; eexists; exists resp, rest;
    (split; [reflexivity|]);
    cbn [trace set_campaigns];
    (split; [exact Htr|]);
    (split; [exact Hsome|]); (split; [exact Hnone|]);
    (split; [exact Hag|]); (split; [exact Hkw|exact Had]).
Qed.

Lemma express_campaign_requests_witness :
  let dto := mkCreateExpressCampaignDto "a1" "elecciones 2025" (Some 0) None in
  let E := Scenario.working in
  let w := Scenario.empty_world in
  ArticlesService.findOne (dto_articleId dto) w = Some Scenario.elections /\
  exists w' r resp rest,
    createExpressCampaign dto E w = (w', r) /\
    trace w' =
      (trace w ++
       Called (budget_request ("Express: " ++ "elecciones 2025" ++ " - " ++ "2025-01-15")
                              (clock E (S (ticks w))) 20000000) resp :: rest)%list /\
    (forall b, dto_budgetMicros dto = Some b -> b <> 0 -> 20000000 = b) /\
    (dto_budgetMicros dto = None \/ dto_budgetMicros dto = Some 0 ->
     20000000 = defaultBudgetMicros (defaults E)) /\
    (forall data resp', In (Called (adGroups_create data) resp') rest ->
                        cpc_bid_micros data = defaultCpcBidMicros (defaults E)) /\
    (forall ops resp', In (Called (adGroupCriteria_create ops) resp') rest ->
                       map kw_text ops
                         = dto_trendKeyword dto :: keywords Scenario.elections) /\
    (forall data resp', In (Called (adGroupAds_create data) resp') rest ->
                        final_urls data = [url Scenario.elections]).
Proof.
  intros dto E w. split; [reflexivity|].
  apply (express_campaign_requests dto Scenario.elections E w). reflexivity.
Defined.

(** X21. [createCampaign] of the campaigns service always starts the saga: it
    asks for a budget of the requested amount, bids the requested CPC or,
    when none or zero is requested, the default one, and dates the
    campaign from the reading of the clock to the requested number of
    hours later.  Whatever the outcome, it leaves the registry as it was:
    a campaign created this way is not tracked. *)
Theorem custom_campaign_is_not_registered :
  forall dto E w,
    let start := clock E (ticks w) in
    let bid := or_default (cc_cpcBidMicros dto) (defaultCpcBidMicros (defaults E)) in
    exists w' r resp rest,
      createCampaign dto E w = (w', r) /\
      campaigns w' = campaigns w /\
      trace w' =
        (trace w ++
         Called (budget_request (cc_name dto) (clock E (S (ticks w)))
                                (cc_budgetMicros dto)) resp :: rest)%list /\
      (forall data resp', In (Called (adGroups_create data) resp') rest ->
                          cpc_bid_micros data = bid) /\
      (forall b, cc_cpcBidMicros dto = Some b -> b <> 0 -> bid = b) /\
      (cc_cpcBidMicros dto = None \/ cc_cpcBidMicros dto = Some 0 ->
       bid = defaultCpcBidMicros (defaults E)) /\
      (forall data resp', In (Called (campaigns_create data) resp') rest ->
         GoogleAdsService.formatDate (Some start) = Ok (start_date data) /\
         GoogleAdsService.formatDate
           (JSDate.TimeClip (start + cc_durationHours dto * 60 * 60 * 1000))
           = Ok (end_date data)).
Proof.
  intros dto E w start bid. rewrite custom_run.
  destruct (saga_frame (custom_config E (clock E (ticks w)) dto) E
              (set_ticks (S (ticks w)) w))
    as [w2 [r [resp [rest [Hrun [Htr [Hc [_ [Hag [_ [_ _]]]]]]]]]]].
  exists w2, r, resp, rest.
  split; [exact Hrun|]. split; [exact Hc|]. split; [exact Htr|].
  split; [exact Hag|].
  split.
  { intros b Hb Hne. subst bid. unfold or_default. rewrite Hb.
    destruct (Z.eqb_spec b 0); [contradiction|reflexivity]. }
  split.
  { intros [Hb|Hb]; subst bid; unfold or_default; rewrite Hb; reflexivity. }
  intros data resp' Hin.
  assert (Hin' : In (Called (campaigns_create data) resp')
                    (Called (campaignBudgets_create
                               (budgetData E (set_ticks (S (ticks w)) w)
                                  (custom_config E (clock E (ticks w)) dto))) resp
                     :: rest)) by (right; exact Hin).
  assert (Hfields : forall w' r0 evs,
             GoogleAdsService.createCampaign
               (custom_config E (clock E (ticks w)) dto) E
               (set_ticks (S (ticks w)) w) = (w', r0) ->
             trace w' = (trace (set_ticks (S (ticks w)) w) ++ evs)%list ->
             In (Called (campaigns_create data) resp') evs ->
             GoogleAdsService.formatDate (Some start) = Ok (start_date data) /\
             GoogleAdsService.formatDate
               (JSDate.TimeClip (start + cc_durationHours dto * 60 * 60 * 1000))
               = Ok (end_date data)).
  { intros w' r0 evs Hr Ht Hi.
    destruct (createCampaign_trace (custom_config E (clock E (ticks w)) dto) E
                (set_ticks (S (ticks w)) w))
      as [evs0 [w1 [r1 [cleanup [w0 [r0' [_ [_ [Hout [Hcc [Htr0 [_ [_ [Hcl _]]]]]]]]]]]]]].
    assert (Hin0 : In (Called (campaigns_create data) resp') evs0).
    { rewrite Hr in Hcc. injection Hcc as <- _.
      rewrite Htr0 in Ht. apply app_inv_head in Ht. subst evs.
      apply in_app_or in Hi as [Hi|Hi]; [exact Hi|].
      exfalso. apply (cleanup_creates_nothing _ _ _ Hcl Hi). }
    destruct (saga_campaign_request _ _ _ _ _ _ _ _ _ _ Hout Hin0)
      as [budget [sd [ed [-> [Hsd Hed]]]]].
    cbn [start_date end_date campaignData]. split; assumption. }
  apply (Hfields w2 r _ Hrun Htr Hin').
Qed.

(** X22. For an id that is not in the registry (the id of a campaign made by
    [createCampaign], for one) the controller answers that the campaign
    was paused, enabled or removed, while no request went to the platform
    and nothing changed. *)
Theorem unknown_campaign_is_reported_as_done :
  forall id E w,
    JSMap.get id (campaigns w) = None ->
    CampaignsController.pauseCampaign id E w
      = (w, Ok ("Campaign " ++ id ++ " paused successfully")) /\
    CampaignsController.enableCampaign id E w
      = (w, Ok ("Campaign " ++ id ++ " enabled successfully")) /\
    CampaignsController.removeCampaign id E w
      = (w, Ok ("Campaign " ++ id ++ " removed successfully")).
Proof.
  intros id E w H.
  unfold CampaignsController.pauseCampaign, CampaignsController.enableCampaign,
    CampaignsController.removeCampaign, pauseCampaign, enableCampaign, removeCampaign.
  run. rewrite H. repeat split.
Qed.

Lemma unknown_campaign_is_reported_as_done_witness :
  let w := Scenario.registry [Scenario.old1] in
  let E := Scenario.down in
  JSMap.get "42" (campaigns w) = None /\
  CampaignsController.pauseCampaign "42" E w
    = (w, Ok ("Campaign " ++ "42" ++ " paused successfully")) /\
  CampaignsController.enableCampaign "42" E w
    = (w, Ok ("Campaign " ++ "42" ++ " enabled successfully")) /\
  CampaignsController.removeCampaign "42" E w
    = (w, Ok ("Campaign " ++ "42" ++ " removed successfully")).
Proof.
  intros w E. split; [reflexivity|].
  apply (unknown_campaign_is_reported_as_done "42" E w). reflexivity.
Defined.

Lemma adjust_back : forall id (c : StoredCampaign) m,
  JSMap.get id m = Some c ->
  sc_status c = StoredStatus.ACTIVE ->
  JSMap.adjust id (set_status StoredStatus.ACTIVE)
    (JSMap.adjust id (set_status StoredStatus.PAUSED) m) = m.
Proof.
  intros id c. induction m as [|[k v] m IH]; intros Hget Hst; [discriminate|].
  cbn [JSMap.get] in Hget. cbn [JSMap.adjust].
  destruct (String.eqb_spec id k) as [->|Hne].
  - injection Hget as ->. cbn [JSMap.adjust]. rewrite String.eqb_refl.
    destruct c. cbn in Hst. subst. reflexivity.
  - cbn [JSMap.adjust]. destruct (String.eqb_spec id k); [contradiction|].
    f_equal. apply (IH Hget Hst).
Qed.

(** X23. Pausing and then enabling an ACTIVE campaign of the registry, both
    requests being accepted, sends the update to PAUSED and then the
    update to ENABLED for the stored resource name and leaves the
    registry exactly as it was. *)
Theorem pause_then_enable_restores_the_registry :
  forall id c E w n1 n2,
    JSMap.get id (campaigns w) = Some c ->
    sc_status c = StoredStatus.ACTIVE ->
    let name := resourceName (sc_result c) in
    let paused := Called (campaigns_update name CampaignStatus.PAUSED) (Resolved n1) in
    platform E (trace w) (campaigns_update name CampaignStatus.PAUSED) = Resolved n1 ->
    platform E (trace w ++ [paused]) (campaigns_update name CampaignStatus.ENABLED)
      = Resolved n2 ->
    exists w',
      (pauseCampaign id ;; enableCampaign id) E w = (w', Ok tt) /\
      campaigns w' = campaigns w /\
      trace w' =
        (trace w ++
         [paused;
          Called (campaigns_update name CampaignStatus.ENABLED) (Resolved n2)])%list.
Proof.
  intros id c E w n1 n2 Hget Hst name paused H1 H2. subst name paused.
  pose proof (run_cases Pause id c E w Hget) as Hp.
  cbv zeta in Hp. cbn [run requested applied] in Hp.
  rewrite H1 in Hp.
  unfold bind at 1. rewrite Hp.
  match goal with
  | |- context [enableCampaign id E ?w1] =>
      pose proof (run_cases Enable id (set_status StoredStatus.PAUSED c) E w1) as He
  end.
  cbv zeta in He. cbn [run requested applied campaigns trace set_campaigns set_trace
                         set_status sc_result] in He.
  rewrite H2 in He.
  rewrite He by (apply get_adjust, Hget).
  eexists. split; [reflexivity|].
  cbn [campaigns trace set_campaigns set_trace].
  split; [apply (adjust_back id c _ Hget Hst)|].
  rewrite <- app_assoc. reflexivity.
Qed.

Lemma pause_then_enable_restores_the_registry_witness :
  let w := Scenario.registry [Scenario.old1; Scenario.fresh] in
  let E := Scenario.working in
  let name := "customers/123/campaigns/14" in
  let n := Scenario.rn "campaigns" "42" in
  exists w',
    (pauseCampaign "14" ;; enableCampaign "14") E w = (w', Ok tt) /\
    campaigns w' = campaigns w /\
    trace w' =
      (trace w ++
       [Called (campaigns_update name CampaignStatus.PAUSED) (Resolved n);
        Called (campaigns_update name CampaignStatus.ENABLED) (Resolved n)])%list.
Proof.
  intros w E name n.
  apply (pause_then_enable_restores_the_registry "14" Scenario.fresh E w n n);
    reflexivity.
Defined.

End ServiceClaims.

(** ** Campaigns made from the trends; the registry as the service keeps it *)

Module RegistryInvariant.
Import Platform CampaignsService RegistrySpec ServiceSpec MapFacts RegistryFacts.
Import SagaSpec SagaFacts ServiceFacts CatalogueFacts SweepFacts.
Import ArticlesService MatcherSpec MatcherRun SortFacts.

Lemma registry_ok_set : forall k v m,
  entry_ok (k, v) -> registry_ok m -> registry_ok (JSMap.set k v m).
Proof.
  intros k v m Hv [Hwf Hall]. split; [apply wf_set, Hwf|].
  apply Forall_set; assumption.
Qed.

Lemma registry_ok_status : forall k s m,
  s <> StoredStatus.EXPIRED ->
  registry_ok m -> registry_ok (JSMap.adjust k (set_status s) m).
Proof.
  intros k s m Hs [Hwf Hall]. split.
  - unfold JSMap.wf. rewrite keys_adjust. exact Hwf.
  - apply Forall_adjust; [|exact Hall].
    intros v [H1 [H2 [_ [H4 [H5 H6]]]]]. unfold entry_ok. cbn [fst snd] in *.
    destruct v. cbn in *. repeat split; assumption.
Qed.

Lemma registry_ok_delete : forall k m, registry_ok m -> registry_ok (JSMap.delete k m).
Proof.
  intros k m [Hwf Hall]. split; [apply wf_delete, Hwf|apply Forall_delete, Hall].
Qed.

Lemma keys_filter_incl : forall {V} (f : string * V -> bool) m x,
  In x (JSMap.keys (filter f m)) -> In x (JSMap.keys m).
Proof.
  intros V f m x H. unfold JSMap.keys in *.
  apply in_map_iff in H as [kv [<- Hin]]. apply filter_In in Hin as [Hin _].
  apply in_map, Hin.
Qed.

Lemma registry_ok_filter : forall f m, registry_ok m -> registry_ok (filter f m).
Proof.
  intros f m [Hwf Hall]. split.
  - unfold JSMap.wf in *. induction m as [|[k v] m IH]; [constructor|].
    cbn [JSMap.keys map fst] in Hwf. inversion Hwf as [|x l Hnot Hnd]; subst.
    inversion Hall as [|x l _ Hall']; subst.
    cbn [filter]. destruct (f (k, v)); [|apply (IH Hnd Hall')].
    cbn [JSMap.keys map fst]. constructor; [|apply (IH Hnd Hall')].
    intros Hin. apply Hnot. apply (keys_filter_incl f m k Hin).
  - apply Forall_forall. intros kv Hin. apply filter_In in Hin as [Hin _].
    rewrite Forall_forall in Hall. apply Hall, Hin.
Qed.

Lemma entry_is_ok : forall E start dto res,
  res_status res = CampaignStatus.PAUSED ->
  expiresAt (entry E start dto res) <> None ->
  entry_ok (campaignId res, entry E start dto res).
Proof.
  intros E start dto res H Hend.
  repeat split; [discriminate|exact H|discriminate|exact Hend].
Qed.

Lemma active_after_set : forall k v m id,
  sc_status v = StoredStatus.ACTIVE ->
  (id = k \/ active_under id m) -> active_under id (JSMap.set k v m).
Proof.
  intros k v m id Hv H. unfold active_under.
  destruct (String.eqb_spec id k) as [->|Hne].
  - exists v. split; [apply get_set|exact Hv].
  - destruct H as [H|[stored [Hget Hst]]]; [contradiction|].
    exists stored. split; [|exact Hst].
    rewrite (get_set_other _ _ _ _ Hne). exact Hget.
Qed.

(** The two outcomes of [createExpressCampaign]. *)
Lemma express_outcome : forall dto E w,
  exists w' r,
    createExpressCampaign dto E w = (w', r) /\
    articles w' = articles w /\
    match r with
    | Ok res =>
        res_status res = CampaignStatus.PAUSED /\
        expiresAt (entry E (clock E (ticks w)) dto res) <> None /\
        campaigns w' =
          JSMap.set (campaignId res) (entry E (clock E (ticks w)) dto res) (campaigns w)
    | Throw e =>
        campaigns w' = campaigns w /\
        exists m, JS.get (GoogleAdsService.as_any e) "message" = Ok m
    end.
Proof.
  intros dto E w.
  destruct (ArticlesService.findOne (dto_articleId dto) w) as [article|] eqn:Hfind.
  - rewrite (express_run dto article E w Hfind).
    destruct (saga_frame (express_config E (clock E (ticks w)) dto article) E
                (set_ticks (S (ticks w)) w))
      as [w2 [r [resp [rest [Hrun [_ [Hc [Ha [_ [_ [_ Hr]]]]]]]]]]].
    rewrite Hrun. destruct r as [res|e].
    + eexists. eexists. split; [reflexivity|].
      cbn [articles campaigns set_campaigns]. split; [exact Ha|].
      destruct Hr as [Hp [_ Hend]].
      split; [exact Hp|]. split; [exact Hend|]. rewrite Hc. reflexivity.
    + exists w2, (Throw e). split; [reflexivity|]. split; [exact Ha|].
      split; [exact Hc|].
      destruct Hr as [[[m ->]|[body [st [-> _]]]] _]; eexists; reflexivity.
  - unfold createExpressCampaign. unfold bind at 1. unfold gets at 1.
    rewrite Hfind. eexists. eexists. split; [reflexivity|].
    split; [reflexivity|]. split; [reflexivity|]. eexists. reflexivity.
Qed.

(** One turn of the loop of [autoCreateFromTrends]. *)
Lemma create_for_match_run : forall results m E w,
  exists w' added,
    create_for_match results m E w = (w', Ok (results ++ added)%list) /\
    (List.length added <= 1)%nat /\
    Forall (fun r => res_status r = CampaignStatus.PAUSED /\
                     active_under (campaignId r) (campaigns w')) added /\
    (forall id, active_under id (campaigns w) -> active_under id (campaigns w')) /\
    (registry_ok (campaigns w) -> registry_ok (campaigns w')) /\
    articles w' = articles w.
Proof.
  intros results m E w. unfold create_for_match.
  destruct (express_outcome
              (mkCreateExpressCampaignDto (art_id (article m)) (keyword (trend m))
                                          None None) E w)
    as [w1 [r [Hrun [Ha Hr]]]].
  unfold try_catch. unfold bind at 1. rewrite Hrun.
  destruct r as [res|e].
  - destruct Hr as [Hp [Hend Hc]].
    unfold delay, sleep, modify, bind, ret.
    eexists. exists [res]. split; [reflexivity|].
    cbn [campaigns articles set_trace List.length].
    split; [lia|]. rewrite Hc.
    split; [|split; [|split]].
    + constructor; [|constructor]. split; [exact Hp|].
      apply active_after_set; [reflexivity|left; reflexivity].
    + intros id Hid. apply active_after_set; [reflexivity|right; exact Hid].
    + apply registry_ok_set, entry_is_ok; assumption.
    + exact Ha.
  - destruct Hr as [Hc [msg Hmsg]].
    unfold bind, lift, ret. rewrite Hmsg.
    exists w1, []. rewrite app_nil_r. split; [reflexivity|].
    cbn [List.length]. split; [lia|]. rewrite Hc.
    split; [constructor|]. split; [auto|]. split; [auto|exact Ha].
Qed.

Lemma auto_loop : forall E ms results w,
  exists w' added,
    foldM create_for_match ms results E w = (w', Ok (results ++ added)%list) /\
    (List.length added <= List.length ms)%nat /\
    Forall (fun r => res_status r = CampaignStatus.PAUSED /\
                     active_under (campaignId r) (campaigns w')) added /\
    (forall id, active_under id (campaigns w) -> active_under id (campaigns w')) /\
    (registry_ok (campaigns w) -> registry_ok (campaigns w')) /\
    articles w' = articles w /\
    (ms = [] -> w' = w).
Proof.
  intros E. induction ms as [|m ms IH]; intros results w; cbn [foldM].
  - exists w, []. rewrite app_nil_r. unfold ret.
    split; [reflexivity|]. split; [cbn; lia|]. split; [constructor|].
    split; [auto|]. split; [auto|]. split; reflexivity.
  - destruct (create_for_match_run results m E w)
      as [w1 [added1 [Hrun [Hlen1 [Hall1 [Hact1 [Hok1 Ha1]]]]]]].
    destruct (IH (results ++ added1)%list w1)
      as [w' [added [Hrest [Hlen [Hall [Hact [Hok [Ha _]]]]]]]].
    exists w', (added1 ++ added)%list.
    unfold bind at 1. rewrite Hrun, Hrest, <- app_assoc.
    split; [reflexivity|].
    split; [rewrite length_app; cbn [List.length]; lia|].
    split.
    { apply Forall_app. split; [|exact Hall].
      apply (Forall_impl _ (P := fun r => res_status r = CampaignStatus.PAUSED /\
                                          active_under (campaignId r) (campaigns w1)));
        [|exact Hall1].
      intros r [Hp Hr]. split; [exact Hp|apply Hact, Hr]. }
    split; [intros id Hid; apply Hact, Hact1, Hid|].
    split; [intros H; apply Hok, Hok1, H|].
    split; [congruence|discriminate].
Qed.

Lemma enumeration_length : forall E pairs k,
  (List.length (enumeration E k pairs) <= List.length pairs)%nat.
Proof.
  intros E. induction pairs as [|[t a] pairs IH]; intros k; cbn [enumeration List.length].
  - lia.
  - specialize (IH (S k)).
    destruct (0 <? relevance (clock E k) t a); cbn [List.length]; lia.
Qed.

Lemma slice0_length : forall {A} n (xs : list A),
  (List.length (JSArray.slice0 n xs) <= List.length xs)%nat /\
  (0 <= n -> (List.length (JSArray.slice0 n xs) <= Z.to_nat n)%nat).
Proof.
  intros A n xs. unfold JSArray.slice0.
  destruct (Z.leb_spec 0 n); rewrite length_firstn; split; lia.
Qed.

(** A sweep leaves a part of the registry. *)
Lemma cleanup_run : forall E w,
  JSMap.wf (campaigns w) ->
  exists w' r keep,
    cleanupExpiredCampaigns E w = (w', r) /\
    campaigns w' = filter keep (campaigns w).
Proof.
  intros E w Hwf. eexists. eexists. eexists. split.
  - apply (cleanup_unfold E w Hwf).
  - reflexivity.
Qed.

Section Serve.
Variable getDailyTrends : option string -> M (list TrendingSearch).

(** The trends service does not reach the registry. *)
Hypothesis trends_frame :
  forall geo E w, campaigns (fst (getDailyTrends geo E w)) = campaigns w.

Lemma auto_run : forall geo n E w,
  registry_ok (campaigns w) ->
  registry_ok (campaigns (fst (autoCreateFromTrends getDailyTrends geo n E w))).
Proof.
  intros geo n E w Hok. unfold autoCreateFromTrends.
  unfold bind at 1. pose proof (trends_frame geo E w) as Hf.
  destruct (getDailyTrends geo E w) as [w1 [trends|e]]; cbn [fst] in Hf.
  - unfold bind at 1. rewrite matchWithTrends_run.
    match goal with
    | |- context [foldM create_for_match ?ms [] E ?w2] =>
        destruct (auto_loop E ms [] w2) as [w' [added [Hrun [_ [_ [_ [Hreg _]]]]]]]
    end.
    rewrite Hrun. cbn [fst]. apply Hreg.
    cbn [campaigns set_ticks]. rewrite Hf. exact Hok.
  - cbn [fst]. rewrite Hf. exact Hok.
Qed.

Lemma serve_run : forall rq E w,
  registry_ok (campaigns w) ->
  exists w', serve getDailyTrends rq E w = (w', Ok tt) /\
             registry_ok (campaigns w').
Proof.
  intros rq E w Hok.
  assert (Hwrap : forall {A} (m : M A),
             registry_ok (campaigns (fst (m E w))) ->
             exists w', try_catch (m ;; ret tt) (fun _ => ret tt) E w = (w', Ok tt) /\
                        registry_ok (campaigns w')).
  { intros A m H. unfold try_catch, bind, ret.
    destruct (m E w) as [w1 [a|e]]; exists w1; (split; [reflexivity|exact H]). }
  assert (Hunit : forall (m : M unit),
             registry_ok (campaigns (fst (m E w))) ->
             exists w', try_catch m (fun _ => ret tt) E w = (w', Ok tt) /\
                        registry_ok (campaigns w')).
  { intros m H. unfold try_catch, ret.
    destruct (m E w) as [w1 [[]|e]]; exists w1; (split; [reflexivity|exact H]). }
  assert (Hop : forall op id,
             registry_ok (campaigns (fst (run op id E w)))).
  { intros op id.
    destruct (JSMap.get id (campaigns w)) as [c|] eqn:Hget.
    - rewrite (run_cases op id c E w Hget).
      destruct (platform E (trace w) _) as [n|f]; cbn [fst campaigns set_campaigns set_trace];
        [|exact Hok].
      destruct op; cbn [applied].
      + apply registry_ok_status; [discriminate|exact Hok].
      + apply registry_ok_status; [discriminate|exact Hok].
      + apply registry_ok_delete, Hok.
    - destruct op; cbn [run]; unfold pauseCampaign, enableCampaign, removeCampaign;
        unfold bind, gets; rewrite Hget; exact Hok. }
  unfold serve. destruct rq as [dto|dto|geo n|id|id|id|].
  - apply Hwrap. rewrite custom_run.
    destruct (saga_frame (custom_config E (clock E (ticks w)) dto) E
                (set_ticks (S (ticks w)) w))
      as [w2 [r [resp [rest [Hrun [_ [Hc _]]]]]]].
    rewrite Hrun. cbn [fst]. rewrite Hc. exact Hok.
  - apply Hwrap.
    destruct (express_outcome dto E w) as [w1 [r [Hrun [_ Hr]]]].
    rewrite Hrun. cbn [fst]. destruct r as [res|e].
    + destruct Hr as [Hp [Hend ->]].
      apply registry_ok_set; [apply entry_is_ok; assumption|exact Hok].
    + destruct Hr as [-> _]. exact Hok.
  - apply Hwrap. apply auto_run, Hok.
  - apply Hunit. apply (Hop Pause id).
  - apply Hunit. apply (Hop Enable id).
  - apply Hunit. apply (Hop Remove id).
  - apply Hwrap.
    destruct (cleanup_run E w (proj1 Hok)) as [w' [n [keep [Hrun Hc]]]].
    rewrite Hrun. cbn [fst]. rewrite Hc. apply registry_ok_filter, Hok.
Qed.

(** X24. Whatever calls are made of the service, and whether they return or
    throw, the registry keeps one entry per campaign id, each entry
    under the id of its campaign and with valid dates; an entry is
    ACTIVE or PAUSED, never EXPIRED, a status that nothing sets; and
    the result kept in an entry says PAUSED, also when the campaign
    was enabled. *)
Theorem registry_stays_well_formed :
  forall rqs E w,
    registry_ok (campaigns w) ->
    exists w',
      serve_all getDailyTrends rqs E w = (w', Ok tt) /\
      registry_ok (campaigns w').
Proof.
  unfold serve_all. induction rqs as [|rq rqs IH]; intros E w Hok; cbn [foldM].
  - exists w. split; [reflexivity|exact Hok].
  - destruct (serve_run rq E w Hok) as [w1 [Hrun Hok1]].
    destruct (IH E w1 Hok1) as [w' [Hrest Hok']].
    exists w'. unfold bind at 1. rewrite Hrun. split; assumption.
Qed.
End Serve.

Lemma registry_stays_well_formed_witness :
  let rqs :=
    [CreateExpressCampaign (mkCreateExpressCampaignDto "a1" "elecciones" None None);
     PauseCampaign "42"; CleanupExpiredCampaigns; EnableCampaign "42";
     AutoCreateFromTrends None 3; RemoveCampaign "7"] in
  (forall geo E w, campaigns (fst (Feeds.two_trends geo E w)) = campaigns w) /\
  registry_ok (campaigns Scenario.empty_world) /\
  exists w',
    serve_all Feeds.two_trends rqs Scenario.working Scenario.empty_world = (w', Ok tt) /\
    registry_ok (campaigns w').
Proof.
  intros rqs.
  assert (Hframe : forall geo E w,
             campaigns (fst (Feeds.two_trends geo E w)) = campaigns w)
    by reflexivity.
  assert (Hok : registry_ok (campaigns Scenario.empty_world))
    by (split; constructor).
  split; [exact Hframe|]. split; [exact Hok|].
  apply (registry_stays_well_formed Feeds.two_trends Hframe rqs
           Scenario.working Scenario.empty_world Hok).
Defined.

End RegistryInvariant.

Module AutoClaims.
Import Platform CampaignsService RegistrySpec ServiceSpec MapFacts RegistryFacts.
Import ArticlesService MatcherSpec MatcherRun SortFacts RegistryInvariant.

(** X25. Once the trends are there, [autoCreateFromTrends] returns: a campaign
    that cannot be created is skipped.  For a limit that is not negative
    it returns at most that many results, and never more than there are
    pairs of a trend and an article; every result says PAUSED and has an
    ACTIVE entry under its campaign id in the registry.  With a limit
    of 0, without trends or without articles nothing is created and no
    request goes to the platform. *)
Theorem auto_creation_is_bounded_and_registered :
  forall getDailyTrends geo n E w w1 trends,
    getDailyTrends geo E w = (w1, Ok trends) ->
    exists w' results,
      autoCreateFromTrends getDailyTrends geo n E w = (w', Ok results) /\
      (0 <= n -> (List.length results <= Z.to_nat n)%nat) /\
      (List.length results <= List.length trends * List.length (findAll w1))%nat /\
      Forall (fun r => res_status r = CampaignStatus.PAUSED /\
                       active_under (campaignId r) (campaigns w')) results /\
      (n = 0 \/ trends = [] \/ findAll w1 = [] ->
       results = [] /\ trace w' = trace w1 /\ campaigns w' = campaigns w1).
Proof.
  intros getDailyTrends geo n E w w1 trends Htrends.
  unfold autoCreateFromTrends. unfold bind at 1. rewrite Htrends.
  unfold bind at 1. rewrite matchWithTrends_run.
  set (matches := JSArray.sort compare_matches
                    (enumeration E (ticks w1) (list_prod trends (findAll w1)))).
  set (w2 := set_ticks (ticks w1 + List.length (list_prod trends (findAll w1))) w1).
  destruct (auto_loop E (JSArray.slice0 n matches) [] w2)
    as [w' [added [Hrun [Hlen [Hall [_ [_ [_ Hnil]]]]]]]].
  cbn [app] in Hrun. exists w', added. split; [exact Hrun|].
  destruct (slice0_length n matches) as [Hall_le Hn_le].
  assert (Hmatches : (List.length matches
                      <= List.length trends * List.length (findAll w1))%nat).
  { subst matches. rewrite (Permutation_length (sort_perm _)).
    rewrite <- length_prod. apply enumeration_length. }
  split; [intros Hn; specialize (Hn_le Hn); lia|].
  split; [lia|]. split; [exact Hall|].
  intros Hempty.
  assert (Hslice : JSArray.slice0 n matches = []).
  { destruct Hempty as [->|[->|Hnone]].
    - reflexivity.
    - subst matches. cbn [list_prod enumeration JSArray.sort].
      unfold JSArray.slice0. destruct (0 <=? n); apply firstn_nil.
    - subst matches. rewrite Hnone, list_prod_nil_r.
      cbn [enumeration JSArray.sort].
      unfold JSArray.slice0. destruct (0 <=? n); apply firstn_nil. }
  rewrite Hslice in Hlen. specialize (Hnil Hslice). subst w'.
  destruct added; [|cbn in Hlen; lia].
  repeat split.
Qed.

Lemma auto_creation_is_bounded_and_registered_witness :
  let E := Scenario.working in
  let w := Scenario.empty_world in
  exists w' results,
    autoCreateFromTrends Feeds.two_trends None 1 E w = (w', Ok results) /\
    (0 <= 1 -> (List.length results <= Z.to_nat 1)%nat) /\
    (List.length results
     <= List.length [Cases.vote_lower; Cases.football] * List.length (findAll w))%nat /\
    Forall (fun r => res_status r = CampaignStatus.PAUSED /\
                     active_under (campaignId r) (campaigns w')) results /\
    (1 = 0 \/ [Cases.vote_lower; Cases.football] = [] \/ findAll w = [] ->
     results = [] /\ trace w' = trace w /\ campaigns w' = campaigns w).
Proof.
  intros E w.
  apply (auto_creation_is_bounded_and_registered Feeds.two_trends None 1 E w w
           [Cases.vote_lower; Cases.football]).
  reflexivity.
Defined.

(** A negative limit does not stop the creation: [slice(0, n)] then drops
    the last [-n] matches only.  With three trends matched with one
    article and the limit -1, two campaigns are created. *)
Example negative_limit_creates_campaigns :
  let feed (geo : option string) : M (list TrendingSearch) :=
    ret [Cases.vote_lower; Cases.football; Cases.vote] in
  let w := mkWorld [] 0 [] [("a1", Scenario.elections)] None None in
  List.length (match snd (autoCreateFromTrends feed None (-1) Scenario.working w) with
               | Ok results => results
               | Throw _ => []
               end) = 2%nat.
Proof. vm_compute. reflexivity. Qed.

End AutoClaims.

(** ** The count of a sweep *)

Module SweepCount.
Import Platform CampaignsService RegistrySpec MapFacts RegistryFacts SweepFacts.





End SweepCount.

(** ** The trends service *)

Module TrendsFacts.
Import GoogleTrendsService TrendsSpec.

Lemma or_filled : forall v, filled (JS.or v (JStr "")) = true.
Proof.
  intros v. unfold filled, JS.or. destruct (JS.truthy v) eqn:H.
  - rewrite H. reflexivity.
  - reflexivity.
Qed.

Lemma get_present : forall v k, JS.nullish v = false -> JS.get v k = Ok (JS.prop v k).
Proof. intros v k H. unfold JS.get. rewrite H. reflexivity. Qed.

Lemma get_returns : forall v k x, JS.get v k = Ok x -> JS.nullish v = false.
Proof.
  intros v k x H. unfold JS.get in H. destruct (JS.nullish v); [discriminate|reflexivity].
Qed.

Lemma mapR_all : forall {A} (f : value -> result A) (P : A -> bool) items ys,
  (forall x y, f x = Ok y -> P y = true) ->
  mapR f items = Ok ys -> forallb P ys = true.
Proof.
  intros A f P. induction items as [|x items IH]; intros ys Hf H; cbn [mapR] in H.
  - injection H as <-. reflexivity.
  - destruct (f x) as [y|] eqn:Hx; cbn [rbind] in H; [|discriminate].
    destruct (mapR f items) as [ys'|]; cbn [rbind] in H; [|discriminate].
    injection H as <-. cbn [forallb]. rewrite (Hf x y Hx), (IH ys' Hf eq_refl).
    reflexivity.
Qed.

Lemma mapR_related : forall {A} (f : value -> result A) (R : value -> A -> Prop)
                            items ys,
  (forall x y, f x = Ok y -> R x y) ->
  mapR f items = Ok ys -> Forall2 R items ys.
Proof.
  intros A f R. induction items as [|x items IH]; intros ys Hf H; cbn [mapR] in H.
  - injection H as <-. constructor.
  - destruct (f x) as [y|] eqn:Hx; cbn [rbind] in H; [|discriminate].
    destruct (mapR f items) as [ys'|]; cbn [rbind] in H; [|discriminate].
    injection H as <-. constructor; [apply Hf, Hx|apply (IH ys' Hf eq_refl)].
Qed.

(** The keyword and the traffic of a trend are those of the search, or
    the defaults. *)
Lemma dailyTrend_fields : forall trend t,
  dailyTrend trend = Ok t -> reads trend t.
Proof.
  intros trend t H. unfold dailyTrend in H.
  destruct (JS.nullish trend) eqn:Hn.
  { unfold JS.get in H. rewrite Hn in H. discriminate. }
  rewrite !(get_present _ _ Hn) in H. cbn [rbind] in H.
  destruct (map_opt _ (JS.prop trend "relatedQueries")) as [qs|];
    cbn [rbind] in H; [|discriminate].
  destruct (map_opt _ (JS.prop trend "articles")) as [arts|];
    cbn [rbind] in H; [|discriminate].
  injection H as <-. split; reflexivity.
Qed.

(** [mapR] returns exactly when the callback returns on every element. *)
Lemma mapR_returns : forall {A} (f : value -> result A) (ok : value -> bool) items,
  (forall x, ok x = true -> exists y, f x = Ok y) ->
  (forall x, ok x = false -> exists e, f x = Throw (TypeError e)) ->
  if forallb ok items
  then exists ys, mapR f items = Ok ys
  else exists e, mapR f items = Throw (TypeError e).
Proof.
  intros A f ok items Hyes Hno. induction items as [|x items IH]; cbn [forallb mapR].
  - eexists. reflexivity.
  - destruct (ok x) eqn:Hx; cbn [andb].
    + destruct (Hyes x Hx) as [y ->]. cbn [rbind].
      destruct (forallb ok items).
      * destruct IH as [ys ->]. cbn [rbind]. eexists. reflexivity.
      * destruct IH as [e ->]. cbn [rbind]. eexists. reflexivity.
    + destruct (Hno x Hx) as [e ->]. cbn [rbind]. eexists. reflexivity.
Qed.

Lemma get_cases : forall k x,
  if negb (JS.nullish x)
  then exists y, JS.get x k = Ok y
  else exists e, JS.get x k = Throw (TypeError e).
Proof.
  intros k x. unfold JS.get. destruct (JS.nullish x); cbn [negb]; eexists; reflexivity.
Qed.

Lemma trendArticle_cases : forall x,
  if negb (JS.nullish x)
  then exists a, trendArticle x = Ok a /\ article_filled a = true
  else exists e, trendArticle x = Throw (TypeError e).
Proof.
  intros x. unfold trendArticle, JS.get.
  destruct (JS.nullish x); cbn [negb rbind]; [eexists; reflexivity|].
  eexists. split; [reflexivity|].
  unfold article_filled. cbn [td_title td_url td_source td_snippet].
  rewrite !or_filled. reflexivity.
Qed.

(** [map_opt] over a list that can be read, and over one that cannot. *)
Lemma map_opt_cases : forall {A} (f : value -> result A) xs,
  (forall x, JS.nullish x = false -> exists y, f x = Ok y) ->
  (forall x, JS.nullish x = true -> exists e, f x = Throw (TypeError e)) ->
  if readable_list xs
  then exists ys, map_opt f xs = Ok ys
  else exists e, map_opt f xs = Throw (TypeError e).
Proof.
  intros A f xs Hyes Hno. unfold readable_list, map_opt, map_items.
  destruct (JS.nullish xs) eqn:Hn; cbn [orb]; [eexists; reflexivity|].
  destruct xs as [| |b|n|s|items|fields]; cbn [JS.isArray andb JS.items_of];
    try discriminate; try (eexists; reflexivity).
  apply (mapR_returns f (fun x => negb (JS.nullish x)) items).
  - intros x Hx. apply Hyes. apply negb_true_iff, Hx.
  - intros x Hx. apply Hno. apply negb_false_iff, Hx.
Qed.

Lemma dailyTrend_cases : forall trend,
  if trend_readable trend
  then exists t, dailyTrend trend = Ok t /\ trend_filled t = true
  else exists e, dailyTrend trend = Throw (TypeError e).
Proof.
  intros trend. unfold trend_readable, dailyTrend.
  destruct (JS.nullish trend) eqn:Hn; cbn [negb andb].
  { unfold JS.get. rewrite Hn. cbn [rbind]. eexists. reflexivity. }
  rewrite !(get_present _ _ Hn). cbn [rbind].
  pose proof (map_opt_cases (fun q => JS.get q "query")
                (JS.prop trend "relatedQueries")) as Hq.
  destruct (readable_list (JS.prop trend "relatedQueries")); cbn [andb].
  - destruct Hq as [qs ->].
    { intros x Hx. rewrite (get_present _ _ Hx). eexists. reflexivity. }
    { intros x Hx. unfold JS.get. rewrite Hx. eexists. reflexivity. }
    cbn [rbind].
    pose proof (map_opt_cases trendArticle (JS.prop trend "articles")) as Ha.
    destruct (readable_list (JS.prop trend "articles")).
    + destruct Ha as [arts Harts].
      { intros x Hx. pose proof (trendArticle_cases x) as H.
        rewrite Hx in H. destruct H as [a [H _]]. eauto. }
      { intros x Hx. pose proof (trendArticle_cases x) as H.
        rewrite Hx in H. exact H. }
      rewrite Harts. cbn [rbind]. eexists. split; [reflexivity|].
      unfold trend_filled. cbn [tr_keyword tr_traffic tr_articles].
      rewrite or_filled. cbn [andb].
      assert (Htr : forall v, JS.truthy (JS.or v (JStr "0")) = true).
      { intros v. unfold JS.or. destruct (JS.truthy v) eqn:H; [exact H|reflexivity]. }
      rewrite Htr. cbn [andb].
      unfold map_opt, map_items in Harts.
      destruct (JS.nullish (JS.prop trend "articles")).
      * injection Harts as <-. reflexivity.
      * destruct (JS.prop trend "articles"); try discriminate.
        apply (mapR_all trendArticle article_filled _ _) with (2 := Harts).
        intros x y Hxy. pose proof (trendArticle_cases x) as H.
        destruct (negb (JS.nullish x)).
        -- destruct H as [a [Ha' Hf]]. congruence.
        -- destruct H as [e He]. congruence.
    + destruct Ha as [e ->].
      { intros x Hx. pose proof (trendArticle_cases x) as H.
        rewrite Hx in H. destruct H as [a [H _]]. eauto. }
      { intros x Hx. pose proof (trendArticle_cases x) as H.
        rewrite Hx in H. exact H. }
      cbn [rbind]. eexists. reflexivity.
  - destruct Hq as [e ->].
    { intros x Hx. rewrite (get_present _ _ Hx). eexists. reflexivity. }
    { intros x Hx. unfold JS.get. rewrite Hx. eexists. reflexivity. }
    cbn [rbind]. eexists. reflexivity.
Qed.

Lemma distinct_from_in : forall xs seen x,
  In x (distinct_from seen xs) -> In x xs /\ existsb (same_value x) seen = false.
Proof.
  induction xs as [|y xs IH]; intros seen x H; [destruct H|].
  cbn [distinct_from] in H.
  destruct (existsb (same_value y) seen) eqn:Hy.
  - destruct (IH seen x H) as [Hin Hs]. split; [right; exact Hin|exact Hs].
  - destruct H as [<-|H].
    + split; [left; reflexivity|exact Hy].
    + destruct (IH (y :: seen) x H) as [Hin Hs]. split; [right; exact Hin|].
      cbn [existsb] in Hs. apply orb_false_iff in Hs as [_ Hs]. exact Hs.
Qed.

Lemma same_value_sym : forall a b, same_value a b = same_value b a.
Proof.
  intros [| |x|x|x|x|x] [| |y|y|y|y|y]; cbn [same_value]; try reflexivity.
  - destruct x, y; reflexivity.
  - apply Z.eqb_sym.
  - apply String.eqb_sym.
Qed.





Lemma or_text_value : forall text fallback,
  JS.or (match text with Some t => JStr t | None => JUndefined end) (JStr fallback)
    = JStr (text_or text fallback).
Proof.
  intros [t|] fallback; [|reflexivity].
  unfold JS.or, text_or, or_text. cbn [JS.truthy].
  destruct (t =? "")%string; reflexivity.
Qed.

Lemma queries_read : forall qs,
  mapR (fun q => JS.get q "query") (map query_value qs) = Ok (map JStr qs).
Proof.
  induction qs as [|q qs IH]; [reflexivity|].
  cbn [map mapR]. rewrite IH. reflexivity.
Qed.

Lemma article_read : forall a,
  trendArticle (article_value a) = Ok (article_data (typed_article a)).
Proof.
  intros [t u s n]. unfold trendArticle, article_value, article_data, typed_article.
  cbn [aa_title aa_url aa_source aa_snippet ta_title ta_url ta_source ta_snippet].
  rewrite <- !or_text_value.
  destruct t, u, s, n; reflexivity.
Qed.

Lemma articles_read : forall arts,
  mapR trendArticle (map article_value arts)
    = Ok (map article_data (map typed_article arts)).
Proof.
  induction arts as [|a arts IH]; [reflexivity|].
  cbn [map mapR]. rewrite article_read, IH. reflexivity.
Qed.

Lemma or_text_some : forall t fallback,
  JS.or (JStr t) (JStr fallback) = JStr (text_or (Some t) fallback).
Proof. intros t fallback. apply (or_text_value (Some t)). Qed.

Lemma search_read : forall s,
  dailyTrend (search_value s) = Ok (trend_data (typed_trend s)).
Proof.
  intros [q t r a]. unfold dailyTrend, trend_data, typed_trend, search_value.
  cbn [keyword traffic relatedQueries trend_articles
         as_query as_traffic as_related as_articles].
  destruct q as [q|], t as [t|], r as [qs|], a as [arts|];
    cbn [Platform.opt_field app JS.get JS.nullish JS.prop JS.lookup String.eqb
           Ascii.eqb Bool.eqb rbind JS.get_opt query_value list_or
           map_opt map_items];
    rewrite ?or_text_some; cbn [JS.or JS.truthy];
    rewrite ?queries_read, ?articles_read; cbn [rbind map];
    reflexivity.
Qed.

Lemma searches_read : forall searches,
  mapR dailyTrend (map search_value searches)
    = Ok (map trend_data (map typed_trend searches)).
Proof.
  induction searches as [|s searches IH]; [reflexivity|].
  cbn [map mapR]. rewrite search_read, IH. reflexivity.
Qed.

Section Api.
Variable config : TrendsConfig.
Variable dailyTrends : string -> string -> M string.
Variable relatedQueries : value -> string -> string -> M string.
Variable JSON_parse : string -> result value.

End Api.

End TrendsFacts.

Module TrendsClaims.
Import GoogleTrendsService TrendsSpec TrendsFacts.

(** X28. What [getDailyTrends] makes of an answer of the API that the parser
    reads as [data], not null.  Without a list at
    [default.trendingSearchesDays[0].trendingSearches] (any of the links
    missing, or the list falsy) it returns no trend.  For a list of
    trending searches that can be read, it returns one trend for each, in
    order, whose keyword is [title.query] of the search and whose traffic
    is its [formattedTraffic], or the empty text and '0' when these are
    missing or falsy; no text of an article is missing either.  For a
    list that holds a search that cannot be read
    (null, or with related queries or articles that are not arrays, or
    hold null) and for a value that is not a list it throws a
    [TypeError]. *)
Theorem daily_trends_of_an_answer :
  forall config dailyTrends JSON_parse geo E w w1 text data,
    dailyTrends (or_text geo (tc_geo config)) (tc_language config) E w = (w1, Ok text) ->
    JSON_parse text = Ok data ->
    JS.nullish data = false ->
    let run := getDailyTrends config dailyTrends JSON_parse geo E w in
    (JS.truthy (searches_of data) = false -> run = (w1, Ok [])) /\
    (forall items, searches_of data = JArr items ->
       if forallb trend_readable items
       then exists trends,
              run = (w1, Ok trends) /\
              Forall2 reads items trends /\
              forallb trend_filled trends = true
       else exists e, run = (w1, Throw (TypeError e))) /\
    (JS.truthy (searches_of data) = true -> JS.isArray (searches_of data) = false ->
     exists e, run = (w1, Throw (TypeError e))).
Proof.
  intros config dailyTrends JSON_parse geo E w w1 text data Hapi Hparse Hdata run.
  assert (Hrun : run =
            (w1, map_items dailyTrend (JS.or (searches_of data) (JArr [])))).
  { subst run. unfold getDailyTrends, try_catch. unfold bind at 1. rewrite Hapi.
    unfold bind at 1. unfold lift at 1. rewrite Hparse.
    unfold bind at 1. unfold lift at 1. unfold listed.
    rewrite (get_present _ _ Hdata). cbn [rbind].
    fold (searches_of data). unfold lift, throw.
    destruct (map_items dailyTrend (JS.or (searches_of data) (JArr [])));
      reflexivity. }
  rewrite Hrun. clear Hrun. unfold JS.or.
  split; [intros ->; reflexivity|]. split.
  - intros items ->. cbn [JS.truthy map_items].
    pose proof (mapR_returns dailyTrend trend_readable items) as Hall.
    destruct (forallb trend_readable items).
    + destruct Hall as [trends Htrends].
      { intros x Hx. pose proof (dailyTrend_cases x) as H. rewrite Hx in H.
        destruct H as [t [H _]]. eauto. }
      { intros x Hx. pose proof (dailyTrend_cases x) as H. rewrite Hx in H. exact H. }
      exists trends. rewrite Htrends. split; [reflexivity|].
      split; [apply (mapR_related dailyTrend reads _ _ dailyTrend_fields Htrends)|].
      apply (mapR_all dailyTrend trend_filled _ _) with (2 := Htrends).
      intros x y Hxy. pose proof (dailyTrend_cases x) as H.
      destruct (trend_readable x).
      * destruct H as [t [Ht Hf]]. congruence.
      * destruct H as [e He]. congruence.
    + destruct Hall as [e ->].
      { intros x Hx. pose proof (dailyTrend_cases x) as H. rewrite Hx in H.
        destruct H as [t [H _]]. eauto. }
      { intros x Hx. pose proof (dailyTrend_cases x) as H. rewrite Hx in H. exact H. }
      eexists. reflexivity.
  - intros -> Harr. unfold map_items.
    destruct (searches_of data); try discriminate; eexists; reflexivity.
Qed.

Lemma daily_trends_of_an_answer_witness :
  let run := getDailyTrends TrendsCases.ar TrendsCases.dailyTrends
               TrendsCases.JSON_parse None Scenario.working Scenario.empty_world in
  snd run =
    Ok [mkTrendData (JStr "Elecciones 2025") (JStr "500K+")
          [JStr "resultados"; JStr "padron"]
          [mkTrendArticleData (JStr "Resultados") (JStr "https://diario.com/r")
                              (JStr "") (JStr "")];
        mkTrendData (JStr "") (JStr "0") [] []] /\
  (JS.truthy (searches_of TrendsCases.answer) = false ->
   run = (Scenario.empty_world, Ok [])) /\
  (forall items, searches_of TrendsCases.answer = JArr items ->
     if forallb trend_readable items
     then exists trends,
            run = (Scenario.empty_world, Ok trends) /\
            Forall2 reads items trends /\
            forallb trend_filled trends = true
     else exists e, run = (Scenario.empty_world, Throw (TypeError e))) /\
  (JS.truthy (searches_of TrendsCases.answer) = true ->
   JS.isArray (searches_of TrendsCases.answer) = false ->
   exists e, run = (Scenario.empty_world, Throw (TypeError e))).
Proof.
  intros run. split; [reflexivity|].
  apply (daily_trends_of_an_answer TrendsCases.ar TrendsCases.dailyTrends
           TrendsCases.JSON_parse None Scenario.working Scenario.empty_world
           Scenario.empty_world "daily" TrendsCases.answer); reflexivity.
Defined.

(** X30. When the answer of the API has the documented form (texts where
    texts are expected, any field possibly absent), [getDailyTrends]
    returns trends of the declared type [TrendingSearch], one for each
    search, in order: the query of the title or the empty text, the
    traffic or '0' (also for an empty traffic), the related queries, and
    the articles with the empty text for what is absent. *)
Theorem daily_trends_have_the_declared_type :
  forall config dailyTrends JSON_parse geo E w w1 text day searches,
    dailyTrends (or_text geo (tc_geo config)) (tc_language config) E w = (w1, Ok text) ->
    JSON_parse text = Ok (answer_value day searches) ->
    getDailyTrends config dailyTrends JSON_parse geo E w
      = (w1, Ok (map trend_data (map typed_trend searches))).
Proof.
  intros config dailyTrends JSON_parse geo E w w1 text day searches Hapi Hparse.
  unfold getDailyTrends, try_catch. unfold bind at 1. rewrite Hapi.
  unfold bind at 1. unfold lift at 1. rewrite Hparse.
  unfold bind at 1. unfold lift at 1.
  change (listed (answer_value day searches) "trendingSearchesDays" "trendingSearches")
    with (@Ok value (JArr (map search_value searches))).
  unfold lift, map_items. rewrite searches_read. reflexivity.
Qed.

Lemma daily_trends_have_the_declared_type_witness :
  let searches :=
    [mkApiSearch (Some "Elecciones 2025") (Some "500K+")
                 (Some ["resultados"; "padron"])
                 (Some [mkApiArticle (Some "Resultados") (Some "https://diario.com/r")
                                     None None]);
     mkApiSearch None None None None] in
  getDailyTrends TrendsCases.ar TrendsCases.dailyTrends TrendsCases.JSON_parse None
                 Scenario.working Scenario.empty_world
    = (Scenario.empty_world, Ok (map trend_data (map typed_trend searches))).
Proof.
  intros searches.
  apply (daily_trends_have_the_declared_type TrendsCases.ar TrendsCases.dailyTrends
           TrendsCases.JSON_parse None Scenario.working Scenario.empty_world
           Scenario.empty_world "daily" "20250115" searches); reflexivity.
Defined.



(** The turns determine the world that is left and the related queries
    that are returned. *)
Lemma turns_determined : forall fetch E trends w w1 top1 w2 top2,
  turns fetch E w trends w1 top1 ->
  turns fetch E w trends w2 top2 ->
  w1 = w2 /\ map tr_relatedQueries top1 = map tr_relatedQueries top2.
Proof.
  intros fetch E trends w w1 top1 w2 top2 H1. revert w2 top2.
  induction H1 as [w|w trend trends wa related after w' top Hf Hen _ IH
                    |w trend trends wa e w' top Hf _ IH];
    intros w2 top2 H2; inversion H2; subst.
  - split; reflexivity.
  - match goal with
    | H : fetch _ E w = (_, Ok _) |- _ => rewrite Hf in H; injection H as <- <-
    end.
    match goal with
    | H : turns _ _ _ trends _ _ |- _ => destruct (IH _ _ H) as [-> Htop]
    end.
    split; [reflexivity|]. cbn [map]. f_equal; [|exact Htop].
    match goal with
    | H : enriched_with _ _ _ |- _ => destruct H as [_ [_ [_ [-> _]]]]
    end.
    destruct Hen as [_ [_ [_ [-> _]]]]. reflexivity.
  - match goal with
    | H : fetch _ E w = (_, Throw _) |- _ => rewrite Hf in H; discriminate H
    end.
  - match goal with
    | H : fetch _ E w = (_, Ok _) |- _ => rewrite Hf in H; discriminate H
    end.
  - match goal with
    | H : fetch _ E w = (_, Throw _) |- _ => rewrite Hf in H; injection H as <- _
    end.
    match goal with
    | H : turns _ _ _ trends _ _ |- _ => destruct (IH _ _ H) as [-> Htop]
    end.
    split; [reflexivity|]. cbn [map]. f_equal. exact Htop.
Qed.

(** The run of the example: the first trend gets the fetched queries it
    did not have, the second one, whose queries cannot be fetched, stays
    as it is; one pause of a second is made. *)
Example top_trends_of_the_example :
  getTopTrendsWithKeywords TrendsCases.ar TrendsCases.dailyTrends
    TrendsCases.relatedQueries TrendsCases.JSON_parse None 5
    Scenario.working Scenario.empty_world =
  (set_trace [Platform.Slept 1000] Scenario.empty_world,
   Ok [mkTrendData (JStr "Elecciones 2025") (JStr "500K+")
         [JStr "resultados"; JStr "padron"; JStr "donde voto"]
         [mkTrendArticleData (JStr "Resultados") (JStr "https://diario.com/r")
                             (JStr "") (JStr "")];
       mkTrendData (JStr "") (JStr "0") [] []]).
Proof. reflexivity. Qed.

End TrendsClaims.
